(** * qutebrowser: the QtWebEngine tab

    A shallow embedding of [qutebrowser/browser/webengine/webenginetab.py]
    and the properties its specification states about it.

    The Python classes of the file share one mutable tab object; the
    embedding threads that object ([tab]) through a small state-and-exception
    monad ([M]).  Calls that leave the file (into the Qt widget, the page, or
    the abstract base classes of [browsertab]) are appended to a log of
    outgoing calls, so that "what was sent to the engine, and in which order"
    is a value theorems can talk about.

    Python data is kept as Python has it: [int] is [Z]; [float] is an IEEE 754
    binary64 value with the rounding of the hardware, taken from the
    specification of floating-point arithmetic of the Standard Library
    ([SpecFloat]); [str] is a list of Unicode code points.  Where a Python
    int enters a Qt object that holds C ints ([QPoint]), the range is
    checked as PyQt checks it. *)

From Stdlib Require Import ZArith NArith Bool List Lia.
From Stdlib Require Import Floats.SpecFloat.
From stdpp Require Import base option list strings.

#[local] Open Scope Z_scope.

(** ** Python values *)

Module Py.

(** The exceptions the modelled code can raise. *)
Inductive exception : Type :=
| ZeroDivisionError
| OverflowError
| ValueError
| AssertionError.

(** The result of evaluating an expression: a value, or a raised exception. *)
Inductive outcome (A : Type) : Type :=
| Return (a : A)
| Raise (e : exception).

Arguments Return {A} a.
Arguments Raise {A} e.

#[global] Instance outcome_ret : MRet outcome := @Return.

#[global] Instance outcome_bind : MBind outcome :=
  fun A B f m => match m with Return a => f a | Raise e => Raise e end.

(** *** float: IEEE 754 binary64 *)

Definition prec : Z := 53.
Definition emax : Z := 1024.

Definition float : Type := spec_float.

(** An [int] read as the fraction [z * 2^0]; the mantissa is exact and is
    not yet rounded to 53 bits. *)
Definition exact_int (z : Z) : float :=
  match z with
  | Z0 => S754_zero false
  | Zpos p => S754_finite false p 0
  | Zneg p => S754_finite true p 0
  end.

(** [a / b] on two ints: the quotient of the exact integers, rounded once
    (ties to even).  A zero divisor raises [ZeroDivisionError], a quotient
    beyond the largest float raises [OverflowError]. *)
Definition int_truediv (a b : Z) : outcome float :=
  if b =? 0 then Raise ZeroDivisionError
  else match SFdiv prec emax (exact_int a) (exact_int b) with
       | S754_infinity _ => Raise OverflowError
       | q => Return q
       end.

(** [float(z)]: the nearest float (ties to even); [OverflowError] when [z]
    is too large. *)
Definition float_of_int (z : Z) : outcome float :=
  match binary_normalize prec emax z 0 false with
  | S754_infinity _ => Raise OverflowError
  | f => Return f
  end.

(** [x * z] with a float on the left and an int on the right: the int is
    converted first, then the two floats are multiplied. *)
Definition float_mul_int (x : float) (z : Z) : outcome float :=
  y ← float_of_int z; Return (SFmul prec emax x y).

(** [m / 2^k] rounded to the nearest integer, ties to the even one. *)
Definition round_half_even_shift (m : Z) (k : positive) : Z :=
  let q := Z.shiftr m (Zpos k) in
  let r := Z.land m (Z.ones (Zpos k)) in
  let half := Z.shiftl 1 (Z.pred (Zpos k)) in
  match r ?= half with
  | Lt => q
  | Gt => q + 1
  | Eq => if Z.even q then q else q + 1
  end.

(** [round(x)] with one argument: the nearest int, ties to even;
    [OverflowError] on an infinity and [ValueError] on a NaN. *)
Definition round (x : float) : outcome Z :=
  match x with
  | S754_zero _ => Return 0
  | S754_infinity _ => Raise OverflowError
  | S754_nan => Raise ValueError
  | S754_finite s m e =>
      let a := match e with
               | Zneg k => round_half_even_shift (Zpos m) k
               | _ => Z.shiftl (Zpos m) e
               end in
      Return (if s then - a else a)
  end.

(** *** str: a sequence of code points *)

Definition str : Type := list N.

(** The case of a character in the Unicode character database. *)
Inductive casing : Type := Lowercase | Uppercase | Titlecase | Uncased.

Definition is_lower (c : casing) : bool :=
  match c with Lowercase => true | _ => false end.

Definition is_upper_or_title (c : casing) : bool :=
  match c with Uppercase | Titlecase => true | _ => false end.

(** [s.islower()]: no cased character of [s] is upper- or titlecase, and
    [s] has at least one lowercase character.  [casing_of] is the character
    database. *)
Definition islower (casing_of : N -> casing) (s : str) : bool :=
  forallb (fun c => negb (is_upper_or_title (casing_of c))) s
  && existsb (fun c => is_lower (casing_of c)) s.

Fixpoint lstrip (chars : list N) (s : str) : str :=
  match s with
  | c :: s' => if bool_decide (c ∈ chars) then lstrip chars s' else s
  | [] => []
  end.

Definition rstrip (chars : list N) (s : str) : str :=
  rev (lstrip chars (rev s)).

(** [s.strip(chars)]: leading and trailing characters of [chars] removed. *)
Definition strip (chars : list N) (s : str) : str :=
  rstrip chars (lstrip chars s).

(** A literal: the code points of an ASCII string. *)
Definition lit (s : string) : str :=
  map (fun c => N.of_nat (Ascii.nat_of_ascii c)) (String.list_ascii_of_string s).

(** The number of values [range(n)] yields: none when [n] is negative. *)
Definition range_len (n : Z) : nat := Z.to_nat n.

End Py.

(** ** Qt values

    Enumerations and value classes of Qt that the file passes around.  The
    numeric values of [QWebEnginePage.FindFlag] and of
    [QWebEngineScript.ScriptWorldId] are those Qt declares. *)

Module Qt.

Inductive Key : Type :=
| Key_Up | Key_Down | Key_Left | Key_Right
| Key_Home | Key_End | Key_PageUp | Key_PageDown | Key_Enter.

Inductive KeyboardModifier : Type := NoModifier | ControlModifier.

Inductive QEventType : Type := KeyPress | KeyRelease.

(** [QKeyEvent(type, key, modifier, 0, 0, 0)]; the three native codes are
    always zero in this file. *)
Record QKeyEvent : Type := {
  ev_type : QEventType;
  ev_key : Key;
  ev_modifiers : KeyboardModifier
}.

(** What a [QPoint] object holds.  Qt keeps the two coordinates as C ints;
    the range is checked where a point is made from Python ints
    ([new_QPoint]). *)
Record QPoint : Type := { x : Z; y : Z }.

Definition INT_MIN : Z := - 2 ^ 31.
Definition INT_MAX : Z := 2 ^ 31 - 1.

(** Whether a Python int fits a C int. *)
Definition is_c_int (z : Z) : bool := (INT_MIN <=? z) && (z <=? INT_MAX).

(** [QPoint(x, y)] on two Python ints: an int that does not fit a C int
    raises [OverflowError], and no point is made. *)
Definition new_QPoint (x0 y0 : Z) : Py.outcome QPoint :=
  if is_c_int x0 && is_c_int y0
  then Py.Return {| x := x0; y := y0 |}
  else Py.Raise Py.OverflowError.

(** [QWebEnginePage.FindFlags]: an int used as a set of bits. *)
Definition FindBackward : Z := 1.
Definition FindCaseSensitively : Z := 2.

Definition MainWorld : Z := 0.
Definition ApplicationWorld : Z := 1.
Definition UserWorld : Z := 2.

(** A [QUrl], kept as its text. *)
Definition QUrl : Type := Py.str.

End Qt.

(** ** The tab object and the log of outgoing calls *)

(** [javascript.assemble(module, function, *args)]: the call it spells. *)
Inductive js_arg : Type :=
| js_int (z : Z)
| js_none.

Record js_code : Type := {
  js_module : string;
  js_function : string;
  js_args : list js_arg
}.

(** Who asked for a find; [_find] passes it on for the debug log. *)
Inductive caller : Type := by_search | by_prev_result | by_next_result.

(** The callables handed to the engine.  A user callback is known by a
    number only: the file never looks inside one. *)
Inductive callback : Type :=
| update_pos_cb_of_scroller
| js_cb_single (user_callback : nat)
| wrapped_callback (who : caller) (result_cb : option nat).

(** One call that leaves the file. *)
Inductive call : Type :=
| findText (text : Py.str) (flags : Z) (cb : option callback)
| send_event (evt : Qt.QKeyEvent)
| runJavaScript (code : js_code) (world_id : Z) (cb : option callback)
| setZoomFactor (factor : Py.float)
| _openurl_prepare (url : Qt.QUrl)
| load (url : Qt.QUrl)
| perc_changed_emit (perc_x perc_y : Z)
| add_history_item_emit (url requested_url : Qt.QUrl) (title : Py.str)
| _on_load_finished_of_AbstractTab (ok : bool).

(** A reference to a [QFlags] object: its index in [flag_objects]. *)
Definition ref : Type := nat.

(** [WebEngineSearch]'s attributes. *)
Record search_obj : Type := {
  text : Py.str;
  _flags : ref;
  search_displayed : bool
}.

(** [WebEngineScroller]'s attributes. *)
Record scroller_obj : Type := {
  _pos_perc : Z * Z;
  _pos_px : Qt.QPoint;
  _at_bottom : bool
}.

(** What the file reads back from the widget and its page. *)
Record widget_obj : Type := {
  zoomFactor : Py.float;
  page_url : Qt.QUrl;
  page_requestedUrl : Qt.QUrl;
  widget_title : Py.str
}.

(** [WebEngineTab] with its adapters, the [QFlags] objects alive, and the
    calls made so far (oldest first). *)
Record tab : Type := {
  tab_search : search_obj;
  tab_scroller : scroller_obj;
  _saved_zoom : option Py.float;
  tab_widget : widget_obj;
  flag_objects : list Z;
  calls : list call
}.

Definition upd_search (f : search_obj -> search_obj) (t : tab) : tab :=
  {| tab_search := f (tab_search t); tab_scroller := tab_scroller t;
     _saved_zoom := _saved_zoom t; tab_widget := tab_widget t;
     flag_objects := flag_objects t; calls := calls t |}.

Definition upd_scroller (f : scroller_obj -> scroller_obj) (t : tab) : tab :=
  {| tab_search := tab_search t; tab_scroller := f (tab_scroller t);
     _saved_zoom := _saved_zoom t; tab_widget := tab_widget t;
     flag_objects := flag_objects t; calls := calls t |}.

Definition set_saved_zoom (z : option Py.float) (t : tab) : tab :=
  {| tab_search := tab_search t; tab_scroller := tab_scroller t;
     _saved_zoom := z; tab_widget := tab_widget t;
     flag_objects := flag_objects t; calls := calls t |}.

Definition upd_widget (f : widget_obj -> widget_obj) (t : tab) : tab :=
  {| tab_search := tab_search t; tab_scroller := tab_scroller t;
     _saved_zoom := _saved_zoom t; tab_widget := f (tab_widget t);
     flag_objects := flag_objects t; calls := calls t |}.

Definition upd_flag_objects (f : list Z -> list Z) (t : tab) : tab :=
  {| tab_search := tab_search t; tab_scroller := tab_scroller t;
     _saved_zoom := _saved_zoom t; tab_widget := tab_widget t;
     flag_objects := f (flag_objects t); calls := calls t |}.

Definition upd_calls (f : list call -> list call) (t : tab) : tab :=
  {| tab_search := tab_search t; tab_scroller := tab_scroller t;
     _saved_zoom := _saved_zoom t; tab_widget := tab_widget t;
     flag_objects := flag_objects t; calls := f (calls t) |}.

(** ** The monad of methods

    A method reads and writes the tab and either returns or raises; what it
    wrote before raising stays written. *)

Definition M (A : Type) : Type := tab -> Py.outcome A * tab.

#[global] Instance M_ret : MRet M := fun A a t => (Py.Return a, t).

#[global] Instance M_bind : MBind M := fun A B f m t =>
  match m t with
  | (Py.Return a, t') => f a t'
  | (Py.Raise e, t') => (Py.Raise e, t')
  end.

Definition gets {A : Type} (f : tab -> A) : M A := fun t => (Py.Return (f t), t).

Definition modify (f : tab -> tab) : M unit := fun t => (Py.Return tt, f t).

Definition eval {A : Type} (o : Py.outcome A) : M A := fun t => (o, t).

Definition assert (b : bool) : M unit :=
  if b then mret tt else eval (Py.Raise Py.AssertionError).

(** A call out of the file: appended to the log. *)
Definition out (c : call) : M unit := modify (upd_calls (fun l => l ++ [c])).

(** [for _ in range(n): body]. *)
Fixpoint for_range (n : nat) (body : M unit) : M unit :=
  match n with
  | O => mret tt
  | S n' => body;; for_range n' body
  end.

(** The tab after a method ran, and what the method answered. *)
Definition exec {A : Type} (m : M A) (t : tab) : tab := snd (m t).
Definition answer {A : Type} (m : M A) (t : tab) : Py.outcome A := fst (m t).

(** The calls a method made: the log it leaves, without the log it found. *)
Definition calls_of {A : Type} (m : M A) (t : tab) : list call :=
  drop (length (calls t)) (calls (exec m t)).

(** ** QFlags objects

    A [QWebEnginePage.FindFlags] value is a mutable object: [flags |= f] and
    [flags &= f] change the object [flags] names, and every other name of the
    same object sees the change.  [flag_objects] holds the objects, a
    reference is an index into it. *)

Module QFlags.

(** [QWebEnginePage.FindFlags(v)]: a new object. *)
Definition new (v : Z) : M ref :=
  r ← gets (fun t => length (flag_objects t));
  modify (upd_flag_objects (fun h => h ++ [v]));;
  mret r.

(** [int(flags)]. *)
Definition int (flags : ref) : M Z :=
  gets (fun t => flag_objects t !!! flags).

(** [flags |= f], in place. *)
Definition ior (flags : ref) (f : Z) : M unit :=
  modify (upd_flag_objects (fun h => <[flags := Z.lor (h !!! flags) f]> h)).

(** [flags &= f], in place. *)
Definition iand (flags : ref) (f : Z) : M unit :=
  modify (upd_flag_objects (fun h => <[flags := Z.land (h !!! flags) f]> h)).

(** The truth value of [flags & f]. *)
Definition test (flags : ref) (f : Z) : M bool :=
  v ← int flags; mret (negb (Z.land v f =? 0)).

End QFlags.

(** ** class WebEngineZoom *)

Module WebEngineZoom.

(** [self._widget.setZoomFactor(factor)]; the widget then reports the
    factor it was given. *)
Definition _set_factor_internal (factor : Py.float) : M unit :=
  out (setZoomFactor factor);;
  modify (upd_widget (fun w =>
    {| zoomFactor := factor; page_url := page_url w;
       page_requestedUrl := page_requestedUrl w;
       widget_title := widget_title w |})).

Definition factor : M Py.float := gets (fun t => zoomFactor (tab_widget t)).

(** Modelled from the spec: [AbstractZoom.set_factor] lives in
    [browsertab.py]; the zoom adapter "forwards zoom factor get/set", so
    setting a factor is the call of [_set_factor_internal] with it. *)
Definition set_factor (factor : Py.float) : M unit :=
  _set_factor_internal factor.

End WebEngineZoom.

(** ** class WebEngineSearch *)

(** The values [ignore_case] takes: the string ['smart'], or a bool. *)
Inductive ignore_case_arg : Type :=
| smart
| ignore_case_is (b : bool).

Module WebEngineSearch.

Definition set_search_displayed (b : bool) : M unit :=
  modify (upd_search (fun s =>
    {| text := text s; _flags := _flags s; search_displayed := b |})).

Definition _find (text0 : Py.str) (flags : ref) (callback : option nat)
    (who : caller) : M unit :=
  set_search_displayed true;;
  v ← QFlags.int flags;
  out (findText text0 v (Some (wrapped_callback who callback))).

Section Search.

(** Python's character database, as [str.islower] consults it. *)
Variable casing_of : N -> Py.casing.

Definition search (text0 : Py.str) (ignore_case : ignore_case_arg)
    (reverse : bool) (result_cb : option nat) : M unit :=
  flags ← QFlags.new 0;
  match ignore_case with
  | smart =>
      if negb (Py.islower casing_of text0)
      then QFlags.ior flags Qt.FindCaseSensitively
      else mret tt
  | ignore_case_is b =>
      if negb b
      then QFlags.ior flags Qt.FindCaseSensitively
      else mret tt
  end;;
  (if reverse then QFlags.ior flags Qt.FindBackward else mret tt);;
  modify (upd_search (fun s =>
    {| text := text0; _flags := flags;
       search_displayed := search_displayed s |}));;
  _find text0 flags result_cb by_search.

End Search.

Definition clear : M unit :=
  set_search_displayed false;;
  out (findText [] 0 None).

Definition prev_result (result_cb : option nat) : M unit :=
  stored ← gets (fun t => _flags (tab_search t));
  v ← QFlags.int stored;
  flags ← QFlags.new v;
  backward ← QFlags.test flags Qt.FindBackward;
  (if backward : bool
   then QFlags.iand flags (Z.lnot Qt.FindBackward)
   else QFlags.ior flags Qt.FindBackward);;
  text0 ← gets (fun t => text (tab_search t));
  _find text0 flags result_cb by_prev_result.

Definition next_result (result_cb : option nat) : M unit :=
  text0 ← gets (fun t => text (tab_search t));
  flags ← gets (fun t => _flags (tab_search t));
  _find text0 flags result_cb by_next_result.

End WebEngineSearch.

(** ** class WebEngineTab *)

(** [usertypes.JsWorld] and the module-level [_JS_WORLD_MAP]. *)
Inductive JsWorld : Type := main | application | user | jseval.

Definition _JS_WORLD_MAP (w : JsWorld) : Z :=
  match w with
  | main => Qt.MainWorld
  | application => Qt.ApplicationWorld
  | user => Qt.UserWorld
  | jseval => Qt.UserWorld + 1
  end.

(** A [world] argument that is not [None]: an int, or a [JsWorld]. *)
Inductive world_arg : Type :=
| world_int (n : Z)
| world_of (w : JsWorld).

(** [javascript.assemble]. *)
Definition assemble (module function : string) (args : list js_arg) : js_code :=
  {| js_module := module; js_function := function; js_args := args |}.

Module WebEngineTab.

Definition _restore_zoom : M unit :=
  saved ← gets _saved_zoom;
  match saved with
  | None => mret tt
  | Some z =>
      WebEngineZoom.set_factor z;;
      modify (set_saved_zoom None)
  end.

(** [_openurl_prepare] is inherited from [AbstractTab]; it is logged as a
    call.  [self._saved_zoom] is written before it. *)
Definition openurl (url0 : Qt.QUrl) : M unit :=
  z ← WebEngineZoom.factor;
  modify (set_saved_zoom (Some z));;
  out (_openurl_prepare url0);;
  out (load url0).

Definition url (requested : bool) : M Qt.QUrl :=
  if requested
  then gets (fun t => page_requestedUrl (tab_widget t))
  else gets (fun t => page_url (tab_widget t)).

Definition title : M Py.str := gets (fun t => widget_title (tab_widget t)).

Definition run_js_async (code : js_code) (callback0 : option callback)
    (world : option world_arg) : M unit :=
  let world_id :=
    match world with
    | None => Qt.ApplicationWorld
    | Some (world_int n) => n
    | Some (world_of w) => _JS_WORLD_MAP w
    end in
  out (runJavaScript code world_id callback0).

Definition key_press (key : Qt.Key) (modifier : Qt.KeyboardModifier) : M unit :=
  let press_evt :=
    {| Qt.ev_type := Qt.KeyPress; Qt.ev_key := key; Qt.ev_modifiers := modifier |} in
  let release_evt :=
    {| Qt.ev_type := Qt.KeyRelease; Qt.ev_key := key; Qt.ev_modifiers := modifier |} in
  out (send_event press_evt);;
  out (send_event release_evt).

Section Signals.

(** Qt's [QUrl]: [isValid()], [setScheme(scheme)] on a copy, and
    [toDisplayString(QUrl.RemoveScheme)]. *)
Variable isValid : Qt.QUrl -> bool.
Variable setScheme : Py.str -> Qt.QUrl -> Qt.QUrl.
Variable toDisplayString_RemoveScheme : Qt.QUrl -> Py.str.

Definition _on_history_trigger : M unit :=
  url0 ← url false;
  requested_url ← url true;
  title0 ← title;
  let title_url := setScheme [] url0 in
  let title1 :=
    if bool_decide
         (title0 = Py.strip (Py.lit "/") (toDisplayString_RemoveScheme title_url))
    then []
    else title0 in
  if negb (isValid url0)
  then mret tt
  else out (add_history_item_emit url0 requested_url title1).

(** The slots [_connect_signals] connects to [page.loadFinished], run in
    the order of connection; the third one is inherited from
    [browsertab.AbstractTab] and is only recorded. *)
Definition loadFinished (ok : bool) : M unit :=
  _on_history_trigger;;
  _restore_zoom;;
  out (_on_load_finished_of_AbstractTab ok).

End Signals.

End WebEngineTab.

(** ** class WebEngineScroller *)

(** The dict the JavaScript function [scroll.pos] answers with. *)
Module jsret.

Record point : Type := { x : Z; y : Z }.
Record extent : Type := { width : Z; height : Z }.
Record dict : Type := { px : point; scroll : extent; inner : extent }.

End jsret.

Module WebEngineScroller.

Definition _repeated_key_press (key : Qt.Key) (count : Z)
    (modifier : Qt.KeyboardModifier) : M unit :=
  for_range (Py.range_len (Z.min count 5000))
    (WebEngineTab.key_press key modifier).

(** The callback [_update_pos] hands to [run_js_async]; the engine calls it
    with the dict, or with [None] once the tab is gone.  The numbers of the
    dict are ints here.  [QPoint(...)] is evaluated before the assignment to
    [self._pos_px]: when it raises, nothing has been stored. *)
Definition update_pos_cb (jsret0 : option jsret.dict) : M unit :=
  match jsret0 with
  | None => mret tt
  | Some j =>
      pos ← eval (Qt.new_QPoint (jsret.x (jsret.px j)) (jsret.y (jsret.px j)));
      modify (upd_scroller (fun s =>
        {| _pos_perc := _pos_perc s; _pos_px := pos; _at_bottom := _at_bottom s |}));;
      let dx := jsret.width (jsret.scroll j) - jsret.width (jsret.inner j) in
      perc_x ← (if dx =? 0
                then mret 0
                else eval (q ← Py.int_truediv 100 dx;
                           p ← Py.float_mul_int q (jsret.x (jsret.px j));
                           r ← Py.round p;
                           mret (Z.min 100 r)));
      let dy := jsret.height (jsret.scroll j) - jsret.height (jsret.inner j) in
      perc_y ← (if dy =? 0
                then mret 0
                else eval (q ← Py.int_truediv 100 dy;
                           p ← Py.float_mul_int q (jsret.y (jsret.px j));
                           r ← Py.round p;
                           mret (Z.min 100 r)));
      modify (upd_scroller (fun s =>
        {| _pos_perc := _pos_perc s; _pos_px := _pos_px s;
           _at_bottom := dy >=? jsret.y (jsret.px j) |}));;
      modify (upd_scroller (fun s =>
        {| _pos_perc := (perc_x, perc_y); _pos_px := _pos_px s;
           _at_bottom := _at_bottom s |}));;
      out (perc_changed_emit perc_x perc_y)
  end.

Definition _update_pos : M unit :=
  WebEngineTab.run_js_async (assemble "scroll" "pos" [])
    (Some update_pos_cb_of_scroller) None.

Definition pos_px : M Qt.QPoint := gets (fun t => _pos_px (tab_scroller t)).

Definition pos_perc : M (Z * Z) := gets (fun t => _pos_perc (tab_scroller t)).

Definition up (count : Z) : M unit :=
  _repeated_key_press Qt.Key_Up count Qt.NoModifier.

Definition down (count : Z) : M unit :=
  _repeated_key_press Qt.Key_Down count Qt.NoModifier.

Definition left (count : Z) : M unit :=
  _repeated_key_press Qt.Key_Left count Qt.NoModifier.

Definition right (count : Z) : M unit :=
  _repeated_key_press Qt.Key_Right count Qt.NoModifier.

Definition top : M unit := WebEngineTab.key_press Qt.Key_Home Qt.NoModifier.

Definition bottom : M unit := WebEngineTab.key_press Qt.Key_End Qt.NoModifier.

Definition page_up (count : Z) : M unit :=
  _repeated_key_press Qt.Key_PageUp count Qt.NoModifier.

Definition page_down (count : Z) : M unit :=
  _repeated_key_press Qt.Key_PageDown count Qt.NoModifier.

Definition at_top : M bool :=
  p ← pos_px; mret (Qt.y p =? 0).

Definition at_bottom : M bool := gets (fun t => _at_bottom (tab_scroller t)).

End WebEngineScroller.

(** ** class WebEngineElements *)

Module WebEngineElements.

Section Elements.

(** Qt's [QPoint.__itruediv__]: the point divided by a float, each
    coordinate rounded back to an int. *)
Variable QPoint_div : Qt.QPoint -> Py.float -> Qt.QPoint.

(** [pos /= factor] changes the caller's point in place.  Here [pos] is a
    point of the caller's own, which the tab does not hold; for the point
    that [pos_px()] handed out see [find_at_pos_of_pos_px]. *)
Definition find_at_pos (pos : Qt.QPoint) (callback0 : nat) : M unit :=
  assert (Qt.x pos >=? 0);;
  assert (Qt.y pos >=? 0);;
  zoom ← WebEngineZoom.factor;
  let pos := QPoint_div pos zoom in
  let js_code0 :=
    assemble "webelem" "find_at_pos" [js_int (Qt.x pos); js_int (Qt.y pos)] in
  let js_cb := js_cb_single callback0 in
  WebEngineTab.run_js_async js_code0 (Some js_cb) None.

(** [find_at_pos(self._tab.scroller.pos_px(), callback)]: [pos_px()] returns
    the [QPoint] object the scroller holds, not a copy, so [pos /= factor]
    changes the cached position. *)
Definition find_at_pos_of_pos_px (callback0 : nat) : M unit :=
  pos ← WebEngineScroller.pos_px;
  assert (Qt.x pos >=? 0);;
  assert (Qt.y pos >=? 0);;
  zoom ← WebEngineZoom.factor;
  let pos := QPoint_div pos zoom in
  modify (upd_scroller (fun s =>
    {| _pos_perc := _pos_perc s; _pos_px := pos; _at_bottom := _at_bottom s |}));;
  let js_code0 :=
    assemble "webelem" "find_at_pos" [js_int (Qt.x pos); js_int (Qt.y pos)] in
  let js_cb := js_cb_single callback0 in
  WebEngineTab.run_js_async js_code0 (Some js_cb) None.

End Elements.

End WebEngineElements.

(** ** Sample data

    A tab as the constructors leave it ([_flags] names a fresh
    [FindFlags(0)], the scroller is at the origin, no zoom is saved), shown
    by an engine at zoom factor 1.0, and the ASCII part of the character
    database. *)

Definition one : Py.float := S754_finite false 4503599627370496 (-52).

Definition new_tab : tab :=
  {| tab_search := {| text := []; _flags := 0%nat; search_displayed := false |};
     tab_scroller :=
       {| _pos_perc := (0, 0); _pos_px := {| Qt.x := 0; Qt.y := 0 |};
          _at_bottom := false |};
     _saved_zoom := None;
     tab_widget :=
       {| zoomFactor := one; page_url := []; page_requestedUrl := [];
          widget_title := [] |};
     flag_objects := [0];
     calls := [] |}.

Definition ascii_casing (c : N) : Py.casing :=
  if ((65 <=? c) && (c <=? 90))%N then Py.Uppercase
  else if ((97 <=? c) && (c <=? 122))%N then Py.Lowercase
  else Py.Uncased.

(** The dict of [scroll.pos] from its six numbers. *)
Definition snapshot (px_x px_y scroll_width scroll_height inner_width
    inner_height : Z) : jsret.dict :=
  {| jsret.px := {| jsret.x := px_x; jsret.y := px_y |};
     jsret.scroll := {| jsret.width := scroll_width; jsret.height := scroll_height |};
     jsret.inner := {| jsret.width := inner_width; jsret.height := inner_height |} |}.

(** ** The percentage of one axis

    [perc_binary64] is what [update_pos_cb] computes for one axis, as an
    expression of its own: [100 / d] on two ints, the product with the
    position, [round], [min].  The three definitions after it read the
    formula of the specification, [min(100, round(100 * pos / d))]: over the
    rationals with ties to the even integer, over the rationals with ties
    upwards, and as the Python expression it spells (one division of two
    ints, then [round]). *)

Definition perc_binary64 (pos d : Z) : Py.outcome Z :=
  if d =? 0 then Py.Return 0
  else q ← Py.int_truediv 100 d;
       p ← Py.float_mul_int q pos;
       r ← Py.round p;
       mret (Z.min 100 r).

(** The integer nearest to [a / b]; [tie q] picks between [q] and [q + 1]
    when [a / b] is exactly [q + 1/2]. *)
Definition nearest (tie : Z -> Z) (a b : Z) : Z :=
  let n := if b <? 0 then - a else a in
  let m := Z.abs b in
  let q := n / m in
  match 2 * (n mod m) ?= m with
  | Lt => q
  | Gt => q + 1
  | Eq => tie q
  end.

Definition ties_to_even (q : Z) : Z := if Z.even q then q else q + 1.
Definition ties_up (q : Z) : Z := q + 1.

Definition perc_exact (tie : Z -> Z) (pos d : Z) : Z :=
  if d =? 0 then 0 else Z.min 100 (nearest tie (100 * pos) d).

Definition perc_one_division (pos d : Z) : Py.outcome Z :=
  if d =? 0 then Py.Return 0
  else q ← Py.int_truediv (100 * pos) d;
       r ← Py.round q;
       mret (Z.min 100 r).

(** The two differences [update_pos_cb] takes of the dict. *)
Definition dx_of (j : jsret.dict) : Z :=
  jsret.width (jsret.scroll j) - jsret.width (jsret.inner j).

Definition dy_of (j : jsret.dict) : Z :=
  jsret.height (jsret.scroll j) - jsret.height (jsret.inner j).

(** The tab once [update_pos_cb] has stored the pixel position. *)
Definition with_pos_px (j : jsret.dict) (t : tab) : tab :=
  upd_scroller (fun s =>
    {| _pos_perc := _pos_perc s;
       _pos_px := {| Qt.x := jsret.x (jsret.px j); Qt.y := jsret.y (jsret.px j) |};
       _at_bottom := _at_bottom s |}) t.

(** The sign of a float that has one. *)
Definition signed (s : bool) (f : Py.float) : Prop :=
  match f with
  | S754_zero s' | S754_infinity s' | S754_finite s' _ _ => s' = s
  | S754_nan => False
  end.

(** A zero, or a finite float [m * 2^e] below [2^k] with [e] at most [c]. *)
Definition bounded_by (k c : Z) (f : Py.float) : Prop :=
  match f with
  | S754_zero _ => True
  | S754_finite _ m e => Zdigits2 (Zpos m) + e <= k /\ e <= c
  | _ => False
  end.

(** ** Reading the search adapter *)

(** The int behind [self._flags]. *)
Definition stored_flags (t : tab) : Z :=
  flag_objects t !!! _flags (tab_search t).

(** [self._flags] names an object that exists. *)
Definition flags_alive (t : tab) : Prop :=
  (_flags (tab_search t) < length (flag_objects t))%nat.

Definition backward (flags : Z) : bool :=
  negb (Z.land flags Qt.FindBackward =? 0).

Definition case_sensitive (flags : Z) : bool :=
  negb (Z.land flags Qt.FindCaseSensitively =? 0).

(** The flags a search builds from its two decisions. *)
Definition flags_of (sensitive reverse : bool) : Z :=
  Z.lor (if sensitive then Qt.FindCaseSensitively else 0)
        (if reverse then Qt.FindBackward else 0).

(** The decision [search] takes on case. *)
Definition sensitive_for (casing_of : N -> Py.casing) (text0 : Py.str)
    (ignore_case : ignore_case_arg) : bool :=
  match ignore_case with
  | smart => negb (Py.islower casing_of text0)
  | ignore_case_is b => negb b
  end.

Definition has_upper (casing_of : N -> Py.casing) (s : Py.str) : bool :=
  existsb (fun c => match casing_of c with Py.Uppercase => true | _ => false end) s.

Definition has_upper_or_title (casing_of : N -> Py.casing) (s : Py.str) : bool :=
  existsb (fun c => Py.is_upper_or_title (casing_of c)) s.

Definition has_lower (casing_of : N -> Py.casing) (s : Py.str) : bool :=
  existsb (fun c => Py.is_lower (casing_of c)) s.

(** ** Events of a tab

    What reaches a tab from its users and from the engine, one event at a
    time.  An exception ends the handler that raised it, not the tab: the next
    event finds the tab as that handler left it. *)

Inductive direction : Type :=
| go_up | go_down | go_left | go_right | go_page_up | go_page_down.

Definition key_of (d : direction) : Qt.Key :=
  match d with
  | go_up => Qt.Key_Up
  | go_down => Qt.Key_Down
  | go_left => Qt.Key_Left
  | go_right => Qt.Key_Right
  | go_page_up => Qt.Key_PageUp
  | go_page_down => Qt.Key_PageDown
  end.

Definition scroll_by_keys (d : direction) (count : Z) : M unit :=
  match d with
  | go_up => WebEngineScroller.up count
  | go_down => WebEngineScroller.down count
  | go_left => WebEngineScroller.left count
  | go_right => WebEngineScroller.right count
  | go_page_up => WebEngineScroller.page_up count
  | go_page_down => WebEngineScroller.page_down count
  end.

(** A key press followed by its release, as [key_press] sends them. *)
Definition key_pair (key : Qt.Key) (modifier : Qt.KeyboardModifier) : list call :=
  [ send_event {| Qt.ev_type := Qt.KeyPress; Qt.ev_key := key;
                  Qt.ev_modifiers := modifier |};
    send_event {| Qt.ev_type := Qt.KeyRelease; Qt.ev_key := key;
                  Qt.ev_modifiers := modifier |} ].

Fixpoint key_pairs (n : nat) (key : Qt.Key) (modifier : Qt.KeyboardModifier)
    : list call :=
  match n with
  | O => []
  | S n' => key_pair key modifier ++ key_pairs n' key modifier
  end.

Inductive event : Type :=
| on_search (text0 : Py.str) (ignore_case : ignore_case_arg) (reverse : bool)
    (result_cb : option nat)
| on_clear
| on_prev_result (result_cb : option nat)
| on_next_result (result_cb : option nat)
| on_scroll (d : direction) (count : Z)
| on_top
| on_bottom
| on_scrollPositionChanged
| on_update_pos_cb (jsret0 : option jsret.dict)
| on_find_at_pos (pos : Qt.QPoint) (callback0 : nat)
| on_set_factor (factor : Py.float)
| on_key_press (key : Qt.Key) (modifier : Qt.KeyboardModifier)
| on_openurl (url0 : Qt.QUrl)
| on_loadFinished (ok : bool).

Definition is_openurl (e : event) : bool :=
  match e with on_openurl _ => true | _ => false end.

Definition is_loadFinished (e : event) : bool :=
  match e with on_loadFinished _ => true | _ => false end.

Section Events.

Variable casing_of : N -> Py.casing.
Variable isValid : Qt.QUrl -> bool.
Variable setScheme : Py.str -> Qt.QUrl -> Qt.QUrl.
Variable toDisplayString_RemoveScheme : Qt.QUrl -> Py.str.
Variable QPoint_div : Qt.QPoint -> Py.float -> Qt.QPoint.

Definition handle (e : event) : M unit :=
  match e with
  | on_search text0 ignore_case reverse result_cb =>
      WebEngineSearch.search casing_of text0 ignore_case reverse result_cb
  | on_clear => WebEngineSearch.clear
  | on_prev_result result_cb => WebEngineSearch.prev_result result_cb
  | on_next_result result_cb => WebEngineSearch.next_result result_cb
  | on_scroll d count => scroll_by_keys d count
  | on_top => WebEngineScroller.top
  | on_bottom => WebEngineScroller.bottom
  | on_scrollPositionChanged => WebEngineScroller._update_pos
  | on_update_pos_cb jsret0 => WebEngineScroller.update_pos_cb jsret0
  | on_find_at_pos pos callback0 =>
      WebEngineElements.find_at_pos QPoint_div pos callback0
  | on_set_factor factor => WebEngineZoom.set_factor factor
  | on_key_press key modifier => WebEngineTab.key_press key modifier
  | on_openurl url0 => WebEngineTab.openurl url0
  | on_loadFinished ok =>
      WebEngineTab.loadFinished isValid setScheme toDisplayString_RemoveScheme ok
  end.

(** The tab after a run of events, oldest first. *)
Definition after (es : list event) (t : tab) : tab :=
  fold_left (fun t e => exec (handle e) t) es t.

End Events.

(** The factors of the [setZoomFactor] calls in a log. *)
Definition zoom_calls (l : list call) : list Py.float :=
  omap (fun c => match c with setZoomFactor f => Some f | _ => None end) l.

(** The [findText] calls in a log: text and flags. *)
Definition finds (l : list call) : list (Py.str * Z) :=
  omap (fun c => match c with findText s f _ => Some (s, f) | _ => None end) l.

(** A stand-in for [QUrl] on texts of the form [scheme:rest]: valid when
    not empty; without a scheme the text is [rest]; displayed without its
    scheme it is [rest] again. *)
Fixpoint after_colon (s : Py.str) : option Py.str :=
  match s with
  | [] => None
  | c :: s' => if (c =? 58)%N then Some s' else after_colon s'
  end.

Definition sample_isValid (u : Qt.QUrl) : bool :=
  match u with [] => false | _ => true end.

Definition sample_setScheme (scheme : Py.str) (u : Qt.QUrl) : Qt.QUrl :=
  let rest := default u (after_colon u) in
  match scheme with
  | [] => rest
  | _ => scheme ++ Py.lit ":" ++ rest
  end.

Definition sample_toDisplayString_RemoveScheme (u : Qt.QUrl) : Py.str :=
  default u (after_colon u).

(** A stand-in for the division of a [QPoint], right at zoom factor 1.0:
    the point itself. *)
Definition sample_QPoint_div (p : Qt.QPoint) (factor : Py.float) : Qt.QPoint := p.

(** The sample tab showing a page. *)
Definition showing (u : Qt.QUrl) (title0 : Py.str) (t : tab) : tab :=
  upd_widget (fun w =>
    {| zoomFactor := zoomFactor w; page_url := u; page_requestedUrl := u;
       widget_title := title0 |}) t.

(** What [prev_result] does to the int of its copy. *)
Definition toggle_backward (flags : Z) : Z :=
  if backward flags
  then Z.land flags (Z.lnot Qt.FindBackward)
  else Z.lor flags Qt.FindBackward.

(** A walk through the results of a search: calls of [prev_result] and
    [next_result], in any order. *)
Inductive result_step : Type :=
| prev_step (result_cb : option nat)
| next_step (result_cb : option nat).

Definition take_step (s : result_step) : M unit :=
  match s with
  | prev_step result_cb => WebEngineSearch.prev_result result_cb
  | next_step result_cb => WebEngineSearch.next_result result_cb
  end.

Definition after_steps (ss : list result_step) (t : tab) : tab :=
  fold_left (fun t s => exec (take_step s) t) ss t.

(** The search adapter with its "search displayed" flag set to [b]. *)
Definition displayed (b : bool) (s : search_obj) : search_obj :=
  {| text := text s; _flags := _flags s; search_displayed := b |}.

(** The title [_on_history_trigger] passes on: empty when the page's title
    is the one generated from its URL. *)
Definition title_for_history (setScheme : Py.str -> Qt.QUrl -> Qt.QUrl)
    (toDisplayString_RemoveScheme : Qt.QUrl -> Py.str)
    (url0 : Qt.QUrl) (title0 : Py.str) : Py.str :=
  if bool_decide
       (title0 = Py.strip (Py.lit "/") (toDisplayString_RemoveScheme (setScheme [] url0)))
  then []
  else title0.

(** The signals [_on_history_trigger] emits on a tab. *)
Definition history_calls (isValid : Qt.QUrl -> bool)
    (setScheme : Py.str -> Qt.QUrl -> Qt.QUrl)
    (toDisplayString_RemoveScheme : Qt.QUrl -> Py.str) (t : tab) : list call :=
  if isValid (page_url (tab_widget t))
  then [add_history_item_emit (page_url (tab_widget t))
          (page_requestedUrl (tab_widget t))
          (title_for_history setScheme toDisplayString_RemoveScheme
             (page_url (tab_widget t)) (widget_title (tab_widget t)))]
  else [].

(** The history entries appended in a log: URL and title. *)
Definition history_entries (l : list call) : list (Qt.QUrl * Py.str) :=
  omap (fun c => match c with
                 | add_history_item_emit u _ title0 => Some (u, title0)
                 | _ => None
                 end) l.

(** The JavaScript calls in a log. *)
Definition scripts (l : list call) : list js_code :=
  omap (fun c => match c with runJavaScript code _ _ => Some code | _ => None end) l.

(** The tab once [_restore_zoom] has put a saved factor back. *)
Definition restored (t : tab) : tab :=
  match _saved_zoom t with
  | None => t
  | Some z =>
      {| tab_search := tab_search t;
         tab_scroller := tab_scroller t;
         _saved_zoom := None;
         tab_widget :=
           {| zoomFactor := z; page_url := page_url (tab_widget t);
              page_requestedUrl := page_requestedUrl (tab_widget t);
              widget_title := widget_title (tab_widget t) |};
         flag_objects := flag_objects t;
         calls := calls t ++ [setZoomFactor z] |}
  end.

(** Events that are neither a navigation nor a load-finished notification,
    and events that are no navigation. *)
Definition quiet (e : event) : bool := negb (is_openurl e || is_loadFinished e).
Definition no_openurl (e : event) : bool := negb (is_openurl e).

(** The float 1.5, a zoom factor a user may set. *)
Definition one_and_a_half : Py.float := S754_finite false 6755399441055744 (-52).

(** * The rest of the file

    The methods no property above is about, over the same tab.  They make
    calls, hand out callables and raise exceptions that the log of the first
    part has no names for; a wider log ([effect]) holds those next to the
    calls of the first part, in the order they happen. *)

Module Rest.

Inductive error : Type :=
| python (e : Py.exception)
| WebTabError (message : string)
| UnsupportedOperationError
| KeyError.

Inductive result (A : Type) : Type :=
| Done (a : A)
| Failed (e : error).

Arguments Done {A} a.
Arguments Failed {A} e.

(** A Python number: an int or a float. *)
Inductive number : Type :=
| an_int (z : Z)
| a_float (f : Py.float).

(** The arguments [javascript.assemble] is given in these methods. *)
Inductive js_value : Type :=
| js_number (n : number)
| js_string (s : Py.str)
| js_bool (b : bool)
| js_null.

Record script : Type := {
  script_module : string;
  script_function : string;
  script_args : list js_value
}.

Definition assemble (module function : string) (args : list js_value) : script :=
  {| script_module := module; script_function := function; script_args := args |}.

(** A value JavaScript answers with, as far as the file tells them apart:
    a dict, or something else. *)
Inductive json : Type :=
| json_dict (id : nat)
| json_other (id : nat).

(** Modelled from the spec: [webengineelem.WebEngineElement] lives in
    another file; an element handle is "a transient wrapper around a
    JSON-shaped DOM element descriptor", so making one keeps the descriptor
    it is given and does nothing else. *)
Record element : Type := WebEngineElement { js_elem_of : json }.

(** [usertypes.ClickTarget], the two members used here. *)
Inductive ClickTarget : Type := target_normal | target_tab.

(** What a user callback of an element lookup is called with. *)
Inductive callback_arg : Type :=
| arg_None
| arg_element (elem : element)
| arg_elements (elems : list element).

(** The callables handed to the engine: those of the first part, the
    partial application of [_js_cb_multiple], and the lambda of
    [follow_selected]. *)
Inductive handler : Type :=
| former (cb : callback)
| partial__js_cb_multiple (callback0 : nat)
| lambda__follow_selected_cb (tab0 : bool).

(** What is handed to a timer: [functools.partial(to_point, point)]. *)
Inductive deferred : Type := partial_to_point (point : Qt.QPoint).

(** [browsertab.TerminationStatus]. *)
Inductive TerminationStatus : Type :=
| status_normal | status_abnormal | status_crashed | status_killed | status_unknown.

Inductive effect : Type :=
| earlier (c : call)
| runJavaScript (code : script) (world_id : Z) (cb : option handler)
| callback_called (callback0 : nat) (arg : callback_arg)
| click (elem : element) (click_type : ClickTarget)
| shutting_down_emit
| widget_shutdown
| _on_load_started_of_AbstractTab
| renderer_process_terminated_emit (status : TerminationStatus) (exitcode : Z)
| qtutils_serialize
| qtutils_deserialize_stream (stream : nat)
| QTimer_singleShot (msec : Z) (what : deferred).

(** The tab, and everything that left the file so far. *)
Record whole : Type := { tab_of : tab; effects : list effect }.

Definition W (A : Type) : Type := whole -> result A * whole.

#[global] Instance W_ret : MRet W := fun A a w => (Done a, w).

#[global] Instance W_bind : MBind W := fun A B f m w =>
  match m w with
  | (Done a, w') => f a w'
  | (Failed e, w') => (Failed e, w')
  end.

Definition fail {A : Type} (e : error) : W A := fun w => (Failed e, w).

Definition effect_ (e : effect) : W unit := fun w =>
  (Done tt, {| tab_of := tab_of w; effects := effects w ++ [e] |}).

(** The calls a method of the first part added to the log of the tab. *)
Definition earlier_calls (before after : tab) : list effect :=
  map earlier (drop (length (calls before)) (calls after)).

(** A method of the first part, run on the tab; its calls join the log. *)
Definition lift {A : Type} (m : M A) : W A := fun w =>
  match m (tab_of w) with
  | (o, t') =>
      (match o with Py.Return a => Done a | Py.Raise e => Failed (python e) end,
       {| tab_of := t'; effects := effects w ++ earlier_calls (tab_of w) t' |})
  end.

Definition run {A : Type} (m : W A) (w : whole) : whole := snd (m w).
Definition outcome {A : Type} (m : W A) (w : whole) : result A := fst (m w).

(** The effects a method added. *)
Definition effects_of {A : Type} (m : W A) (w : whole) : list effect :=
  drop (length (effects w)) (effects (run m w)).

(** ** class WebEngineTab, continued *)

Module Tab.

(** [run_js_async], with the wider callables. *)
Definition run_js_async (code : script) (callback0 : option handler)
    (world : option world_arg) : W unit :=
  let world_id :=
    match world with
    | None => Qt.ApplicationWorld
    | Some (world_int n) => n
    | Some (world_of w) => _JS_WORLD_MAP w
    end in
  effect_ (runJavaScript code world_id callback0).

Section Versions.

(** [qtutils.version_check(version)] and
    [qtutils.version_check(version, exact=True)]. *)
Variable version_check : string -> bool.
Variable version_check_exact : string -> bool.

Definition shutdown : W unit :=
  effect_ shutting_down_emit;;
  (if version_check_exact "5.8" then lift WebEngineSearch.clear else mret tt);;
  effect_ widget_shutdown.

Definition _on_load_started : W unit :=
  (if version_check "5.9" then lift WebEngineSearch.clear else mret tt);;
  effect_ _on_load_started_of_AbstractTab.

End Versions.

(** [QWebEnginePage.RenderProcessTerminationStatus], with Qt's values. *)
Definition NormalTerminationStatus : Z := 0.
Definition AbnormalTerminationStatus : Z := 1.
Definition CrashedTerminationStatus : Z := 2.
Definition KilledTerminationStatus : Z := 3.

(** The dict [status_map], in the order it is written. *)
Definition status_map : list (Z * TerminationStatus) :=
  [ (NormalTerminationStatus, status_normal);
    (AbnormalTerminationStatus, status_abnormal);
    (CrashedTerminationStatus, status_crashed);
    (KilledTerminationStatus, status_killed);
    (-1, status_unknown) ].

(** [d[key]] on a dict written as its items. *)
Fixpoint getitem {V : Type} (d : list (Z * V)) (key : Z) : option V :=
  match d with
  | [] => None
  | (k, v) :: d' => if k =? key then Some v else getitem d' key
  end.

Definition _on_render_process_terminated (status exitcode : Z) : W unit :=
  let status :=
    if (status =? AbnormalTerminationStatus) && (exitcode =? 256)
    then CrashedTerminationStatus
    else status in
  match getitem status_map status with
  | Some s => effect_ (renderer_process_terminated_emit s exitcode)
  | None => fail KeyError
  end.

End Tab.

(** ** class WebEngineCaret *)

Module Caret.

Section Caret.

(** [elem.is_link()], of [webengineelem]. *)
Variable is_link : element -> bool.

Definition _follow_selected_cb (js_elem : option json) (tab0 : bool) : W unit :=
  match js_elem with
  | None => mret tt
  | Some j =>
      match j with
      | json_dict _ => mret tt
      | json_other _ => fail (python Py.AssertionError)
      end;;
      let elem := WebEngineElement j in
      let click_type := if tab0 then target_tab else target_normal in
      if is_link elem then effect_ (click elem click_type) else mret tt
  end.

End Caret.

Definition follow_selected (tab0 : bool) : W unit :=
  search_displayed0 ← lift (gets (fun t => search_displayed (tab_search t)));
  if search_displayed0 : bool
  then
    lift WebEngineSearch.clear;;
    if tab0
    then lift (WebEngineTab.key_press Qt.Key_Enter Qt.ControlModifier)
    else lift (WebEngineTab.key_press Qt.Key_Enter Qt.NoModifier)
  else
    let js_code := assemble "webelem" "find_selected_link" [] in
    Tab.run_js_async js_code (Some (lambda__follow_selected_cb tab0)) None.

End Caret.

(** ** class WebEngineScroller, continued *)

Module Scroller.

Definition optional (x : option number) : js_value :=
  match x with Some n => js_number n | None => js_null end.

Definition to_perc (x y : option number) : W unit :=
  let js_code := assemble "scroll" "to_perc" [optional x; optional y] in
  Tab.run_js_async js_code None None.

Definition to_point (point : Qt.QPoint) : W unit :=
  let js_code :=
    assemble "window" "scroll"
      [js_number (an_int (Qt.x point)); js_number (an_int (Qt.y point))] in
  Tab.run_js_async js_code None None.

Definition delta (x y : number) : W unit :=
  Tab.run_js_async (assemble "window" "scrollBy" [js_number x; js_number y]) None None.

Definition delta_page (x y : number) : W unit :=
  let js_code := assemble "scroll" "delta_page" [js_number x; js_number y] in
  Tab.run_js_async js_code None None.

End Scroller.

(** ** class WebEngineHistory *)

(** The dict [cur_data] of [tabhistory.serialize], by the two keys
    [load_items] looks for. *)
Record cur_data : Type := {
  zoom : option Py.float;
  scroll_pos : option Qt.QPoint
}.

(** [==] on two [QPoint]s. *)
Definition QPoint_eq (p q : Qt.QPoint) : bool :=
  (Qt.x p =? Qt.x q) && (Qt.y p =? Qt.y q).

Module History.

Section History.

Variable version_check : string -> bool.

(** [url.scheme()], of Qt. *)
Variable scheme : Qt.QUrl -> Py.str.

(** [tabhistory.serialize(items)]: the stream and [cur_data] (the second
    component of its triple is not used). *)
Variable tabhistory_serialize : nat -> nat * option cur_data.

Definition serialize : W unit :=
  (if negb (version_check "5.9")
   then
     scheme0 ← lift (x ← WebEngineTab.url false; mret (scheme x));
     if bool_decide (scheme0 ∈ [Py.lit "view-source"; Py.lit "chrome"])
     then fail (WebTabError "Can't serialize special URL!")
     else mret tt
   else mret tt);;
  effect_ qtutils_serialize.

Definition load_items (items : nat) : W unit :=
  let '(stream, cur) := tabhistory_serialize items in
  effect_ (qtutils_deserialize_stream stream);;
  match cur with
  | None => mret tt
  | Some c =>
      match zoom c with
      | Some z => lift (WebEngineZoom.set_factor z)
      | None => mret tt
      end;;
      match scroll_pos c with
      | Some p =>
          pos ← lift WebEngineScroller.pos_px;
          if QPoint_eq pos {| Qt.x := 0; Qt.y := 0 |}
          then effect_ (QTimer_singleShot 0 (partial_to_point p))
          else mret tt
      | None => mret tt
      end
  end.

End History.

End History.

(** ** class WebEngineElements, continued *)

Module Elements.

Definition _js_cb_multiple (callback0 : nat) (js_elems : option (list json)) : W unit :=
  match js_elems with
  | None => effect_ (callback_called callback0 arg_None)
  | Some l =>
      let elems :=
        fold_left (fun elems js_elem => elems ++ [WebEngineElement js_elem]) l [] in
      effect_ (callback_called callback0 (arg_elements elems))
  end.

Definition _js_cb_single (callback0 : nat) (js_elem : option json) : W unit :=
  match js_elem with
  | None => effect_ (callback_called callback0 arg_None)
  | Some j =>
      let elem := WebEngineElement j in
      effect_ (callback_called callback0 (arg_element elem))
  end.

Definition find_css (selector : Py.str) (callback0 : nat) (only_visible : bool) : W unit :=
  let js_code := assemble "webelem" "find_css" [js_string selector; js_bool only_visible] in
  let js_cb := partial__js_cb_multiple callback0 in
  Tab.run_js_async js_code (Some js_cb) None.

Definition find_id (elem_id : Py.str) (callback0 : nat) : W unit :=
  let js_code := assemble "webelem" "find_id" [js_string elem_id] in
  let js_cb := former (js_cb_single callback0) in
  Tab.run_js_async js_code (Some js_cb) None.

Definition find_focused (callback0 : nat) : W unit :=
  let js_code := assemble "webelem" "find_focused" [] in
  let js_cb := former (js_cb_single callback0) in
  Tab.run_js_async js_code (Some js_cb) None.

End Elements.

(** ** Everything that can happen to a tab *)

Inductive action : Type :=
| an_event (e : event)
| do_follow_selected (tab0 : bool)
| do__follow_selected_cb (js_elem : option json) (tab0 : bool)
| do_find_css (selector : Py.str) (callback0 : nat) (only_visible : bool)
| do_find_id (elem_id : Py.str) (callback0 : nat)
| do_find_focused (callback0 : nat)
| do_find_at_pos_of_pos_px (callback0 : nat)
| do__js_cb_single (callback0 : nat) (js_elem : option json)
| do__js_cb_multiple (callback0 : nat) (js_elems : option (list json))
| do_to_perc (x y : option number)
| do_to_point (point : Qt.QPoint)
| do_delta (x y : number)
| do_delta_page (x y : number)
| do_serialize
| do_load_items (items : nat)
| timer_fires (what : deferred)
| do_shutdown
| on_loadStarted
| on_renderProcessTerminated (status exitcode : Z).

Definition is_find (a : action) : bool :=
  match a with
  | an_event (on_search _ _ _ _) | an_event (on_prev_result _)
  | an_event (on_next_result _) => true
  | _ => false
  end.

Definition is_update_pos_cb (a : action) : bool :=
  match a with an_event (on_update_pos_cb _) => true | _ => false end.

(** The actions that write the cached pixel position: an answer of the
    scroll-position callback, and [find_at_pos] on the point [pos_px()]
    handed out. *)
Definition writes_pos_px (a : action) : bool :=
  match a with
  | an_event (on_update_pos_cb _) | do_find_at_pos_of_pos_px _ => true
  | _ => false
  end.


Section Actions.

Variable casing_of : N -> Py.casing.
Variable isValid : Qt.QUrl -> bool.
Variable setScheme : Py.str -> Qt.QUrl -> Qt.QUrl.
Variable toDisplayString_RemoveScheme : Qt.QUrl -> Py.str.
Variable QPoint_div : Qt.QPoint -> Py.float -> Qt.QPoint.
Variable is_link : element -> bool.
Variable version_check : string -> bool.
Variable version_check_exact : string -> bool.
Variable scheme : Qt.QUrl -> Py.str.
Variable tabhistory_serialize : nat -> nat * option cur_data.

Definition perform (a : action) : W unit :=
  match a with
  | an_event e =>
      lift (handle casing_of isValid setScheme toDisplayString_RemoveScheme
              QPoint_div e)
  | do_follow_selected tab0 => Caret.follow_selected tab0
  | do__follow_selected_cb js_elem tab0 => Caret._follow_selected_cb is_link js_elem tab0
  | do_find_css selector callback0 only_visible =>
      Elements.find_css selector callback0 only_visible
  | do_find_id elem_id callback0 => Elements.find_id elem_id callback0
  | do_find_focused callback0 => Elements.find_focused callback0
  | do_find_at_pos_of_pos_px callback0 =>
      lift (WebEngineElements.find_at_pos_of_pos_px QPoint_div callback0)
  | do__js_cb_single callback0 js_elem => Elements._js_cb_single callback0 js_elem
  | do__js_cb_multiple callback0 js_elems => Elements._js_cb_multiple callback0 js_elems
  | do_to_perc x y => Scroller.to_perc x y
  | do_to_point point => Scroller.to_point point
  | do_delta x y => Scroller.delta x y
  | do_delta_page x y => Scroller.delta_page x y
  | do_serialize => History.serialize version_check scheme
  | do_load_items items => History.load_items tabhistory_serialize items
  | timer_fires (partial_to_point point) => Scroller.to_point point
  | do_shutdown => Tab.shutdown version_check_exact
  | on_loadStarted => Tab._on_load_started version_check
  | on_renderProcessTerminated status exitcode =>
      Tab._on_render_process_terminated status exitcode
  end.

(** The whole after a run of actions, oldest first; an action that fails
    ends there, the next one goes on from what it left. *)
Definition after_actions (l : list action) (w : whole) : whole :=
  fold_left (fun w a => run (perform a) w) l w.

End Actions.

(** A tab with nothing logged yet. *)
Definition whole_of (t : tab) : whole := {| tab_of := t; effects := [] |}.

(** Stand-ins for a run: a Qt 5.9, no link anywhere, the scheme of a URL as
    the text before its first colon, and a history whose current entry has
    a scroll position and no zoom. *)
Fixpoint before_colon (s : Py.str) : Py.str :=
  match s with
  | [] => []
  | c :: s' => if (c =? 58)%N then [] else c :: before_colon s'
  end.

Definition sample_version_check (v : string) : bool := true.
Definition sample_version_check_exact (v : string) : bool := false.
Definition sample_is_link (e : element) : bool := false.
Definition sample_tabhistory_serialize (items : nat) : nat * option cur_data :=
  (items, Some {| zoom := None; scroll_pos := Some {| Qt.x := 0; Qt.y := 120 |} |}).

End Rest.

(** The script [follow_selected] runs when no search is on display. *)
Definition find_selected_link (tab0 : bool) : Rest.effect :=
  Rest.runJavaScript (Rest.assemble "webelem" "find_selected_link" [])
    Qt.ApplicationWorld (Some (Rest.lambda__follow_selected_cb tab0)).

(** The modifier of the fake Enter. *)
Definition enter_modifier (tab0 : bool) : Qt.KeyboardModifier :=
  if tab0 then Qt.ControlModifier else Qt.NoModifier.

(** What the current entry of a restored history asks for: a zoom factor,
    and a scroll position, the latter only while the tab's own is the
    origin. *)
Definition restored_zoom (tabhistory_serialize : nat -> nat * option Rest.cur_data)
    (items : nat) : option Py.float :=
  c ← snd (tabhistory_serialize items); Rest.zoom c.

Definition restored_scroll (tabhistory_serialize : nat -> nat * option Rest.cur_data)
    (items : nat) (t : tab) : option Qt.QPoint :=
  c ← snd (tabhistory_serialize items);
  p ← Rest.scroll_pos c;
  if Rest.QPoint_eq (_pos_px (tab_scroller t)) {| Qt.x := 0; Qt.y := 0 |}
  then Some p else None.

Definition zoomed (tabhistory_serialize : nat -> nat * option Rest.cur_data)
    (items : nat) (t : tab) : tab :=
  match restored_zoom tabhistory_serialize items with
  | Some z => exec (WebEngineZoom.set_factor z) t
  | None => t
  end.

Definition zoom_effects (tabhistory_serialize : nat -> nat * option Rest.cur_data)
    (items : nat) : list Rest.effect :=
  match restored_zoom tabhistory_serialize items with
  | Some z => [Rest.earlier (setZoomFactor z)]
  | None => []
  end.

Definition scroll_effects (tabhistory_serialize : nat -> nat * option Rest.cur_data)
    (items : nat) (t : tab) : list Rest.effect :=
  match restored_scroll tabhistory_serialize items t with
  | Some p => [Rest.QTimer_singleShot 0 (Rest.partial_to_point p)]
  | None => []
  end.


(** The status [_on_render_process_terminated] looks up in its map. *)
Definition reported_status (status exitcode : Z) : option Rest.TerminationStatus :=
  Rest.Tab.getitem Rest.Tab.status_map
    (if (status =? Rest.Tab.AbnormalTerminationStatus) && (exitcode =? 256)
     then Rest.Tab.CrashedTerminationStatus
     else status).

(** What a user callback was called with, call by call, in a log. *)
Definition callbacks_to (callback0 : nat) (l : list Rest.effect) : list Rest.callback_arg :=
  omap (fun e =>
          match e with
          | Rest.callback_called c arg => if (c =? callback0)%nat then Some arg else None
          | _ => None
          end) l.

(** What an element lookup answers its caller with, for what JavaScript
    answered: [None] for [None], the elements in the order they came. *)
Definition elements_of (js_elems : option (list Rest.json)) : Rest.callback_arg :=
  match js_elems with
  | None => Rest.arg_None
  | Some l => Rest.arg_elements (map Rest.WebEngineElement l)
  end.

Definition element_of (js_elem : option Rest.json) : Rest.callback_arg :=
  match js_elem with
  | None => Rest.arg_None
  | Some j => Rest.arg_element (Rest.WebEngineElement j)
  end.

(** The whole after one script was handed to the engine, in the application
    world, with a callable for its answer. *)
Definition looked_up (code : Rest.script) (h : Rest.handler) (w : Rest.whole) : Rest.whole :=
  {| Rest.tab_of := Rest.tab_of w;
     Rest.effects :=
       Rest.effects w ++ [Rest.runJavaScript code Qt.ApplicationWorld (Some h)] |}.

(** A lookup that runs [code] with the callable [h], calls no user callback
    itself, and once [answered] has its user callback called exactly once,
    with [arg], the tab being left as it was. *)
Definition answered_once (lookup answered : Rest.W unit) (code : Rest.script)
    (h : Rest.handler) (callback0 : nat) (arg : Rest.callback_arg)
    (w : Rest.whole) : Prop :=
  Rest.run lookup w = looked_up code h w
  /\ Rest.outcome (lookup;; answered) w = Rest.Done tt
  /\ callbacks_to callback0 (Rest.effects_of lookup w) = []
  /\ callbacks_to callback0 (Rest.effects_of (lookup;; answered) w) = [arg]
  /\ Rest.tab_of (Rest.run (lookup;; answered) w) = Rest.tab_of w.


Definition sample_after_actions : list Rest.action -> Rest.whole -> Rest.whole :=
  Rest.after_actions ascii_casing sample_isValid sample_setScheme
    sample_toDisplayString_RemoveScheme sample_QPoint_div Rest.sample_is_link
    Rest.sample_version_check Rest.sample_version_check_exact Rest.before_colon
    Rest.sample_tabhistory_serialize.

(** The sample tab after a search for a word. *)
Definition searching : Rest.whole :=
  Rest.whole_of
    (exec (WebEngineSearch.search ascii_casing (Py.lit "word") smart false None) new_tab).

(** The key events sent to the widget, in a log. *)
Definition key_events (l : list Rest.effect) : list Qt.QKeyEvent :=
  omap (fun e =>
          match e with
          | Rest.earlier (send_event evt) => Some evt
          | _ => None
          end) l.

(** Key events that are presses each followed at once by the release of the
    same key with the same modifier. *)
Inductive paired : list Qt.QKeyEvent -> Prop :=
| paired_nil : paired []
| paired_cons (key : Qt.Key) (modifier : Qt.KeyboardModifier) (l : list Qt.QKeyEvent) :
    paired l ->
    paired ({| Qt.ev_type := Qt.KeyPress; Qt.ev_key := key;
               Qt.ev_modifiers := modifier |}
            :: {| Qt.ev_type := Qt.KeyRelease; Qt.ev_key := key;
                  Qt.ev_modifiers := modifier |}
            :: l).

(** The sample tab scrolled down by 40 pixels of 400, and a stand-in for
    the division of a [QPoint] at zoom factor 2.0: each coordinate halved. *)
Definition scrolled : Rest.whole :=
  Rest.whole_of
    (exec (WebEngineScroller.update_pos_cb (Some (snapshot 0 40 800 1000 800 600)))
       new_tab).

Definition halving (p : Qt.QPoint) (factor : Py.float) : Qt.QPoint :=
  {| Qt.x := Qt.x p / 2; Qt.y := Qt.y p / 2 |}.

(** * Proofs *)

(** ** binary64: the model on values CPython prints

    [100 / 776] is 0.12886597938144329, its product with 291 is
    37.49999999999999, [float(2**53 + 1)] is 9007199254740992.0, and
    [round] takes 0.5, 1.5, 2.5 and -2.5 to 0, 2, 2 and -2. *)

Example truediv_100_776 :
  Py.int_truediv 100 776 = Py.Return (S754_finite false 4642886213784016 (-55)).
Proof. reflexivity. Qed.

Example product_with_291 :
  Py.float_mul_int (S754_finite false 4642886213784016 (-55)) 291
  = Py.Return (S754_finite false 5277655813324799 (-47)).
Proof. reflexivity. Qed.

Example truediv_of_large_ints :
  Py.int_truediv (10 ^ 30 + 7) (3 ^ 40)
  = Py.Return (S754_finite false 5390508582482712 (-16)).
Proof. vm_compute. reflexivity. Qed.

Example float_of_int_ties_to_even :
  Py.float_of_int (2 ^ 53 + 1) = Py.Return (S754_finite false 4503599627370496 1)
  /\ Py.float_of_int (2 ^ 53 + 3) = Py.Return (S754_finite false 4503599627370498 1).
Proof. split; reflexivity. Qed.

Example float_of_int_overflow :
  Py.float_of_int (10 ^ 400) = Py.Raise Py.OverflowError.
Proof. vm_compute. reflexivity. Qed.

Example round_ties_to_even :
  Py.round (S754_finite false 4503599627370496 (-53)) = Py.Return 0
  /\ Py.round (S754_finite false 6755399441055744 (-52)) = Py.Return 2
  /\ Py.round (S754_finite false 5629499534213120 (-51)) = Py.Return 2
  /\ Py.round (S754_finite true 5629499534213120 (-51)) = Py.Return (-2)
  /\ Py.round (S754_finite false 5277655813324799 (-47)) = Py.Return 37.
Proof. repeat split; reflexivity. Qed.

(** ** binary64: signs *)

Lemma shr_1_nonneg mrs : 0 <= shr_m mrs -> 0 <= shr_m (shr_1 mrs).
Proof.
  destruct mrs as [m r s]; simpl.
  destruct m as [|p|p]; simpl; try lia; intros _; destruct p; simpl; lia.
Qed.

Lemma iter_pos_shr_1_nonneg p mrs :
  0 <= shr_m mrs -> 0 <= shr_m (SpecFloat.iter_pos shr_1 p mrs).
Proof.
  revert mrs; induction p as [p IH|p IH|]; intros mrs H; simpl.
  - apply IH, IH, shr_1_nonneg, H.
  - apply IH, IH, H.
  - apply shr_1_nonneg, H.
Qed.

Lemma shr_fexp_nonneg m e l :
  0 <= m -> 0 <= shr_m (fst (shr_fexp Py.prec Py.emax m e l)).
Proof.
  intros H. unfold shr_fexp, shr.
  assert (H0 : 0 <= shr_m (shr_record_of_loc m l)) by (destruct l as [|[]]; exact H).
  destruct (fexp Py.prec Py.emax (Zdigits2 m + e) - e); simpl; auto.
  apply iter_pos_shr_1_nonneg, H0.
Qed.

Lemma round_nearest_even_nonneg m l : 0 <= m -> 0 <= round_nearest_even m l.
Proof.
  intros H. destruct l as [|[]]; simpl; try lia. destruct (Z.even m); lia.
Qed.

Lemma binary_round_aux_signed s m e l :
  0 <= m -> signed s (binary_round_aux Py.prec Py.emax s m e l).
Proof.
  intros H. unfold binary_round_aux.
  pose proof (shr_fexp_nonneg m e l H) as H1.
  destruct (shr_fexp Py.prec Py.emax m e l) as [mrs' e']; simpl in H1.
  pose proof (shr_fexp_nonneg _ e' loc_Exact
                (round_nearest_even_nonneg _ (loc_of_shr_record mrs') H1)) as H2.
  destruct (shr_fexp Py.prec Py.emax _ e' loc_Exact) as [mrs'' e'']; simpl in H2.
  destruct (shr_m mrs'') as [|p|p]; simpl; try reflexivity; try lia.
  destruct (e'' <=? Py.emax - Py.prec); reflexivity.
Qed.

Lemma SFdiv_core_binary_nonneg (a b : positive) e1 e2 :
  0 <= fst (fst (SFdiv_core_binary Py.prec Py.emax (Zpos a) e1 (Zpos b) e2)).
Proof.
  unfold SFdiv_core_binary.
  set (s := e1 - e2 - _).
  set (m' := match s with Z0 => Zpos a | Zpos _ => Z.shiftl (Zpos a) s | Zneg _ => 0 end).
  assert (Hm : 0 <= m').
  { subst m'. destruct s; try lia. apply Z.shiftl_nonneg. lia. }
  pose proof (Z_div_mod m' (Zpos b) eq_refl) as H.
  pose proof (Z.div_pos m' (Zpos b) Hm eq_refl) as Hq.
  unfold Z.div in Hq.
  destruct (Z.div_eucl m' (Zpos b)) as [q r]. simpl in *. exact Hq.
Qed.

Lemma SFdiv_signed (a b : positive) sa sb :
  signed (xorb sa sb)
    (SFdiv Py.prec Py.emax (S754_finite sa a 0) (S754_finite sb b 0)).
Proof.
  unfold SFdiv.
  pose proof (SFdiv_core_binary_nonneg a b 0 0) as H.
  destruct (SFdiv_core_binary Py.prec Py.emax (Zpos a) 0 (Zpos b) 0) as [[mz ez] lz].
  apply binary_round_aux_signed, H.
Qed.

Lemma SFmul_signed x y sx sy :
  signed sx x -> signed sy y ->
  SFmul Py.prec Py.emax x y = S754_nan \/
  signed (xorb sx sy) (SFmul Py.prec Py.emax x y).
Proof.
  destruct x as [s1|s1| |s1 m1 e1], y as [s2|s2| |s2 m2 e2]; simpl;
    intros H1 H2; subst; try contradiction; auto.
  right. apply binary_round_aux_signed. lia.
Qed.

Lemma binary_normalize_signed z :
  signed (z <? 0) (binary_normalize Py.prec Py.emax z 0 false).
Proof.
  destruct z as [|p|p]; simpl; try reflexivity;
    unfold binary_round;
    destruct (shl_align p 0 _) as [mz ez];
    apply binary_round_aux_signed; lia.
Qed.

Lemma round_half_even_shift_nonneg m k : 0 <= m -> 0 <= Py.round_half_even_shift m k.
Proof.
  intros H. unfold Py.round_half_even_shift.
  assert (0 <= Z.shiftr m (Zpos k)) by (apply Z.shiftr_nonneg; exact H).
  destruct (_ ?= _); try lia. destruct (Z.even _); lia.
Qed.

(** [round] keeps the sign: a float that is not negative rounds to an int
    that is not negative, and likewise on the other side. *)
Lemma round_signed s x r :
  signed s x -> Py.round x = Py.Return r -> if s then r <= 0 else 0 <= r.
Proof.
  destruct x as [s1|s1| |s1 m e]; simpl; intros Hs Hr; subst;
    try discriminate; try contradiction.
  - injection Hr as <-. destruct s; lia.
  - injection Hr as <-.
    assert (0 <= match e with
                 | Z.neg k => Py.round_half_even_shift (Z.pos m) k
                 | _ => Z.shiftl (Z.pos m) e
                 end).
    { destruct e; try (apply Z.shiftl_nonneg; lia).
      apply round_half_even_shift_nonneg; lia. }
    destruct s; lia.
Qed.


Lemma int_truediv_returns a b q :
  Py.int_truediv a b = Py.Return q ->
  b <> 0 /\ q = SFdiv Py.prec Py.emax (Py.exact_int a) (Py.exact_int b)
  /\ forall s, q <> S754_infinity s.
Proof.
  unfold Py.int_truediv. destruct (Z.eqb_spec b 0) as [->|Hb]; [discriminate|].
  destruct (SFdiv _ _ _ _) eqn:E; intros H; try discriminate;
    injection H as <-; repeat split; auto; discriminate.
Qed.

Lemma int_truediv_signed a b q :
  a <> 0 -> Py.int_truediv a b = Py.Return q -> signed (xorb (a <? 0) (b <? 0)) q.
Proof.
  intros Ha H. apply int_truediv_returns in H as (Hb & -> & _).
  destruct a as [|a|a], b as [|b|b]; try contradiction; apply SFdiv_signed.
Qed.

Lemma float_of_int_returns z f :
  Py.float_of_int z = Py.Return f ->
  f = binary_normalize Py.prec Py.emax z 0 false /\ forall s, f <> S754_infinity s.
Proof.
  unfold Py.float_of_int.
  destruct (binary_normalize _ _ _ _ _) eqn:E; intros H; try discriminate;
    injection H as <-; split; auto; discriminate.
Qed.

Lemma float_of_int_signed z f :
  Py.float_of_int z = Py.Return f -> signed (z <? 0) f.
Proof.
  intros H. apply float_of_int_returns in H as [-> _].
  apply binary_normalize_signed.
Qed.

(** The percentage of an axis never exceeds 100. *)
Lemma perc_binary64_le_100 pos d r :
  perc_binary64 pos d = Py.Return r -> r <= 100.
Proof.
  unfold perc_binary64. destruct (d =? 0).
  - intros [= <-]. lia.
  - destruct (Py.int_truediv 100 d) as [q|]; [|discriminate]. simpl.
    destruct (Py.float_mul_int q pos) as [p|]; [|discriminate]. simpl.
    destruct (Py.round p) as [r0|]; [|discriminate]. simpl.
    intros [= <-]. lia.
Qed.

(** The division is guarded: it never sees a zero divisor. *)
Lemma perc_binary64_no_ZeroDivisionError pos d :
  perc_binary64 pos d <> Py.Raise Py.ZeroDivisionError.
Proof.
  unfold perc_binary64. destruct (Z.eqb_spec d 0) as [->|Hd]; [discriminate|].
  unfold Py.int_truediv. destruct (Z.eqb_spec d 0) as [->|_]; [contradiction|].
  destruct (SFdiv _ _ _ _); simpl; try discriminate;
    unfold Py.float_mul_int, Py.float_of_int;
    destruct (binary_normalize _ _ _ _ _); simpl; try discriminate;
    match goal with |- context [Py.round ?x] => destruct (Py.round x) as [?|[]] eqn:E end;
    simpl; try discriminate;
    match type of E with Py.round ?x = _ => destruct x; simpl in E; discriminate end.
Qed.

(** The sign of the percentage is the sign of [pos * d]. *)
Lemma perc_binary64_sign pos d r :
  perc_binary64 pos d = Py.Return r ->
  (0 <= pos * d -> 0 <= r) /\ (pos * d <= 0 -> r <= 0).
Proof.
  unfold perc_binary64. destruct (Z.eqb_spec d 0) as [->|Hd].
  - intros [= <-]. lia.
  - destruct (Py.int_truediv 100 d) as [q|] eqn:Eq; [|discriminate]. simpl.
    unfold Py.float_mul_int.
    destruct (Py.float_of_int pos) as [g|] eqn:Eg; [|discriminate]. simpl.
    destruct (Py.round _) as [r0|] eqn:Er; [|discriminate]. simpl.
    intros [= <-].
    pose proof (int_truediv_signed 100 d q ltac:(lia) Eq) as Hq.
    pose proof (float_of_int_signed pos g Eg) as Hg.
    apply int_truediv_returns in Eq as (_ & _ & Hqi).
    destruct (Z.eq_dec pos 0) as [->|Hpos].
    + (* a zero position: the product is a zero *)
      injection Eg as <-.
      assert (r0 = 0); [|lia].
      destruct q as [s|s| |s m e]; simpl in Er; try discriminate;
        injection Er as <-; reflexivity.
    + destruct (SFmul_signed q g _ _ Hq Hg) as [Hn|Hs].
      * rewrite Hn in Er. discriminate.
      * pose proof (round_signed _ _ _ Hs Er) as Hr.
        simpl in Hr.
        destruct (Z.ltb_spec d 0), (Z.ltb_spec pos 0); simpl in Hr; split; intros; nia.
Qed.


Lemma update_pos_cb_unfold j t :
  WebEngineScroller.update_pos_cb (Some j) t =
  if Qt.is_c_int (jsret.x (jsret.px j)) && Qt.is_c_int (jsret.y (jsret.px j))
  then
    match perc_binary64 (jsret.x (jsret.px j)) (dx_of j) with
    | Py.Raise e => (Py.Raise e, with_pos_px j t)
    | Py.Return perc_x =>
        match perc_binary64 (jsret.y (jsret.px j)) (dy_of j) with
        | Py.Raise e => (Py.Raise e, with_pos_px j t)
        | Py.Return perc_y =>
            (Py.Return tt,
             {| tab_search := tab_search t;
                tab_scroller :=
                  {| _pos_perc := (perc_x, perc_y);
                     _pos_px := {| Qt.x := jsret.x (jsret.px j);
                                   Qt.y := jsret.y (jsret.px j) |};
                     _at_bottom := dy_of j >=? jsret.y (jsret.px j) |};
                _saved_zoom := _saved_zoom t;
                tab_widget := tab_widget t;
                flag_objects := flag_objects t;
                calls := calls t ++ [perc_changed_emit perc_x perc_y] |})
        end
    end
  else (Py.Raise Py.OverflowError, t).
Proof.
  unfold WebEngineScroller.update_pos_cb, Qt.new_QPoint, perc_binary64, dx_of, dy_of.
  destruct (Qt.is_c_int _ && Qt.is_c_int _); [|reflexivity].
  cbv [mbind M_bind modify mret M_ret eval out].
  destruct (_ - _ =? 0).
  - destruct (_ - _ =? 0); [reflexivity|].
    destruct (Py.int_truediv _ _) as [q|]; [|reflexivity]. simpl.
    destruct (Py.float_mul_int _ _) as [p|]; [|reflexivity]. simpl.
    destruct (Py.round _) as [r|]; reflexivity.
  - destruct (Py.int_truediv _ _) as [q|]; [|reflexivity]. simpl.
    destruct (Py.float_mul_int _ _) as [p|]; [|reflexivity]. simpl.
    destruct (Py.round _) as [r|]; [|reflexivity]. simpl.
    destruct (_ - _ =? 0); [reflexivity|].
    destruct (Py.int_truediv _ _) as [q'|]; [|reflexivity]. simpl.
    destruct (Py.float_mul_int _ _) as [p'|]; [|reflexivity]. simpl.
    destruct (Py.round _) as [r'|]; reflexivity.
Qed.

(** *** The size of binary64 results

    [Zdigits2 m + e] is the binary order of magnitude of [m * 2^e]: the
    value is below [2 ^ (Zdigits2 m + e)]. *)

Lemma digits2_pos_size p : digits2_pos p = Pos.size p.
Proof. induction p; simpl; congruence. Qed.

Lemma Zdigits2_log2 m : 0 < m -> Zdigits2 m = Z.log2 m + 1.
Proof.
  destruct m as [|p|p]; try lia. intros _. simpl.
  destruct p; simpl; rewrite ?digits2_pos_size; lia.
Qed.

Lemma Zdigits2_nonneg m : 0 <= Zdigits2 m.
Proof. destruct m; simpl; lia. Qed.

Lemma Zdigits2_le_iff m k : 0 <= m -> 0 <= k -> Zdigits2 m <= k <-> m < 2 ^ k.
Proof.
  intros Hm Hk. destruct (Z.eq_dec m 0) as [->|Hm0].
  - simpl. split; intros _; [apply Z.pow_pos_nonneg|]; lia.
  - rewrite Zdigits2_log2 by lia.
    rewrite (Z.log2_lt_pow2 m k) by lia. lia.
Qed.

Lemma Zdigits2_lt_pow m : 0 <= m -> m < 2 ^ Zdigits2 m.
Proof.
  intros Hm. apply Zdigits2_le_iff; auto using Zdigits2_nonneg. lia.
Qed.

Lemma Zdigits2_mono a b : 0 <= a <= b -> Zdigits2 a <= Zdigits2 b.
Proof.
  intros H. apply Zdigits2_le_iff; try lia; auto using Zdigits2_nonneg.
  pose proof (Zdigits2_lt_pow b). lia.
Qed.

Lemma Zdigits2_succ m : 0 <= m -> Zdigits2 (m + 1) <= Zdigits2 m + 1.
Proof.
  intros Hm. pose proof (Zdigits2_nonneg m).
  apply Zdigits2_le_iff; try lia.
  pose proof (Zdigits2_lt_pow m Hm).
  rewrite Z.pow_add_r by lia. lia.
Qed.

Lemma Zdigits2_mul a b :
  0 <= a -> 0 <= b -> Zdigits2 (a * b) <= Zdigits2 a + Zdigits2 b.
Proof.
  intros Ha Hb. pose proof (Zdigits2_nonneg a). pose proof (Zdigits2_nonneg b).
  apply Zdigits2_le_iff; try nia.
  pose proof (Zdigits2_lt_pow a Ha). pose proof (Zdigits2_lt_pow b Hb).
  rewrite Z.pow_add_r by lia. nia.
Qed.

Lemma Zdigits2_div_pow m n :
  0 <= m -> 0 <= n -> Zdigits2 (m / 2 ^ n) <= Z.max 0 (Zdigits2 m - n).
Proof.
  intros Hm Hn. pose proof (Zdigits2_nonneg m) as Hd.
  assert (Hp : 0 < 2 ^ n) by (apply Z.pow_pos_nonneg; lia).
  assert (Hq : 0 <= m / 2 ^ n) by (apply Z.div_pos; lia).
  apply Zdigits2_le_iff; try lia.
  pose proof (Zdigits2_lt_pow m Hm) as Hlt.
  destruct (Z.le_gt_cases n (Zdigits2 m)) as [Hle|Hgt].
  - rewrite Z.max_r by lia.
    apply Z.div_lt_upper_bound; try lia.
    rewrite <- Z.pow_add_r by lia.
    replace (n + (Zdigits2 m - n)) with (Zdigits2 m) by lia. exact Hlt.
  - rewrite Z.max_l by lia. simpl.
    assert (m < 2 ^ n).
    { eapply Z.lt_le_trans; [exact Hlt|]. apply Z.pow_le_mono_r; lia. }
    rewrite Z.div_small; lia.
Qed.

Lemma Zdigits2_shiftl m n : 0 <= m -> 0 <= n -> Zdigits2 (Z.shiftl m n) <= Zdigits2 m + n.
Proof.
  intros Hm Hn. rewrite Z.shiftl_mul_pow2 by lia.
  pose proof (Zdigits2_nonneg m).
  assert (Hp : 0 < 2 ^ n) by (apply Z.pow_pos_nonneg; lia).
  apply Zdigits2_le_iff; try nia.
  pose proof (Zdigits2_lt_pow m Hm).
  rewrite Z.pow_add_r by lia. nia.
Qed.

(** [shr_1] halves the mantissa, [iter_pos shr_1 p] divides it by [2^p]. *)
Lemma shr_1_m mrs : 0 <= shr_m mrs -> shr_m (shr_1 mrs) = shr_m mrs / 2.
Proof.
  destruct mrs as [m r s]; simpl. destruct m as [|p|p]; try lia; intros _.
  - reflexivity.
  - destruct p; simpl.
    + rewrite Pos2Z.inj_xI. apply Z.div_unique with 1; lia.
    + rewrite Pos2Z.inj_xO. apply Z.div_unique with 0; lia.
    + reflexivity.
Qed.

Lemma iter_pos_shr_1_m p mrs :
  0 <= shr_m mrs ->
  shr_m (SpecFloat.iter_pos shr_1 p mrs) = shr_m mrs / 2 ^ Zpos p.
Proof.
  revert mrs; induction p as [p IH|p IH|]; intros mrs H; simpl SpecFloat.iter_pos.
  - rewrite IH by (apply iter_pos_shr_1_nonneg, shr_1_nonneg, H).
    rewrite IH by (apply shr_1_nonneg, H).
    rewrite shr_1_m by exact H.
    assert (Hp : 0 < 2 ^ Zpos p) by (apply Z.pow_pos_nonneg; lia).
    rewrite !Z.div_div by lia.
    f_equal. rewrite Pos2Z.inj_xI.
    rewrite Z.pow_add_r, Z.pow_mul_r by lia.
    change (2 ^ 2) with 4. change (2 ^ 1) with 2.
    replace (4 ^ Zpos p) with (2 ^ Zpos p * 2 ^ Zpos p); [lia|].
    rewrite <- Z.pow_add_r by lia. replace (Zpos p + Zpos p) with (2 * Zpos p) by lia.
    rewrite Z.pow_mul_r by lia. reflexivity.
  - rewrite IH by (apply iter_pos_shr_1_nonneg, H).
    rewrite IH by exact H.
    assert (Hp : 0 < 2 ^ Zpos p) by (apply Z.pow_pos_nonneg; lia).
    rewrite !Z.div_div by lia.
    f_equal. rewrite Pos2Z.inj_xO.
    rewrite <- Z.pow_add_r by lia. f_equal. lia.
  - rewrite shr_1_m by exact H. reflexivity.
Qed.


Lemma shr_m_of_loc m l : shr_m (shr_record_of_loc m l) = m.
Proof. destruct l as [|[]]; reflexivity. Qed.

Lemma fexp_binary64 x : fexp Py.prec Py.emax x = Z.max (x - 53) (-1074).
Proof. reflexivity. Qed.

Lemma shr_fexp_bounded m e l k c :
  0 <= m -> Zdigits2 m + e <= k -> e <= c ->
  -1074 <= c -> -1074 <= k -> k - 53 <= c ->
  0 <= shr_m (fst (shr_fexp Py.prec Py.emax m e l))
  /\ Zdigits2 (shr_m (fst (shr_fexp Py.prec Py.emax m e l)))
     + snd (shr_fexp Py.prec Py.emax m e l) <= k
  /\ snd (shr_fexp Py.prec Py.emax m e l) <= c.
Proof.
  intros Hm Hk He Hc Hk' Hkc.
  split; [apply shr_fexp_nonneg, Hm|].
  unfold shr_fexp, shr. rewrite fexp_binary64.
  destruct (Z.max (Zdigits2 m + e - 53) (-1074) - e) as [|p|p] eqn:En; simpl;
    rewrite ?shr_m_of_loc; try lia.
  rewrite iter_pos_shr_1_m by (rewrite shr_m_of_loc; exact Hm).
  rewrite shr_m_of_loc.
  pose proof (Zdigits2_div_pow m (Zpos p) Hm ltac:(lia)). lia.
Qed.

Lemma round_nearest_even_bounds m l :
  0 <= m -> m <= round_nearest_even m l <= m + 1.
Proof.
  intros H. destruct l as [|[]]; simpl; try lia. destruct (Z.even m); lia.
Qed.

(** Rounding a nonnegative [m * 2^e] of magnitude at most [k] gives a zero
    or a finite float of magnitude at most [k + 1]; its exponent stays below
    [c] when the input's did. *)
Lemma binary_round_aux_bounded s m e l k c :
  0 <= m -> Zdigits2 m + e <= k -> e <= c ->
  -1074 <= c -> -1074 <= k -> k - 52 <= c -> c <= 971 ->
  bounded_by (k + 1) c (binary_round_aux Py.prec Py.emax s m e l).
Proof.
  intros Hm Hk He Hc Hk' Hkc Hc'.
  unfold binary_round_aux.
  destruct (shr_fexp_bounded m e l k c) as (H1 & H2 & H3); try lia.
  destruct (shr_fexp Py.prec Py.emax m e l) as [mrs' e']; simpl in H1, H2, H3.
  pose proof (round_nearest_even_bounds (shr_m mrs') (loc_of_shr_record mrs') H1) as Hr.
  set (m1 := round_nearest_even (shr_m mrs') (loc_of_shr_record mrs')) in *.
  assert (Hd : Zdigits2 m1 <= Zdigits2 (shr_m mrs') + 1).
  { etransitivity; [apply (Zdigits2_mono m1 (shr_m mrs' + 1)); lia|].
    apply Zdigits2_succ, H1. }
  destruct (shr_fexp_bounded m1 e' loc_Exact (k + 1) c) as (H4 & H5 & H6); try lia.
  destruct (shr_fexp Py.prec Py.emax m1 e' loc_Exact) as [mrs'' e'']; simpl in H4, H5, H6.
  destruct (shr_m mrs'') as [|p|p] eqn:Em; simpl; try lia; auto.
  change (Py.emax - Py.prec) with 971.
  destruct (Z.leb_spec e'' 971); simpl; [|lia].
  simpl in H5. lia.
Qed.

Lemma SFdiv_core_binary_bounded (a b : positive) :
  let r := SFdiv_core_binary Py.prec Py.emax (Zpos a) 0 (Zpos b) 0 in
  0 <= fst (fst r)
  /\ Zdigits2 (fst (fst r)) + snd (fst r) <= Zdigits2 (Zpos a)
  /\ snd (fst r) <= 0.
Proof.
  cbv zeta. split; [apply SFdiv_core_binary_nonneg|].
  unfold SFdiv_core_binary.
  set (e' := Z.min _ (0 - 0)).
  assert (He : e' <= 0) by (subst e'; lia).
  set (s := 0 - 0 - e').
  set (m' := match s with Z0 => Zpos a | Zpos _ => Z.shiftl (Zpos a) s | Zneg _ => 0 end).
  assert (Hm : 0 <= m' /\ Zdigits2 m' <= Zdigits2 (Zpos a) + s).
  { subst m'. destruct s eqn:Es; try lia.
    split; [apply Z.shiftl_nonneg; lia|]. apply Zdigits2_shiftl; lia. }
  pose proof (Z_div_mod m' (Zpos b) eq_refl) as H.
  pose proof (Z.div_pos m' (Zpos b) (proj1 Hm) eq_refl) as Hq.
  pose proof (Z.div_le_upper_bound m' (Zpos b) m' eq_refl ltac:(nia)) as Hq'.
  unfold Z.div in Hq, Hq'.
  destruct (Z.div_eucl m' (Zpos b)) as [q r]. simpl in *.
  split; [|exact He].
  pose proof (Zdigits2_mono q m' ltac:(lia)). lia.
Qed.

(** The quotient of a small int by any int but zero is a float, and a
    small one. *)
Lemma int_truediv_bounded (a : positive) d :
  d <> 0 -> Zdigits2 (Zpos a) <= 52 ->
  exists q, Py.int_truediv (Zpos a) d = Py.Return q
            /\ bounded_by (Zdigits2 (Zpos a) + 1) 0 q.
Proof.
  intros Hd Ha. unfold Py.int_truediv.
  destruct (Z.eqb_spec d 0) as [->|_]; [contradiction|].
  assert (H : forall s (b : positive),
             bounded_by (Zdigits2 (Zpos a) + 1) 0
               (SFdiv Py.prec Py.emax (S754_finite false a 0) (S754_finite s b 0))).
  { intros s b. unfold SFdiv.
    pose proof (SFdiv_core_binary_bounded a b) as (H1 & H2 & H3).
    destruct (SFdiv_core_binary Py.prec Py.emax (Zpos a) 0 (Zpos b) 0) as [[mz ez] lz].
    cbn [fst snd] in H1, H2, H3.
    pose proof (Zdigits2_nonneg (Zpos a)).
    apply binary_round_aux_bounded; lia. }
  destruct d as [|b|b]; try contradiction; simpl Py.exact_int;
    [specialize (H false b)|specialize (H true b)];
    destruct (SFdiv _ _ _ _) as [s0|s0| |s0 m0 e0] eqn:E;
    simpl in H; try contradiction; eauto.
Qed.

Lemma Pos_iter_xO p d : Zpos (Pos.iter xO p d) = Zpos p * 2 ^ Zpos d.
Proof.
  induction d as [|d IH] using Pos.peano_ind.
  - simpl. lia.
  - rewrite Pos.iter_succ, Pos2Z.inj_xO, IH, Pos2Z.inj_succ, Z.pow_succ_r by lia. lia.
Qed.

(** An int below [2^B] converts to a float, of magnitude at most [B + 1]. *)
Lemma float_of_int_bounded z B c :
  Z.abs z < 2 ^ B -> 0 <= B -> 0 <= c -> B - 52 <= c -> c <= 971 ->
  exists g, Py.float_of_int z = Py.Return g /\ bounded_by (B + 1) c g.
Proof.
  intros Hz HB Hc HBc Hc'. unfold Py.float_of_int.
  assert (H : forall s (p : positive), Zpos p < 2 ^ B ->
             bounded_by (B + 1) c (binary_round Py.prec Py.emax s p 0)).
  { intros s p Hp. unfold binary_round, shl_align. rewrite fexp_binary64.
    assert (Hd : Zdigits2 (Zpos p) <= B) by (apply Zdigits2_le_iff; lia).
    simpl Zdigits2 in Hd.
    destruct (Z.max (Zpos (digits2_pos p) + 0 - 53) (-1074) - 0) as [|n|n] eqn:En;
      apply binary_round_aux_bounded; simpl Zdigits2; try lia.
    assert (Hs := Zdigits2_shiftl (Zpos p) (Zpos n) ltac:(lia) ltac:(lia)).
    rewrite Z.shiftl_mul_pow2, <- Pos_iter_xO in Hs by lia.
    simpl Zdigits2 in Hs. lia. }
  destruct z as [|p|p]; simpl binary_normalize.
  - eexists; split; [reflexivity|exact I].
  - specialize (H false p ltac:(lia)).
    destruct (binary_round _ _ _ _ _) eqn:E; simpl in H; try contradiction; eauto.
  - specialize (H true p ltac:(lia)).
    destruct (binary_round _ _ _ _ _) eqn:E; simpl in H; try contradiction; eauto.
Qed.

Lemma SFmul_bounded x y kx cx ky cy c :
  bounded_by kx cx x -> bounded_by ky cy y ->
  cx + cy <= c -> kx + ky - 52 <= c -> c <= 971 -> -1074 <= c -> -1074 <= kx + ky ->
  bounded_by (kx + ky + 1) c (SFmul Py.prec Py.emax x y).
Proof.
  destruct x as [sx|sx| |sx mx ex], y as [sy|sy| |sy my ey]; simpl;
    try contradiction; auto.
  intros [H1 H2] [H3 H4] Hc Hk Hc' Hc'' Hk'.
  apply binary_round_aux_bounded; try lia.
  pose proof (Zdigits2_mul (Zpos mx) (Zpos my) ltac:(lia) ltac:(lia)) as H.
  simpl in *. lia.
Qed.

Lemma round_bounded x k c : bounded_by k c x -> exists r, Py.round x = Py.Return r.
Proof.
  destruct x; simpl; try contradiction; eauto.
Qed.

(** The formula of an axis answers for every position below [2^1000] in
    absolute value: no exception leaves it. *)
Lemma perc_binary64_returns pos d :
  Z.abs pos < 2 ^ 1000 -> exists r, perc_binary64 pos d = Py.Return r.
Proof.
  intros Hpos. unfold perc_binary64.
  destruct (Z.eqb_spec d 0) as [->|Hd]; [eauto|].
  destruct (int_truediv_bounded 100 d Hd) as (q & -> & Hq); [simpl; lia|]. simpl.
  unfold Py.float_mul_int.
  destruct (float_of_int_bounded pos 1000 971 Hpos) as (g & -> & Hg); try lia. simpl.
  change (Zdigits2 100 + 1) with 8 in Hq.
  pose proof (SFmul_bounded q g 8 0 (1000 + 1) 971 971 Hq Hg) as Hp.
  destruct (round_bounded _ _ _ (Hp ltac:(lia) ltac:(lia) ltac:(lia) ltac:(lia) ltac:(lia)))
    as [r ->].
  simpl. eauto.
Qed.

(** ** WebEngineScroller: the percentages *)

Lemma update_pos_cb_None t : WebEngineScroller.update_pos_cb None t = (Py.Return tt, t).
Proof. reflexivity. Qed.

Lemma calls_of_app {A : Type} (m : M A) t l :
  calls (exec m t) = calls t ++ l -> calls_of m t = l.
Proof.
  intros H. unfold calls_of. rewrite H. apply drop_app_length.
Qed.

Lemma is_c_int_spec z : Qt.is_c_int z = true <-> Qt.INT_MIN <= z <= Qt.INT_MAX.
Proof. unfold Qt.is_c_int. rewrite andb_true_iff, !Z.leb_le. reflexivity. Qed.

Lemma c_int_below z : Qt.INT_MIN <= z <= Qt.INT_MAX -> Z.abs z < 2 ^ 1000.
Proof.
  unfold Qt.INT_MIN, Qt.INT_MAX. intros H.
  assert (2 ^ 31 < 2 ^ 1000) by (apply Z.pow_lt_mono_r; lia).
  lia.
Qed.

Lemma c_ints_spec a b :
  Qt.is_c_int a && Qt.is_c_int b = true <->
  Qt.INT_MIN <= a <= Qt.INT_MAX /\ Qt.INT_MIN <= b <= Qt.INT_MAX.
Proof. rewrite andb_true_iff, !is_c_int_spec. reflexivity. Qed.

(** The callback completes on every snapshot whose pixel position fits C
    ints, whatever the extents are. *)
Lemma update_pos_cb_returns t j :
  Qt.INT_MIN <= jsret.x (jsret.px j) <= Qt.INT_MAX ->
  Qt.INT_MIN <= jsret.y (jsret.px j) <= Qt.INT_MAX ->
  exists perc_x perc_y,
    perc_binary64 (jsret.x (jsret.px j)) (dx_of j) = Py.Return perc_x
    /\ perc_binary64 (jsret.y (jsret.px j)) (dy_of j) = Py.Return perc_y
    /\ WebEngineScroller.update_pos_cb (Some j) t =
       (Py.Return tt,
        {| tab_search := tab_search t;
           tab_scroller :=
             {| _pos_perc := (perc_x, perc_y);
                _pos_px := {| Qt.x := jsret.x (jsret.px j);
                              Qt.y := jsret.y (jsret.px j) |};
                _at_bottom := dy_of j >=? jsret.y (jsret.px j) |};
           _saved_zoom := _saved_zoom t;
           tab_widget := tab_widget t;
           flag_objects := flag_objects t;
           calls := calls t ++ [perc_changed_emit perc_x perc_y] |}).
Proof.
  intros Hx Hy.
  destruct (perc_binary64_returns _ (dx_of j) (c_int_below _ Hx)) as [px Ex].
  destruct (perc_binary64_returns _ (dy_of j) (c_int_below _ Hy)) as [py Ey].
  exists px, py. split; [exact Ex|]. split; [exact Ey|].
  rewrite update_pos_cb_unfold, (proj2 (c_ints_spec _ _) (conj Hx Hy)), Ex, Ey.
  reflexivity.
Qed.

(** On any other snapshot it raises before anything is stored. *)
Lemma update_pos_cb_overflow t j :
  ~ (Qt.INT_MIN <= jsret.x (jsret.px j) <= Qt.INT_MAX
     /\ Qt.INT_MIN <= jsret.y (jsret.px j) <= Qt.INT_MAX) ->
  WebEngineScroller.update_pos_cb (Some j) t = (Py.Raise Py.OverflowError, t).
Proof.
  intros H. rewrite update_pos_cb_unfold.
  destruct (Qt.is_c_int _ && Qt.is_c_int _) eqn:E; [|reflexivity].
  exfalso. apply H, c_ints_spec, E.
Qed.

(** The two cases of the callback on a dict. *)
Lemma update_pos_cb_cases t j :
  (exists perc_x perc_y,
     (Qt.INT_MIN <= jsret.x (jsret.px j) <= Qt.INT_MAX
      /\ Qt.INT_MIN <= jsret.y (jsret.px j) <= Qt.INT_MAX)
     /\ perc_binary64 (jsret.x (jsret.px j)) (dx_of j) = Py.Return perc_x
     /\ perc_binary64 (jsret.y (jsret.px j)) (dy_of j) = Py.Return perc_y
     /\ WebEngineScroller.update_pos_cb (Some j) t =
        (Py.Return tt,
         {| tab_search := tab_search t;
            tab_scroller :=
              {| _pos_perc := (perc_x, perc_y);
                 _pos_px := {| Qt.x := jsret.x (jsret.px j);
                               Qt.y := jsret.y (jsret.px j) |};
                 _at_bottom := dy_of j >=? jsret.y (jsret.px j) |};
            _saved_zoom := _saved_zoom t;
            tab_widget := tab_widget t;
            flag_objects := flag_objects t;
            calls := calls t ++ [perc_changed_emit perc_x perc_y] |}))
  \/ (~ (Qt.INT_MIN <= jsret.x (jsret.px j) <= Qt.INT_MAX
         /\ Qt.INT_MIN <= jsret.y (jsret.px j) <= Qt.INT_MAX)
      /\ WebEngineScroller.update_pos_cb (Some j) t = (Py.Raise Py.OverflowError, t)).
Proof.
  destruct (Qt.is_c_int (jsret.x (jsret.px j)) && Qt.is_c_int (jsret.y (jsret.px j)))
    eqn:E.
  - apply c_ints_spec in E. destruct E as [Hx Hy].
    destruct (update_pos_cb_returns t j Hx Hy) as (px & py & Ex & Ey & Hr).
    left. exists px, py. repeat split; try assumption; apply Hx || apply Hy.
  - assert (H : ~ (Qt.INT_MIN <= jsret.x (jsret.px j) <= Qt.INT_MAX
                   /\ Qt.INT_MIN <= jsret.y (jsret.px j) <= Qt.INT_MAX)).
    { intros H. apply c_ints_spec in H. congruence. }
    right. split; [exact H|]. apply update_pos_cb_overflow, H.
Qed.

(** C1 (amended).  When the scroll-geometry callback receives a snapshot,
    the percentage of each axis is [min(100, round((100 / d) * pos))] with
    [d = scrollExtent - innerExtent], evaluated as Python does: the quotient
    [100 / d] is rounded to a binary64 float first, the product with the
    position is rounded to a float again, and [round] takes the nearest int,
    ties to even.  The percentage is 0 when [d = 0], and no snapshot makes
    the callback divide by zero.  For a pixel position whose two coordinates
    fit C ints the callback returns, stores the two percentages, the pixel
    position and the at-bottom flag [dy >= pos_y], and emits [perc_changed]
    once.  For any other pixel position making the [QPoint] raises
    [OverflowError]: nothing is stored and nothing is emitted.  For the
    snapshot [{px:{x:50,y:0}, scroll:{width:200,height:0},
    inner:{width:100,height:0}}] the stored percentages are (50, 0) and the
    at-bottom flag is true, whatever the tab was before. *)
Theorem update_pos_cb_percentages (t : tab) :
  (forall jsret0,
     answer (WebEngineScroller.update_pos_cb jsret0) t
       <> Py.Raise Py.ZeroDivisionError)
  /\ (forall j,
        Qt.INT_MIN <= jsret.x (jsret.px j) <= Qt.INT_MAX ->
        Qt.INT_MIN <= jsret.y (jsret.px j) <= Qt.INT_MAX ->
        exists perc_x perc_y,
          perc_binary64 (jsret.x (jsret.px j)) (dx_of j) = Py.Return perc_x
          /\ perc_binary64 (jsret.y (jsret.px j)) (dy_of j) = Py.Return perc_y
          /\ (dx_of j = 0 -> perc_x = 0)
          /\ (dy_of j = 0 -> perc_y = 0)
          /\ answer (WebEngineScroller.update_pos_cb (Some j)) t = Py.Return tt
          /\ tab_scroller (exec (WebEngineScroller.update_pos_cb (Some j)) t) =
             {| _pos_perc := (perc_x, perc_y);
                _pos_px := {| Qt.x := jsret.x (jsret.px j);
                              Qt.y := jsret.y (jsret.px j) |};
                _at_bottom := dy_of j >=? jsret.y (jsret.px j) |}
          /\ calls_of (WebEngineScroller.update_pos_cb (Some j)) t =
             [perc_changed_emit perc_x perc_y])
  /\ (forall j,
        ~ (Qt.INT_MIN <= jsret.x (jsret.px j) <= Qt.INT_MAX
           /\ Qt.INT_MIN <= jsret.y (jsret.px j) <= Qt.INT_MAX) ->
        answer (WebEngineScroller.update_pos_cb (Some j)) t
          = Py.Raise Py.OverflowError
        /\ exec (WebEngineScroller.update_pos_cb (Some j)) t = t)
  /\ _pos_perc (tab_scroller
       (exec (WebEngineScroller.update_pos_cb (Some (snapshot 50 0 200 0 100 0))) t))
     = (50, 0)
  /\ _at_bottom (tab_scroller
       (exec (WebEngineScroller.update_pos_cb (Some (snapshot 50 0 200 0 100 0))) t))
     = true.
Proof.
  split; [|split; [|split]].
  - intros [j|]; unfold answer; [|rewrite update_pos_cb_None; discriminate].
    destruct (update_pos_cb_cases t j) as [(px & py & _ & _ & _ & ->)|[_ ->]];
      discriminate.
  - intros j Hx Hy.
    destruct (update_pos_cb_returns t j Hx Hy) as (px & py & Ex & Ey & Hr).
    exists px, py. split; [exact Ex|]. split; [exact Ey|].
    split.
    { intros H0. unfold perc_binary64 in Ex. rewrite H0 in Ex. simpl in Ex. congruence. }
    split.
    { intros H0. unfold perc_binary64 in Ey. rewrite H0 in Ey. simpl in Ey. congruence. }
    unfold answer, exec. split; [|split].
    + rewrite Hr. reflexivity.
    + rewrite Hr. reflexivity.
    + apply calls_of_app. unfold exec. rewrite Hr. reflexivity.
  - intros j H. unfold answer, exec. rewrite (update_pos_cb_overflow t j H).
    split; reflexivity.
  - unfold exec. rewrite update_pos_cb_unfold. split; reflexivity.
Qed.

Lemma update_pos_cb_percentages_witness :
  Qt.INT_MIN <= 291 <= Qt.INT_MAX /\ Qt.INT_MIN <= 0 <= Qt.INT_MAX
  /\ exists perc_x perc_y,
       perc_binary64 291 776 = Py.Return perc_x
       /\ perc_binary64 0 0 = Py.Return perc_y
       /\ calls_of (WebEngineScroller.update_pos_cb
                      (Some (snapshot 291 0 876 0 100 0))) new_tab
          = [perc_changed_emit perc_x perc_y].
Proof.
  assert (H1 : Qt.INT_MIN <= 291 <= Qt.INT_MAX) by (split; discriminate).
  assert (H2 : Qt.INT_MIN <= 0 <= Qt.INT_MAX) by (split; discriminate).
  split; [exact H1|]. split; [exact H2|].
  destruct (proj1 (proj2 (update_pos_cb_percentages new_tab))
              (snapshot 291 0 876 0 100 0) H1 H2)
    as (px & py & Ex & Ey & _ & _ & _ & _ & Hc).
  exists px, py. split; [exact Ex|]. split; [exact Ey|]. exact Hc.
Defined.

(** C1, as stated, fails: at position 291 with scroll extent 876 and inner
    extent 100 the callback stores 37, while [100 * 291 / 776] is exactly
    37.5 and every reading of [round(100 * pos / d)] gives 38. *)
Lemma perc_formula_counterexample :
  _pos_perc (tab_scroller
    (exec (WebEngineScroller.update_pos_cb (Some (snapshot 291 0 876 0 100 0)))
       new_tab)) = (37, 0)
  /\ perc_exact ties_to_even 291 (876 - 100) = 38
  /\ perc_exact ties_up 291 (876 - 100) = 38
  /\ perc_one_division 291 (876 - 100) = Py.Return 38.
Proof. vm_compute. repeat split; reflexivity. Qed.

(** C2 (amended).  For every snapshot of integers the callback returns
    exactly when the two coordinates of the pixel position fit C ints, and
    otherwise raises and computes no percentage.  When it returns, the
    percentage of each axis is at most 100, also where the raw ratio exceeds
    100; it is at least 0 when the position and [scrollExtent - innerExtent]
    do not have opposite signs, and at most 0 when they do not have the same
    sign: the code clamps from above only. *)
Theorem update_pos_cb_percentage_bounds (t : tab) (j : jsret.dict) :
  (answer (WebEngineScroller.update_pos_cb (Some j)) t = Py.Return tt <->
   Qt.INT_MIN <= jsret.x (jsret.px j) <= Qt.INT_MAX
   /\ Qt.INT_MIN <= jsret.y (jsret.px j) <= Qt.INT_MAX)
  /\ (answer (WebEngineScroller.update_pos_cb (Some j)) t = Py.Return tt ->
      forall perc_x perc_y,
        _pos_perc (tab_scroller
          (exec (WebEngineScroller.update_pos_cb (Some j)) t)) = (perc_x, perc_y) ->
        perc_x <= 100 /\ perc_y <= 100
        /\ (0 <= jsret.x (jsret.px j) * dx_of j -> 0 <= perc_x)
        /\ (0 <= jsret.y (jsret.px j) * dy_of j -> 0 <= perc_y)
        /\ (jsret.x (jsret.px j) * dx_of j <= 0 -> perc_x <= 0)
        /\ (jsret.y (jsret.px j) * dy_of j <= 0 -> perc_y <= 0)).
Proof.
  unfold answer, exec.
  destruct (update_pos_cb_cases t j) as [(px & py & Hr & Ex & Ey & ->)|[Hn ->]];
    cbn [fst snd tab_scroller _pos_perc].
  - split; [split; [intros _; exact Hr|reflexivity]|].
    intros _ perc_x perc_y [= <- <-].
    pose proof (perc_binary64_le_100 _ _ _ Ex).
    pose proof (perc_binary64_le_100 _ _ _ Ey).
    destruct (perc_binary64_sign _ _ _ Ex).
    destruct (perc_binary64_sign _ _ _ Ey).
    repeat split; auto.
  - split; [split; [discriminate|intros H; contradiction]|discriminate].
Qed.

Lemma update_pos_cb_percentage_bounds_witness :
  answer (WebEngineScroller.update_pos_cb (Some (snapshot 300 0 200 0 100 0))) new_tab
    = Py.Return tt
  /\ _pos_perc (tab_scroller
       (exec (WebEngineScroller.update_pos_cb (Some (snapshot 300 0 200 0 100 0)))
          new_tab)) = (100, 0)
  /\ 100 <= 100 /\ 0 <= 100.
Proof.
  assert (Ha : answer (WebEngineScroller.update_pos_cb
                         (Some (snapshot 300 0 200 0 100 0))) new_tab = Py.Return tt)
    by (vm_compute; reflexivity).
  assert (Hp : _pos_perc (tab_scroller
                 (exec (WebEngineScroller.update_pos_cb
                          (Some (snapshot 300 0 200 0 100 0))) new_tab)) = (100, 0))
    by (vm_compute; reflexivity).
  destruct (proj2 (update_pos_cb_percentage_bounds new_tab (snapshot 300 0 200 0 100 0))
              Ha 100 0 Hp) as (H1 & _ & H3 & _).
  split; [exact Ha|]. split; [exact Hp|]. split; [exact H1|].
  apply H3. vm_compute. discriminate.
Defined.

(** C2, as stated, fails: with position 50, scroll extent 100 and inner
    extent 200 the callback stores the percentage -50. *)
Lemma perc_below_zero_counterexample :
  _pos_perc (tab_scroller
    (exec (WebEngineScroller.update_pos_cb (Some (snapshot 50 0 100 0 200 0)))
       new_tab)) = (-50, 0)
  /\ (-50 <? 0) = true.
Proof. vm_compute. split; reflexivity. Qed.

(** ** QFlags objects *)

Lemma lookup_total_new (h : list Z) v : (h ++ [v]) !!! length h = v.
Proof. induction h as [|a h IH]; simpl; auto. Qed.

Lemma insert_new (h : list Z) v w : <[length h := w]> (h ++ [v]) = h ++ [w].
Proof. induction h as [|a h IH]; simpl; [reflexivity|]. f_equal. exact IH. Qed.

Lemma lookup_total_old (h : list Z) v (r : nat) :
  (r < length h)%nat -> (h ++ [v]) !!! r = h !!! r.
Proof.
  revert r; induction h as [|a h IH]; simpl; intros r Hr; [lia|].
  destruct r as [|r]; [reflexivity|]. apply IH. lia.
Qed.

Lemma toggle_backward_lxor flags :
  toggle_backward flags = Z.lxor flags Qt.FindBackward.
Proof.
  unfold toggle_backward, backward, Qt.FindBackward.
  apply Z.bits_inj'. intros n Hn.
  destruct (Z.eqb_spec (Z.land flags 1) 0) as [E|E]; simpl.
  - rewrite Z.lor_spec, Z.lxor_spec.
    assert (Hb : Z.testbit flags 0 = false).
    { apply (f_equal (fun z => Z.testbit z 0)) in E.
      rewrite Z.land_spec, Z.bits_0 in E. simpl in E.
      rewrite andb_true_r in E. exact E. }
    destruct (Z.eq_dec n 0) as [->|Hn0].
    + rewrite Hb. reflexivity.
    + replace (Z.testbit 1 n) with false.
      * rewrite orb_false_r, xorb_false_r. reflexivity.
      * symmetry. apply (Z.bits_above_log2 1 n); simpl; lia.
  - rewrite Z.land_spec, Z.lxor_spec, Z.lnot_spec by lia.
    assert (Hb : Z.testbit flags 0 = true).
    { destruct (Z.testbit flags 0) eqn:Eb; [reflexivity|]. exfalso. apply E.
      apply Z.bits_inj'. intros k Hk. rewrite Z.land_spec, Z.bits_0.
      destruct (Z.eq_dec k 0) as [->|Hk0].
      - rewrite Eb. reflexivity.
      - replace (Z.testbit 1 k) with false; [apply andb_false_r|].
        symmetry. apply (Z.bits_above_log2 1 k); simpl; lia. }
    destruct (Z.eq_dec n 0) as [->|Hn0].
    + rewrite Hb. reflexivity.
    + replace (Z.testbit 1 n) with false.
      * simpl. rewrite andb_true_r, xorb_false_r. reflexivity.
      * symmetry. apply (Z.bits_above_log2 1 n); simpl; lia.
Qed.

Lemma toggle_backward_involutive flags :
  toggle_backward (toggle_backward flags) = flags.
Proof.
  rewrite !toggle_backward_lxor, Z.lxor_assoc, Z.lxor_nilpotent, Z.lxor_0_r.
  reflexivity.
Qed.

Lemma backward_toggle flags : backward (toggle_backward flags) = negb (backward flags).
Proof.
  unfold toggle_backward. destruct (backward flags) eqn:E; unfold backward in *.
  - rewrite <- Z.land_assoc.
    replace (Z.land (Z.lnot Qt.FindBackward) Qt.FindBackward) with 0 by reflexivity.
    rewrite Z.land_0_r. reflexivity.
  - rewrite Z.land_lor_distr_l.
    apply negb_false_iff, Z.eqb_eq in E. rewrite E. reflexivity.
Qed.

Lemma case_sensitive_toggle flags :
  case_sensitive (toggle_backward flags) = case_sensitive flags.
Proof.
  unfold toggle_backward, case_sensitive.
  destruct (backward flags).
  - rewrite <- Z.land_assoc. reflexivity.
  - rewrite Z.land_lor_distr_l. change (Z.land Qt.FindBackward Qt.FindCaseSensitively) with 0.
    rewrite Z.lor_0_r. reflexivity.
Qed.

(** ** WebEngineSearch: what each method leaves behind *)

(** Reduce the projections of records that are written out. *)
Ltac run_projections :=
  cbn [tab_search tab_scroller _saved_zoom tab_widget flag_objects calls
       text _flags search_displayed _pos_perc _pos_px _at_bottom
       zoomFactor page_url page_requestedUrl widget_title].

Lemma clear_run t :
  WebEngineSearch.clear t =
  (Py.Return tt,
   {| tab_search := displayed false (tab_search t);
      tab_scroller := tab_scroller t;
      _saved_zoom := _saved_zoom t;
      tab_widget := tab_widget t;
      flag_objects := flag_objects t;
      calls := calls t ++ [findText [] 0 None] |}).
Proof. reflexivity. Qed.

Lemma next_result_run result_cb t :
  WebEngineSearch.next_result result_cb t =
  (Py.Return tt,
   {| tab_search := displayed true (tab_search t);
      tab_scroller := tab_scroller t;
      _saved_zoom := _saved_zoom t;
      tab_widget := tab_widget t;
      flag_objects := flag_objects t;
      calls := calls t ++
        [findText (text (tab_search t)) (stored_flags t)
           (Some (wrapped_callback by_next_result result_cb))] |}).
Proof. reflexivity. Qed.

Lemma prev_result_run result_cb t :
  WebEngineSearch.prev_result result_cb t =
  (Py.Return tt,
   {| tab_search := displayed true (tab_search t);
      tab_scroller := tab_scroller t;
      _saved_zoom := _saved_zoom t;
      tab_widget := tab_widget t;
      flag_objects := flag_objects t ++ [toggle_backward (stored_flags t)];
      calls := calls t ++
        [findText (text (tab_search t)) (toggle_backward (stored_flags t))
           (Some (wrapped_callback by_prev_result result_cb))] |}).
Proof.
  destruct t as [s sc z w h c].
  unfold WebEngineSearch.prev_result, WebEngineSearch._find, QFlags.test, QFlags.new,
    QFlags.int, QFlags.iand, QFlags.ior, WebEngineSearch.set_search_displayed, out,
    toggle_backward, backward, stored_flags.
  cbv [mbind M_bind modify mret M_ret gets upd_flag_objects upd_search upd_calls].
  run_projections. rewrite lookup_total_new.
  destruct (negb (Z.land (h !!! _flags s) Qt.FindBackward =? 0));
    run_projections; rewrite insert_new, !lookup_total_new; reflexivity.
Qed.

Lemma search_run casing_of text0 ignore_case reverse result_cb t :
  WebEngineSearch.search casing_of text0 ignore_case reverse result_cb t =
  (Py.Return tt,
   {| tab_search :=
        {| text := text0; _flags := length (flag_objects t);
           search_displayed := true |};
      tab_scroller := tab_scroller t;
      _saved_zoom := _saved_zoom t;
      tab_widget := tab_widget t;
      flag_objects :=
        flag_objects t ++ [flags_of (sensitive_for casing_of text0 ignore_case) reverse];
      calls := calls t ++
        [findText text0 (flags_of (sensitive_for casing_of text0 ignore_case) reverse)
           (Some (wrapped_callback by_search result_cb))] |}).
Proof.
  destruct t as [s sc z w h c].
  unfold WebEngineSearch.search, WebEngineSearch._find, QFlags.new,
    QFlags.int, QFlags.ior, WebEngineSearch.set_search_displayed, out,
    flags_of, sensitive_for.
  destruct ignore_case as [|[]];
    [destruct (Py.islower casing_of text0)| |]; destruct reverse;
    cbv [mbind M_bind modify mret M_ret gets upd_flag_objects upd_search upd_calls negb];
    run_projections;
    rewrite ?insert_new, ?lookup_total_new, ?insert_new, ?lookup_total_new;
    reflexivity.
Qed.

Lemma calls_of_run {A : Type} (m : M A) t a t' l :
  m t = (a, t') -> calls t' = calls t ++ l -> calls_of m t = l.
Proof.
  intros Hm Hc. apply calls_of_app. unfold exec. rewrite Hm. exact Hc.
Qed.

Lemma stored_flags_after_search casing_of text0 ignore_case reverse result_cb t :
  stored_flags
    (exec (WebEngineSearch.search casing_of text0 ignore_case reverse result_cb) t)
  = flags_of (sensitive_for casing_of text0 ignore_case) reverse.
Proof.
  unfold exec, stored_flags. rewrite search_run. run_projections. cbn [snd].
  run_projections. apply lookup_total_new.
Qed.

Lemma flags_alive_after_search casing_of text0 ignore_case reverse result_cb t :
  flags_alive
    (exec (WebEngineSearch.search casing_of text0 ignore_case reverse result_cb) t).
Proof.
  unfold exec, flags_alive. rewrite search_run. cbn [snd]. run_projections.
  rewrite length_app. simpl. lia.
Qed.

Lemma case_sensitive_flags_of sensitive reverse :
  case_sensitive (flags_of sensitive reverse) = sensitive.
Proof. destruct sensitive, reverse; reflexivity. Qed.

Lemma backward_flags_of sensitive reverse :
  backward (flags_of sensitive reverse) = reverse.
Proof. destruct sensitive, reverse; reflexivity. Qed.

Lemma forallb_negb {A : Type} (p : A -> bool) l :
  forallb (fun a => negb (p a)) l = negb (existsb p l).
Proof.
  induction l as [|a l IH]; simpl; [reflexivity|].
  rewrite IH, negb_orb. reflexivity.
Qed.

(** [s.islower()] fails exactly when [s] has an upper- or titlecase
    character, or no lowercase character at all. *)
Lemma not_islower casing_of s :
  negb (Py.islower casing_of s)
  = has_upper_or_title casing_of s || negb (has_lower casing_of s).
Proof.
  unfold Py.islower, has_upper_or_title, has_lower.
  rewrite forallb_negb, negb_andb, negb_involutive. reflexivity.
Qed.

Lemma finds_prev_result result_cb t :
  finds (calls_of (WebEngineSearch.prev_result result_cb) t)
  = [(text (tab_search t), toggle_backward (stored_flags t))].
Proof.
  erewrite calls_of_run; [|apply prev_result_run|reflexivity]. reflexivity.
Qed.

Lemma finds_next_result result_cb t :
  finds (calls_of (WebEngineSearch.next_result result_cb) t)
  = [(text (tab_search t), stored_flags t)].
Proof.
  erewrite calls_of_run; [|apply next_result_run|reflexivity]. reflexivity.
Qed.

(** A step through the results leaves the text, the reference [_flags] and
    the object it names as they were. *)
Lemma take_step_keeps s t :
  flags_alive t ->
  flags_alive (exec (take_step s) t)
  /\ text (tab_search (exec (take_step s) t)) = text (tab_search t)
  /\ _flags (tab_search (exec (take_step s) t)) = _flags (tab_search t)
  /\ stored_flags (exec (take_step s) t) = stored_flags t.
Proof.
  intros Ha. unfold exec, flags_alive, stored_flags in *.
  destruct s as [cb|cb]; simpl take_step.
  - rewrite prev_result_run. cbn [snd]. run_projections. unfold displayed.
    run_projections. rewrite length_app, lookup_total_old by exact Ha.
    simpl. repeat split; lia.
  - rewrite next_result_run. cbn [snd]. run_projections. unfold displayed.
    run_projections. repeat split; exact Ha.
Qed.

(** C3 (amended).  For every prior state of the search adapter, after
    [clear()] the "search displayed" flag is false, and the engine was asked
    to find the empty text; after [search] with any text, the empty string
    included, the flag is true: [search] goes through [_find], which sets it. *)
Theorem search_displayed_after_clear_and_search
    (casing_of : N -> Py.casing) (t : tab) (text0 : Py.str)
    (ignore_case : ignore_case_arg) (reverse : bool) (result_cb : option nat) :
  search_displayed (tab_search (exec WebEngineSearch.clear t)) = false
  /\ calls_of WebEngineSearch.clear t = [findText [] 0 None]
  /\ search_displayed (tab_search
       (exec (WebEngineSearch.search casing_of text0 ignore_case reverse result_cb) t))
     = true
  /\ search_displayed (tab_search
       (exec (WebEngineSearch.search casing_of [] ignore_case reverse result_cb) t))
     = true.
Proof.
  split; [reflexivity|]. split.
  - eapply calls_of_run; [apply clear_run|reflexivity].
  - unfold exec. rewrite !search_run. split; reflexivity.
Qed.

(** C3, as stated, fails: a search for the empty string on a tab whose
    flag is false leaves the flag true. *)
Lemma search_empty_counterexample :
  search_displayed (tab_search new_tab) = false
  /\ search_displayed (tab_search
       (exec (WebEngineSearch.search ascii_casing [] (ignore_case_is false) false None)
          new_tab)) = true.
Proof. split; reflexivity. Qed.

(** C4 (amended).  For every stored find-flag state after a search,
    [prev_result] issues the engine find with the backward flag toggled
    relative to the stored flags (and the case flag as stored), and
    [next_result] issues it with the stored flags unchanged.  [prev_result]
    followed by [next_result] issues the second find with the original
    flags; [next_result] followed by [prev_result] issues the second find
    with the backward flag toggled.  The toggle is its own inverse. *)
Theorem prev_next_flags
    (casing_of : N -> Py.casing) (t0 : tab) (text0 : Py.str)
    (ignore_case : ignore_case_arg) (reverse : bool)
    (result_cb cb1 cb2 : option nat) :
  let t := exec (WebEngineSearch.search casing_of text0 ignore_case reverse result_cb) t0 in
  let f := stored_flags t in
  finds (calls_of (WebEngineSearch.prev_result cb1) t) = [(text0, toggle_backward f)]
  /\ backward (toggle_backward f) = negb (backward f)
  /\ case_sensitive (toggle_backward f) = case_sensitive f
  /\ finds (calls_of (WebEngineSearch.next_result cb1) t) = [(text0, f)]
  /\ finds (calls_of (WebEngineSearch.next_result cb2)
              (exec (WebEngineSearch.prev_result cb1) t)) = [(text0, f)]
  /\ finds (calls_of (WebEngineSearch.prev_result cb2)
              (exec (WebEngineSearch.next_result cb1) t)) = [(text0, toggle_backward f)]
  /\ toggle_backward (toggle_backward f) = f.
Proof.
  intros t f.
  assert (Ht : text (tab_search t) = text0).
  { subst t. unfold exec. rewrite search_run. reflexivity. }
  assert (Ha : flags_alive t) by apply flags_alive_after_search.
  pose proof (take_step_keeps (prev_step cb1) t Ha) as (_ & Hp1 & _ & Hp2).
  pose proof (take_step_keeps (next_step cb1) t Ha) as (_ & Hn1 & _ & Hn2).
  simpl take_step in *.
  rewrite !finds_prev_result, !finds_next_result, Hp1, Hp2, Hn1, Hn2, Ht.
  repeat split; auto using backward_toggle, case_sensitive_toggle,
    toggle_backward_involutive.
Qed.

(** C4, as stated, fails in the "vice versa" order: after a forward search,
    [next_result] then [prev_result] issues the second find backward. *)
Lemma next_then_prev_counterexample :
  backward (stored_flags
    (exec (WebEngineSearch.search ascii_casing (Py.lit "abc") (ignore_case_is false)
             false None) new_tab)) = false
  /\ finds (calls_of (WebEngineSearch.prev_result None)
       (exec (WebEngineSearch.next_result None)
          (exec (WebEngineSearch.search ascii_casing (Py.lit "abc")
                   (ignore_case_is false) false None) new_tab)))
     = [(Py.lit "abc", 3)]
  /\ backward 3 = true.
Proof. vm_compute. repeat split; reflexivity. Qed.

(** C5 (amended).  For every query text, [search] issues one engine find,
    for that text.  With [ignore_case == 'smart'] the case-sensitive flag is
    set exactly when [text.islower()] is false: when the query contains an
    upper- or titlecase character, or contains no lowercase character at all
    (digits only, or the empty string); with [ignore_case] false the flag is
    always set, and with [ignore_case] true it is never set.  The backward
    flag is set exactly when [reverse] is. *)
Theorem search_case_sensitivity
    (casing_of : N -> Py.casing) (t : tab) (text0 : Py.str)
    (ignore_case : ignore_case_arg) (reverse : bool) (result_cb : option nat) :
  exists flags,
    finds (calls_of
             (WebEngineSearch.search casing_of text0 ignore_case reverse result_cb) t)
      = [(text0, flags)]
    /\ stored_flags
         (exec (WebEngineSearch.search casing_of text0 ignore_case reverse result_cb) t)
       = flags
    /\ backward flags = reverse
    /\ case_sensitive flags =
       match ignore_case with
       | smart =>
           has_upper_or_title casing_of text0 || negb (has_lower casing_of text0)
       | ignore_case_is false => true
       | ignore_case_is true => false
       end.
Proof.
  exists (flags_of (sensitive_for casing_of text0 ignore_case) reverse).
  split; [|split; [apply stored_flags_after_search|split]].
  - erewrite calls_of_run; [|apply search_run|reflexivity]. reflexivity.
  - apply backward_flags_of.
  - rewrite case_sensitive_flags_of.
    destruct ignore_case as [|[]]; simpl; auto using not_islower.
Qed.

(** C5, as stated, fails: the smart search for "123" and the one for the
    empty string are issued case-sensitively, and neither query has an
    uppercase character. *)
Lemma smart_digits_counterexample :
  has_upper ascii_casing (Py.lit "123") = false
  /\ finds (calls_of
       (WebEngineSearch.search ascii_casing (Py.lit "123") smart false None) new_tab)
     = [(Py.lit "123", Qt.FindCaseSensitively)]
  /\ case_sensitive Qt.FindCaseSensitively = true
  /\ finds (calls_of
       (WebEngineSearch.search ascii_casing [] smart false None) new_tab)
     = [([], Qt.FindCaseSensitively)].
Proof. vm_compute. repeat split; reflexivity. Qed.

Lemma after_steps_keeps ss t :
  flags_alive t ->
  flags_alive (after_steps ss t)
  /\ text (tab_search (after_steps ss t)) = text (tab_search t)
  /\ _flags (tab_search (after_steps ss t)) = _flags (tab_search t)
  /\ stored_flags (after_steps ss t) = stored_flags t.
Proof.
  revert t. induction ss as [|s ss IH]; intros t Ha; [repeat split; exact Ha|].
  destruct (take_step_keeps s t Ha) as (Ha' & H1 & H2 & H3).
  destruct (IH _ Ha') as (Ha'' & H4 & H5 & H6).
  unfold after_steps in *. simpl. repeat split; congruence.
Qed.

(** C10.  [prev_result] and [next_result] never modify the stored text or
    the stored find flags: after any sequence of them following a search,
    the text is the one searched for, [_flags] names the object the search
    stored, and that object holds the flags the search gave it.
    [prev_result] toggles the backward flag on a copy: every find it issues
    meanwhile is for the stored text with the toggle of the stored flags. *)
Theorem results_keep_search
    (casing_of : N -> Py.casing) (t0 : tab) (text0 : Py.str)
    (ignore_case : ignore_case_arg) (reverse : bool)
    (result_cb : option nat) (ss : list result_step) :
  let t := exec (WebEngineSearch.search casing_of text0 ignore_case reverse result_cb) t0 in
  text (tab_search (after_steps ss t)) = text0
  /\ _flags (tab_search (after_steps ss t)) = _flags (tab_search t)
  /\ stored_flags (after_steps ss t) = stored_flags t
  /\ stored_flags t = flags_of (sensitive_for casing_of text0 ignore_case) reverse
  /\ forall cb,
       finds (calls_of (WebEngineSearch.prev_result cb) (after_steps ss t))
         = [(text0, toggle_backward (stored_flags t))]
       /\ finds (calls_of (WebEngineSearch.next_result cb) (after_steps ss t))
         = [(text0, stored_flags t)].
Proof.
  intros t.
  assert (Ht : text (tab_search t) = text0).
  { subst t. unfold exec. rewrite search_run. reflexivity. }
  destruct (after_steps_keeps ss t) as (_ & H1 & H2 & H3);
    [apply flags_alive_after_search|].
  split; [congruence|]. split; [exact H2|]. split; [exact H3|].
  split; [apply stored_flags_after_search|].
  intros cb. rewrite finds_prev_result, finds_next_result, H1, H3, Ht.
  split; reflexivity.
Qed.

(** ** WebEngineScroller: scrolling by keys *)

Lemma key_press_run key modifier t :
  WebEngineTab.key_press key modifier t =
  (Py.Return tt, upd_calls (fun l => l ++ key_pair key modifier) t).
Proof.
  unfold WebEngineTab.key_press, out, key_pair.
  cbv [mbind M_bind modify mret M_ret upd_calls]. run_projections.
  rewrite <- app_assoc. reflexivity.
Qed.

Lemma for_range_key_press_run n key modifier t :
  for_range n (WebEngineTab.key_press key modifier) t =
  (Py.Return tt, upd_calls (fun l => l ++ key_pairs n key modifier) t).
Proof.
  revert t. induction n as [|n IH]; intros t.
  - destruct t. unfold upd_calls. simpl. rewrite app_nil_r. reflexivity.
  - simpl for_range. cbv [mbind M_bind]. rewrite key_press_run, IH.
    unfold upd_calls. run_projections. simpl key_pairs.
    rewrite <- app_assoc. reflexivity.
Qed.

Lemma _repeated_key_press_run key count modifier t :
  WebEngineScroller._repeated_key_press key count modifier t =
  (Py.Return tt,
   upd_calls (fun l => l ++ key_pairs (Z.to_nat (Z.min count 5000)) key modifier) t).
Proof. apply for_range_key_press_run. Qed.

Lemma scroll_by_keys_run d count t :
  scroll_by_keys d count t =
  (Py.Return tt,
   upd_calls (fun l => l ++ key_pairs (Z.to_nat (Z.min count 5000)) (key_of d)
                              Qt.NoModifier) t).
Proof. destruct d; apply _repeated_key_press_run. Qed.

Lemma key_pairs_length n key modifier :
  length (key_pairs n key modifier) = (2 * n)%nat.
Proof. induction n as [|n IH]; simpl; [reflexivity|]. rewrite IH. lia. Qed.

(** C7.  Every directional scroll call (up, down, left, right, page_up,
    page_down) with repeat count [count] returns having sent nothing but
    key-press/key-release pairs of its key, exactly [min(count, 5000)] of
    them: [count] of them up to 5000, exactly 5000 beyond.  (A negative
    count sends none.) *)
Theorem directional_scroll_key_pairs (d : direction) (count : Z) (t : tab) :
  exists pairs : nat,
    answer (scroll_by_keys d count) t = Py.Return tt
    /\ calls_of (scroll_by_keys d count) t = key_pairs pairs (key_of d) Qt.NoModifier
    /\ length (calls_of (scroll_by_keys d count) t) = (2 * pairs)%nat
    /\ (0 <= count -> Z.of_nat pairs = Z.min count 5000)
    /\ (5000 < count -> Z.of_nat pairs = 5000)
    /\ (count < 0 -> pairs = 0%nat).
Proof.
  exists (Z.to_nat (Z.min count 5000)).
  assert (Hc : calls_of (scroll_by_keys d count) t
               = key_pairs (Z.to_nat (Z.min count 5000)) (key_of d) Qt.NoModifier).
  { eapply calls_of_run; [apply scroll_by_keys_run|reflexivity]. }
  split; [unfold answer; rewrite scroll_by_keys_run; reflexivity|].
  split; [exact Hc|]. split; [rewrite Hc; apply key_pairs_length|].
  repeat split; intros; lia.
Qed.

Lemma directional_scroll_key_pairs_witness :
  5000 < 7000
  /\ exists pairs : nat,
       calls_of (WebEngineScroller.page_down 7000) new_tab
         = key_pairs pairs Qt.Key_PageDown Qt.NoModifier
       /\ Z.of_nat pairs = 5000.
Proof.
  assert (H : 5000 < 7000) by lia.
  split; [exact H|].
  destruct (directional_scroll_key_pairs go_page_down 7000 new_tab)
    as (pairs & _ & Hc & _ & _ & H5000 & _).
  exists pairs. split; [exact Hc|exact (H5000 H)].
Defined.

(** ** WebEngineElements: the element at a position *)

Lemma find_at_pos_run QPoint_div pos callback0 t :
  WebEngineElements.find_at_pos QPoint_div pos callback0 t =
  if Qt.x pos >=? 0
  then if Qt.y pos >=? 0
       then (Py.Return tt,
             upd_calls (fun l => l ++
               [runJavaScript
                  (assemble "webelem" "find_at_pos"
                     [js_int (Qt.x (QPoint_div pos (zoomFactor (tab_widget t))));
                      js_int (Qt.y (QPoint_div pos (zoomFactor (tab_widget t))))])
                  Qt.ApplicationWorld (Some (js_cb_single callback0))]) t)
       else (Py.Raise Py.AssertionError, t)
  else (Py.Raise Py.AssertionError, t).
Proof.
  unfold WebEngineElements.find_at_pos, assert, eval.
  destruct (Qt.x pos >=? 0); [|reflexivity].
  destruct (Qt.y pos >=? 0); reflexivity.
Qed.

(** C8.  For every point with a negative x or y coordinate, the element
    lookup at a position raises [AssertionError] and leaves the tab as it
    was: no JavaScript is run, nothing else is called.  For every point with
    non-negative coordinates it returns having run one script, the call of
    [webelem.find_at_pos] with the coordinates of the point divided by the
    zoom factor the widget reports. *)
Theorem find_at_pos_checks_then_divides
    (QPoint_div : Qt.QPoint -> Py.float -> Qt.QPoint)
    (t : tab) (pos : Qt.QPoint) (callback0 : nat) :
  (Qt.x pos < 0 \/ Qt.y pos < 0 ->
   answer (WebEngineElements.find_at_pos QPoint_div pos callback0) t
     = Py.Raise Py.AssertionError
   /\ exec (WebEngineElements.find_at_pos QPoint_div pos callback0) t = t
   /\ calls_of (WebEngineElements.find_at_pos QPoint_div pos callback0) t = [])
  /\ (0 <= Qt.x pos -> 0 <= Qt.y pos ->
      answer (WebEngineElements.find_at_pos QPoint_div pos callback0) t = Py.Return tt
      /\ calls_of (WebEngineElements.find_at_pos QPoint_div pos callback0) t =
         [runJavaScript
            (assemble "webelem" "find_at_pos"
               [js_int (Qt.x (QPoint_div pos (zoomFactor (tab_widget t))));
                js_int (Qt.y (QPoint_div pos (zoomFactor (tab_widget t))))])
            Qt.ApplicationWorld (Some (js_cb_single callback0))]).
Proof.
  unfold calls_of, answer, exec. rewrite find_at_pos_run.
  destruct (Z.geb_spec (Qt.x pos) 0) as [Hx|Hx];
    [destruct (Z.geb_spec (Qt.y pos) 0) as [Hy|Hy]|].
  - split; [lia|]. intros _ _. split; [reflexivity|].
    cbn [snd upd_calls calls]. apply drop_app_length.
  - split; [|lia]. intros _. cbn [fst snd].
    rewrite drop_all. repeat split.
  - split; [|lia]. intros _. cbn [fst snd].
    rewrite drop_all. repeat split.
Qed.

Lemma find_at_pos_checks_then_divides_witness :
  (-1 < 0 \/ 5 < 0)
  /\ answer (WebEngineElements.find_at_pos sample_QPoint_div
               {| Qt.x := -1; Qt.y := 5 |} 0%nat) new_tab
     = Py.Raise Py.AssertionError
  /\ scripts (calls_of (WebEngineElements.find_at_pos sample_QPoint_div
                          {| Qt.x := -1; Qt.y := 5 |} 0%nat) new_tab) = [].
Proof.
  assert (H : -1 < 0 \/ 5 < 0) by (left; lia).
  split; [exact H|].
  destruct (proj1 (find_at_pos_checks_then_divides sample_QPoint_div new_tab
                     {| Qt.x := -1; Qt.y := 5 |} 0%nat) H) as (Ha & _ & Hc).
  split; [exact Ha|]. rewrite Hc. reflexivity.
Defined.

(** ** WebEngineTab: the slots of loadFinished *)

Section SignalFacts.

Variable isValid : Qt.QUrl -> bool.
Variable setScheme : Py.str -> Qt.QUrl -> Qt.QUrl.
Variable toDisplayString_RemoveScheme : Qt.QUrl -> Py.str.

Lemma _on_history_trigger_run t :
  WebEngineTab._on_history_trigger isValid setScheme toDisplayString_RemoveScheme t =
  (Py.Return tt,
   upd_calls (fun l =>
     l ++ history_calls isValid setScheme toDisplayString_RemoveScheme t) t).
Proof.
  unfold WebEngineTab._on_history_trigger, WebEngineTab.url, WebEngineTab.title,
    history_calls, title_for_history, out.
  cbv [mbind M_bind modify mret M_ret gets].
  destruct (isValid (page_url (tab_widget t))); simpl; [reflexivity|].
  destruct t. unfold upd_calls. run_projections. rewrite app_nil_r. reflexivity.
Qed.

Lemma _restore_zoom_run t : WebEngineTab._restore_zoom t = (Py.Return tt, restored t).
Proof.
  unfold WebEngineTab._restore_zoom, restored, WebEngineZoom.set_factor,
    WebEngineZoom._set_factor_internal, out.
  cbv [mbind M_bind modify mret M_ret gets].
  destruct (_saved_zoom t); reflexivity.
Qed.

Lemma loadFinished_run ok t :
  WebEngineTab.loadFinished isValid setScheme toDisplayString_RemoveScheme ok t =
  (Py.Return tt,
   upd_calls (fun l => l ++ [_on_load_finished_of_AbstractTab ok])
     (restored
        (upd_calls (fun l =>
           l ++ history_calls isValid setScheme toDisplayString_RemoveScheme t) t))).
Proof.
  unfold WebEngineTab.loadFinished. cbv [mbind M_bind].
  rewrite _on_history_trigger_run, _restore_zoom_run. reflexivity.
Qed.

Lemma history_entries_app l1 l2 :
  history_entries (l1 ++ l2) = history_entries l1 ++ history_entries l2.
Proof. unfold history_entries. apply omap_app. Qed.

Lemma calls_of_loadFinished ok t :
  calls_of (WebEngineTab.loadFinished isValid setScheme toDisplayString_RemoveScheme ok) t
  = history_calls isValid setScheme toDisplayString_RemoveScheme t
    ++ match _saved_zoom t with Some z => [setZoomFactor z] | None => [] end
    ++ [_on_load_finished_of_AbstractTab ok].
Proof.
  eapply calls_of_run; [apply loadFinished_run|].
  unfold restored, upd_calls. run_projections.
  destruct (_saved_zoom t); run_projections; rewrite <- ?app_assoc; reflexivity.
Qed.

(** C9 (amended).  On every load-finished notification the history slot
    returns, and a history-entry append event is emitted unless the URL is
    invalid: one event for a valid URL, none for an invalid one.  When the
    title is the one generated from the URL (the display string of the URL
    without its scheme, slashes stripped), the entry is still appended, with
    an empty title; otherwise it carries the page's title. *)
Theorem history_trigger_entries (t : tab) (ok : bool) :
  answer (WebEngineTab._on_history_trigger isValid setScheme
            toDisplayString_RemoveScheme) t = Py.Return tt
  /\ calls_of (WebEngineTab._on_history_trigger isValid setScheme
                 toDisplayString_RemoveScheme) t
     = history_calls isValid setScheme toDisplayString_RemoveScheme t
  /\ history_entries
       (calls_of (WebEngineTab.loadFinished isValid setScheme
                    toDisplayString_RemoveScheme ok) t)
     = history_entries (history_calls isValid setScheme toDisplayString_RemoveScheme t)
  /\ (isValid (page_url (tab_widget t)) = false ->
      history_calls isValid setScheme toDisplayString_RemoveScheme t = [])
  /\ (isValid (page_url (tab_widget t)) = true ->
      exists title0,
        history_calls isValid setScheme toDisplayString_RemoveScheme t
        = [add_history_item_emit (page_url (tab_widget t))
             (page_requestedUrl (tab_widget t)) title0]
        /\ (widget_title (tab_widget t)
            = Py.strip (Py.lit "/")
                (toDisplayString_RemoveScheme (setScheme [] (page_url (tab_widget t)))) ->
            title0 = [])
        /\ (widget_title (tab_widget t)
            <> Py.strip (Py.lit "/")
                 (toDisplayString_RemoveScheme (setScheme [] (page_url (tab_widget t)))) ->
            title0 = widget_title (tab_widget t))).
Proof.
  split; [unfold answer; rewrite _on_history_trigger_run; reflexivity|].
  split; [eapply calls_of_run; [apply _on_history_trigger_run|reflexivity]|].
  split.
  { rewrite calls_of_loadFinished, !history_entries_app.
    destruct (_saved_zoom t); simpl; rewrite app_nil_r; reflexivity. }
  unfold history_calls, title_for_history. split.
  - intros ->. reflexivity.
  - intros ->. eexists. split; [reflexivity|].
    split; intros H; [rewrite bool_decide_eq_true_2|rewrite bool_decide_eq_false_2];
      auto.
Qed.

End SignalFacts.

Lemma history_trigger_entries_witness :
  sample_isValid (page_url (tab_widget new_tab)) = false
  /\ history_calls sample_isValid sample_setScheme sample_toDisplayString_RemoveScheme
       new_tab = [].
Proof.
  assert (H : sample_isValid (page_url (tab_widget new_tab)) = false) by reflexivity.
  split; [exact H|].
  exact (proj1 (proj2 (proj2 (proj2
    (history_trigger_entries sample_isValid sample_setScheme
       sample_toDisplayString_RemoveScheme new_tab true)))) H).
Defined.

(** C9, as stated, fails: on the page http://example.com/ whose title is
    the one generated from the URL, "example.com", the load-finished
    notification still appends a history entry, with an empty title. *)
Lemma generated_title_counterexample :
  sample_isValid (Py.lit "http://example.com/") = true
  /\ Py.strip (Py.lit "/")
       (sample_toDisplayString_RemoveScheme
          (sample_setScheme [] (Py.lit "http://example.com/")))
     = Py.lit "example.com"
  /\ history_entries
       (calls_of
          (WebEngineTab.loadFinished sample_isValid sample_setScheme
             sample_toDisplayString_RemoveScheme true)
          (showing (Py.lit "http://example.com/") (Py.lit "example.com") new_tab))
     = [(Py.lit "http://example.com/", [])].
Proof. vm_compute. repeat split; reflexivity. Qed.

(** ** WebEngineTab: the saved zoom factor *)

Section ZoomFacts.

Variable casing_of : N -> Py.casing.
Variable isValid : Qt.QUrl -> bool.
Variable setScheme : Py.str -> Qt.QUrl -> Qt.QUrl.
Variable toDisplayString_RemoveScheme : Qt.QUrl -> Py.str.
Variable QPoint_div : Qt.QPoint -> Py.float -> Qt.QPoint.

Local Abbreviation handle_event :=
  (handle casing_of isValid setScheme toDisplayString_RemoveScheme QPoint_div).
Local Abbreviation after_events :=
  (after casing_of isValid setScheme toDisplayString_RemoveScheme QPoint_div).
Local Abbreviation load_finished :=
  (WebEngineTab.loadFinished isValid setScheme toDisplayString_RemoveScheme).

(** Only [openurl] and the load-finished slots write [_saved_zoom]. *)
Lemma quiet_keeps_saved_zoom e t :
  quiet e = true -> _saved_zoom (exec (handle_event e) t) = _saved_zoom t.
Proof.
  intros Hq. unfold exec.
  destruct e as [text0 ic rev cb| |cb|cb|d count| | | |[j|]|pos cb|f|key m|u|ok];
    try discriminate Hq; cbn [handle].
  - rewrite search_run. reflexivity.
  - reflexivity.
  - rewrite prev_result_run. reflexivity.
  - reflexivity.
  - rewrite scroll_by_keys_run. reflexivity.
  - reflexivity.
  - reflexivity.
  - reflexivity.
  - destruct (update_pos_cb_cases t j) as [(px & py & _ & _ & _ & ->)|[_ ->]];
      reflexivity.
  - reflexivity.
  - rewrite find_at_pos_run.
    destruct (Qt.x pos >=? 0); [|reflexivity].
    destruct (Qt.y pos >=? 0); reflexivity.
  - reflexivity.
  - reflexivity.
Qed.

Lemma saved_zoom_after_loadFinished ok t : _saved_zoom (exec (load_finished ok) t) = None.
Proof.
  unfold exec. rewrite loadFinished_run. unfold restored, upd_calls.
  run_projections. destruct (_saved_zoom t); reflexivity.
Qed.

Lemma no_openurl_keeps_none e t :
  no_openurl e = true -> _saved_zoom t = None -> _saved_zoom (exec (handle_event e) t) = None.
Proof.
  intros Hn Hs. destruct (is_loadFinished e) eqn:El.
  - destruct e; try discriminate El. apply saved_zoom_after_loadFinished.
  - rewrite quiet_keeps_saved_zoom; [exact Hs|].
    unfold quiet, no_openurl in *. rewrite El, orb_false_r. exact Hn.
Qed.

Lemma after_quiet_keeps_saved_zoom es t :
  forallb quiet es = true -> _saved_zoom (after_events es t) = _saved_zoom t.
Proof.
  revert t. induction es as [|e es IH]; intros t H; [reflexivity|].
  simpl in H. apply andb_true_iff in H as [He Hes].
  unfold after in *. simpl. rewrite IH by exact Hes.
  apply quiet_keeps_saved_zoom, He.
Qed.

Lemma after_no_openurl_keeps_none es t :
  forallb no_openurl es = true -> _saved_zoom t = None -> _saved_zoom (after_events es t) = None.
Proof.
  revert t. induction es as [|e es IH]; intros t H Hs; [exact Hs|].
  simpl in H. apply andb_true_iff in H as [He Hes].
  unfold after in *. simpl. apply IH; [exact Hes|].
  apply no_openurl_keeps_none; assumption.
Qed.

Lemma zoom_calls_loadFinished ok t :
  zoom_calls (calls_of (load_finished ok) t)
  = match _saved_zoom t with Some z => [z] | None => [] end.
Proof.
  rewrite calls_of_loadFinished. unfold zoom_calls. rewrite !omap_app.
  unfold history_calls.
  destruct (isValid _), (_saved_zoom t); reflexivity.
Qed.

Lemma zoomFactor_after_loadFinished ok t :
  zoomFactor (tab_widget (exec (load_finished ok) t))
  = match _saved_zoom t with Some z => z | None => zoomFactor (tab_widget t) end.
Proof.
  unfold exec. rewrite loadFinished_run. unfold restored, upd_calls.
  run_projections. destruct (_saved_zoom t); reflexivity.
Qed.

(** C6.  The saved zoom factor is consumed exactly once, on the first
    load-finished notification after [openurl] set it: [openurl] saves the
    factor the widget reports, nothing but a load-finished notification
    takes it away, and the first notification sets the widget back to it,
    once, and resets the saved factor to none.  On any tab, a load-finished
    notification restores the saved factor if there is one; every later
    notification with no [openurl] in between restores nothing and leaves
    the zoom factor as it finds it. *)
Theorem saved_zoom_restored_once
    (t : tab) (url0 : Qt.QUrl) (es1 es2 : list event) (ok1 ok2 : bool) :
  forallb quiet es1 = true ->
  forallb no_openurl es2 = true ->
  let opened := after_events es1 (exec (WebEngineTab.openurl url0) t) in
  let first := exec (load_finished ok1) opened in
  let later := after_events es2 first in
  let any_first := exec (load_finished ok1) t in
  let any_later := after_events es2 any_first in
  _saved_zoom opened = Some (zoomFactor (tab_widget t))
  /\ zoom_calls (calls_of (load_finished ok1) opened) = [zoomFactor (tab_widget t)]
  /\ zoomFactor (tab_widget first) = zoomFactor (tab_widget t)
  /\ _saved_zoom first = None
  /\ _saved_zoom later = None
  /\ zoom_calls (calls_of (load_finished ok2) later) = []
  /\ zoomFactor (tab_widget (exec (load_finished ok2) later))
     = zoomFactor (tab_widget later)
  /\ zoom_calls (calls_of (load_finished ok1) t)
     = match _saved_zoom t with Some z => [z] | None => [] end
  /\ _saved_zoom any_first = None
  /\ zoom_calls (calls_of (load_finished ok2) any_later) = []
  /\ zoomFactor (tab_widget (exec (load_finished ok2) any_later))
     = zoomFactor (tab_widget any_later).
Proof.
  intros H1 H2 opened first later any_first any_later.
  assert (Ho : _saved_zoom opened = Some (zoomFactor (tab_widget t))).
  { subst opened. rewrite after_quiet_keeps_saved_zoom by exact H1. reflexivity. }
  assert (Hl : _saved_zoom later = None).
  { apply after_no_openurl_keeps_none;
      [exact H2|apply saved_zoom_after_loadFinished]. }
  assert (Ha : _saved_zoom any_later = None).
  { apply after_no_openurl_keeps_none;
      [exact H2|apply saved_zoom_after_loadFinished]. }
  assert (Hf : zoomFactor (tab_widget first) = zoomFactor (tab_widget t)).
  { subst first. rewrite zoomFactor_after_loadFinished, Ho. reflexivity. }
  rewrite !zoom_calls_loadFinished, !zoomFactor_after_loadFinished, Ho, Hl, Ha.
  subst first any_first.
  repeat split; auto using saved_zoom_after_loadFinished.
Qed.

End ZoomFacts.

Lemma saved_zoom_restored_once_witness :
  forallb quiet [on_set_factor one_and_a_half; on_scroll go_down 3] = true
  /\ forallb no_openurl [on_loadFinished false; on_clear] = true
  /\ zoom_calls
       (calls_of
          (WebEngineTab.loadFinished sample_isValid sample_setScheme
             sample_toDisplayString_RemoveScheme true)
          (after ascii_casing sample_isValid sample_setScheme
             sample_toDisplayString_RemoveScheme sample_QPoint_div
             [on_set_factor one_and_a_half; on_scroll go_down 3]
             (exec (WebEngineTab.openurl (Py.lit "http://example.com/")) new_tab)))
     = [one].
Proof.
  assert (H1 : forallb quiet [on_set_factor one_and_a_half; on_scroll go_down 3] = true)
    by reflexivity.
  assert (H2 : forallb no_openurl [on_loadFinished false; on_clear] = true)
    by reflexivity.
  split; [exact H1|]. split; [exact H2|].
  exact (proj1 (proj2
    (saved_zoom_restored_once ascii_casing sample_isValid sample_setScheme
       sample_toDisplayString_RemoveScheme sample_QPoint_div new_tab
       (Py.lit "http://example.com/") _ _ true true H1 H2))).
Defined.

(** * Further properties *)

(** ** WebEngineScroller: what the cache answers *)

(** X1.  Once the callback has completed on a snapshot, the getters answer
    from it: [pos_px()] is the pixel position of the snapshot, [at_top()]
    says whether its y is 0, [at_bottom()] whether
    [scroll height - inner height >= y], and [pos_perc()] is the pair that
    [perc_changed] was emitted with. *)
Theorem getters_answer_from_snapshot (t : tab) (j : jsret.dict) :
  answer (WebEngineScroller.update_pos_cb (Some j)) t = Py.Return tt ->
  let t' := exec (WebEngineScroller.update_pos_cb (Some j)) t in
  answer WebEngineScroller.pos_px t'
    = Py.Return {| Qt.x := jsret.x (jsret.px j); Qt.y := jsret.y (jsret.px j) |}
  /\ answer WebEngineScroller.at_top t' = Py.Return (jsret.y (jsret.px j) =? 0)
  /\ answer WebEngineScroller.at_bottom t'
     = Py.Return (dy_of j >=? jsret.y (jsret.px j))
  /\ exists perc_x perc_y,
       answer WebEngineScroller.pos_perc t' = Py.Return (perc_x, perc_y)
       /\ calls_of (WebEngineScroller.update_pos_cb (Some j)) t
          = [perc_changed_emit perc_x perc_y].
Proof.
  unfold calls_of, answer, exec. cbv zeta.
  destruct (update_pos_cb_cases t j) as [(px & py & _ & _ & _ & ->)|[_ ->]];
    [|discriminate].
  intros _. cbn [fst snd]. repeat split.
  exists px, py. split; [reflexivity|]. run_projections. apply drop_app_length.
Qed.

Lemma getters_answer_from_snapshot_witness :
  answer (WebEngineScroller.update_pos_cb (Some (snapshot 0 40 800 1000 800 600)))
    new_tab = Py.Return tt
  /\ answer WebEngineScroller.at_top
       (exec (WebEngineScroller.update_pos_cb (Some (snapshot 0 40 800 1000 800 600)))
          new_tab) = Py.Return false
  /\ answer WebEngineScroller.at_bottom
       (exec (WebEngineScroller.update_pos_cb (Some (snapshot 0 40 800 1000 800 600)))
          new_tab) = Py.Return true.
Proof.
  assert (H : answer (WebEngineScroller.update_pos_cb
                        (Some (snapshot 0 40 800 1000 800 600))) new_tab = Py.Return tt)
    by (vm_compute; reflexivity).
  split; [exact H|].
  destruct (getters_answer_from_snapshot new_tab (snapshot 0 40 800 1000 800 600) H)
    as (_ & Ht & Hb & _).
  split; [exact Ht|exact Hb].
Defined.

(** ** WebEngineScroller: when the callback raises *)

(** X2.  On a snapshot of ints the callback raises exactly when a
    coordinate of the pixel position does not fit a C int, whatever the
    extents are; the exception is [OverflowError], raised where the [QPoint]
    is made, before the assignment.  The tab is then exactly as it was: the
    old pixel position, percentages and at-bottom flag are kept, and
    [perc_changed] is not emitted. *)
Theorem update_pos_cb_raises_early (t : tab) (j : jsret.dict) :
  ((exists e, answer (WebEngineScroller.update_pos_cb (Some j)) t = Py.Raise e) <->
   ~ (Qt.INT_MIN <= jsret.x (jsret.px j) <= Qt.INT_MAX
      /\ Qt.INT_MIN <= jsret.y (jsret.px j) <= Qt.INT_MAX))
  /\ (forall e,
        answer (WebEngineScroller.update_pos_cb (Some j)) t = Py.Raise e ->
        e = Py.OverflowError
        /\ exec (WebEngineScroller.update_pos_cb (Some j)) t = t
        /\ calls_of (WebEngineScroller.update_pos_cb (Some j)) t = []).
Proof.
  unfold calls_of, answer, exec.
  destruct (update_pos_cb_cases t j) as [(px & py & Hr & _ & _ & ->)|[Hn ->]];
    cbn [fst snd].
  - split; [split; [intros [e He]; discriminate He|intros H; contradiction]|].
    intros e He. discriminate He.
  - split; [split; [intros _; exact Hn|intros _; eexists; reflexivity]|].
    intros e [= <-]. rewrite drop_all. repeat split.
Qed.

Lemma update_pos_cb_raises_early_witness :
  answer (WebEngineScroller.update_pos_cb (Some (snapshot (2 ^ 31) 7 200 0 100 0)))
    new_tab = Py.Raise Py.OverflowError
  /\ exec (WebEngineScroller.update_pos_cb (Some (snapshot (2 ^ 31) 7 200 0 100 0)))
       new_tab = new_tab.
Proof.
  assert (H : answer (WebEngineScroller.update_pos_cb
                        (Some (snapshot (2 ^ 31) 7 200 0 100 0))) new_tab
              = Py.Raise Py.OverflowError) by (vm_compute; reflexivity).
  split; [exact H|].
  exact (proj1 (proj2 (proj2 (update_pos_cb_raises_early new_tab
                                (snapshot (2 ^ 31) 7 200 0 100 0)) _ H))).
Defined.

(** ** WebEngineScroller: how scrolls by keys add up *)

Lemma key_pairs_app a b key modifier :
  key_pairs (a + b) key modifier = key_pairs a key modifier ++ key_pairs b key modifier.
Proof.
  induction a as [|a IH]; [reflexivity|].
  simpl. rewrite IH. reflexivity.
Qed.

Lemma upd_calls_nil t : upd_calls (fun l => l ++ []) t = t.
Proof. destruct t. unfold upd_calls. run_projections. rewrite app_nil_r. reflexivity. Qed.

Lemma upd_calls_twice l1 l2 t :
  upd_calls (fun l => l ++ l2) (upd_calls (fun l => l ++ l1) t)
  = upd_calls (fun l => l ++ (l1 ++ l2)) t.
Proof. unfold upd_calls. run_projections. rewrite app_assoc. reflexivity. Qed.

(** X3.  Directional scrolls add up below the cap and saturate at it: two
    calls with counts [a] and [b] leave the tab exactly as one call with
    [a + b] does, as long as [a + b <= 5000]; every count of 5000 or more
    acts as 5000; a count of zero or less does nothing at all. *)
Theorem scroll_counts_add_up (d : direction) (a b : Z) (t : tab) :
  (0 <= a -> 0 <= b -> a + b <= 5000 ->
   exec (scroll_by_keys d b) (exec (scroll_by_keys d a) t)
   = exec (scroll_by_keys d (a + b)) t)
  /\ (5000 <= a -> exec (scroll_by_keys d a) t = exec (scroll_by_keys d 5000) t)
  /\ (a <= 0 -> exec (scroll_by_keys d a) t = t).
Proof.
  unfold exec. rewrite !scroll_by_keys_run. cbn [snd]. split; [|split].
  - intros Ha Hb Hab. rewrite upd_calls_twice, <- key_pairs_app.
    replace (Z.to_nat (Z.min (a + b) 5000))
      with (Z.to_nat (Z.min a 5000) + Z.to_nat (Z.min b 5000))%nat by lia.
    reflexivity.
  - intros Ha. replace (Z.min a 5000) with (Z.min 5000 5000) by lia. reflexivity.
  - intros Ha. replace (Z.to_nat (Z.min a 5000)) with 0%nat by lia.
    apply upd_calls_nil.
Qed.

Lemma scroll_counts_add_up_witness :
  0 <= 2 /\ 0 <= 3 /\ 2 + 3 <= 5000
  /\ exec (WebEngineScroller.down 3) (exec (WebEngineScroller.down 2) new_tab)
     = exec (WebEngineScroller.down 5) new_tab.
Proof.
  assert (H2 : 0 <= 2) by lia. assert (H3 : 0 <= 3) by lia.
  assert (H5 : 2 + 3 <= 5000) by lia.
  split; [exact H2|]. split; [exact H3|]. split; [exact H5|].
  exact (proj1 (scroll_counts_add_up go_down 2 3 new_tab) H2 H3 H5).
Defined.

(** ** WebEngineSearch: the flags objects *)

Section FlagsFacts.

Variable casing_of : N -> Py.casing.
Variable isValid : Qt.QUrl -> bool.
Variable setScheme : Py.str -> Qt.QUrl -> Qt.QUrl.
Variable toDisplayString_RemoveScheme : Qt.QUrl -> Py.str.
Variable QPoint_div : Qt.QPoint -> Py.float -> Qt.QPoint.

Local Abbreviation handle_one :=
  (handle casing_of isValid setScheme toDisplayString_RemoveScheme QPoint_div).
Local Abbreviation after_all :=
  (after casing_of isValid setScheme toDisplayString_RemoveScheme QPoint_div).

Lemma handle_appends_flag_objects e t :
  exists l, flag_objects (exec (handle_one e) t) = flag_objects t ++ l.
Proof.
  unfold exec.
  destruct e as [text0 ic rev cb| |cb|cb|d count| | | |[j|]|pos cb|f|key m|u|ok];
    cbn [handle].
  - rewrite search_run. eexists. reflexivity.
  - exists []. rewrite app_nil_r. reflexivity.
  - rewrite prev_result_run. eexists. reflexivity.
  - exists []. rewrite app_nil_r. reflexivity.
  - rewrite scroll_by_keys_run. exists []. rewrite app_nil_r. reflexivity.
  - exists []. rewrite app_nil_r. reflexivity.
  - exists []. rewrite app_nil_r. reflexivity.
  - exists []. rewrite app_nil_r. reflexivity.
  - exists []. rewrite app_nil_r.
    destruct (update_pos_cb_cases t j) as [(px & py & _ & _ & _ & ->)|[_ ->]];
      reflexivity.
  - exists []. rewrite app_nil_r. reflexivity.
  - rewrite find_at_pos_run. exists []. rewrite app_nil_r.
    destruct (Qt.x pos >=? 0); [|reflexivity].
    destruct (Qt.y pos >=? 0); reflexivity.
  - exists []. rewrite app_nil_r. reflexivity.
  - exists []. rewrite app_nil_r. reflexivity.
  - exists []. rewrite app_nil_r. reflexivity.
  - rewrite loadFinished_run. exists []. rewrite app_nil_r.
    unfold restored, upd_calls. run_projections.
    destruct (_saved_zoom t); reflexivity.
Qed.

(** X4.  No event changes or removes a [FindFlags] object that exists:
    through any run of events the objects alive only grow in number, each
    keeping the int it had.  The in-place [|=] and [&=] of [search] and
    [prev_result] only ever reach the object the method has just made, so
    the flags a find was issued with still read the same when its wrapped
    callback logs them. *)
Theorem flag_objects_only_grow (es : list event) (t : tab) :
  (exists l, flag_objects (after_all es t) = flag_objects t ++ l)
  /\ forall (r : nat) (v : Z),
       flag_objects t !! r = Some v -> flag_objects (after_all es t) !! r = Some v.
Proof.
  assert (H : exists l, flag_objects (after_all es t) = flag_objects t ++ l).
  { revert t. induction es as [|e es IH]; intros t.
    - exists []. rewrite app_nil_r. reflexivity.
    - destruct (handle_appends_flag_objects e t) as [l1 H1].
      destruct (IH (exec (handle_one e) t)) as [l2 H2].
      exists (l1 ++ l2). unfold after in *. simpl.
      rewrite H2, H1, app_assoc. reflexivity. }
  split; [exact H|].
  intros r v Hr. destruct H as [l ->]. apply lookup_app_l_Some, Hr.
Qed.

End FlagsFacts.

Lemma flag_objects_only_grow_witness :
  flag_objects new_tab !! 0%nat = Some 0
  /\ flag_objects
       (after ascii_casing sample_isValid sample_setScheme
          sample_toDisplayString_RemoveScheme sample_QPoint_div
          [on_search (Py.lit "Abc") smart true None; on_prev_result None;
           on_next_result None]
          new_tab) !! 0%nat = Some 0.
Proof.
  assert (H : flag_objects new_tab !! 0%nat = Some 0) by reflexivity.
  split; [exact H|].
  exact (proj2 (flag_objects_only_grow ascii_casing sample_isValid sample_setScheme
                  sample_toDisplayString_RemoveScheme sample_QPoint_div _ new_tab)
           0%nat 0 H).
Defined.

(** ** WebEngineSearch: clearing *)

(** X5.  [clear()] hides the search but does not forget it: after a search
    and a [clear()], the stored text and flags are those of the search, the
    "search displayed" flag is false, and a following [next_result] repeats
    the find of the search, with its text and flags, and sets the flag
    again; a following [prev_result] does so with the backward flag
    toggled. *)
Theorem clear_keeps_last_search
    (casing_of : N -> Py.casing) (t : tab) (text0 : Py.str)
    (ignore_case : ignore_case_arg) (reverse : bool)
    (result_cb cb : option nat) :
  let searched :=
    exec (WebEngineSearch.search casing_of text0 ignore_case reverse result_cb) t in
  let cleared := exec WebEngineSearch.clear searched in
  text (tab_search cleared) = text0
  /\ stored_flags cleared = stored_flags searched
  /\ search_displayed (tab_search cleared) = false
  /\ finds (calls_of (WebEngineSearch.next_result cb) cleared)
     = [(text0, stored_flags searched)]
  /\ search_displayed (tab_search (exec (WebEngineSearch.next_result cb) cleared)) = true
  /\ finds (calls_of (WebEngineSearch.prev_result cb) cleared)
     = [(text0, toggle_backward (stored_flags searched))]
  /\ search_displayed (tab_search (exec (WebEngineSearch.prev_result cb) cleared)) = true.
Proof.
  intros searched cleared.
  assert (Ht : text (tab_search cleared) = text0).
  { subst cleared searched. unfold exec. rewrite search_run. reflexivity. }
  assert (Hf : stored_flags cleared = stored_flags searched) by reflexivity.
  rewrite finds_next_result, finds_prev_result, Ht, Hf.
  assert (Hn : search_displayed
                 (tab_search (exec (WebEngineSearch.next_result cb) cleared)) = true)
    by (unfold exec; rewrite next_result_run; reflexivity).
  assert (Hp : search_displayed
                 (tab_search (exec (WebEngineSearch.prev_result cb) cleared)) = true)
    by (unfold exec; rewrite prev_result_run; reflexivity).
  repeat split; assumption.
Qed.

(** ** The wider log *)

Lemma lift_run {A : Type} (m : M A) w o t' l :
  m (Rest.tab_of w) = (o, t') ->
  calls t' = calls (Rest.tab_of w) ++ l ->
  Rest.lift m w =
  (match o with Py.Return a => Rest.Done a | Py.Raise e => Rest.Failed (Rest.python e) end,
   {| Rest.tab_of := t'; Rest.effects := Rest.effects w ++ map Rest.earlier l |}).
Proof.
  intros Hm Hc. unfold Rest.lift, Rest.earlier_calls.
  rewrite Hm, Hc, drop_app_length. reflexivity.
Qed.

Lemma effects_of_run {A : Type} (m : Rest.W A) w o w' l :
  m w = (o, w') ->
  Rest.effects w' = Rest.effects w ++ l ->
  Rest.effects_of m w = l.
Proof.
  intros Hm He. unfold Rest.effects_of, Rest.run.
  rewrite Hm. cbn [snd]. rewrite He. apply drop_app_length.
Qed.

Lemma effect__run e w :
  Rest.effect_ e w =
  (Rest.Done tt,
   {| Rest.tab_of := Rest.tab_of w; Rest.effects := Rest.effects w ++ [e] |}).
Proof. reflexivity. Qed.

(** The methods that are one or two calls long, run. *)
Ltac small_run :=
  unfold WebEngineScroller._update_pos, WebEngineTab.run_js_async,
    WebEngineZoom.set_factor, WebEngineZoom._set_factor_internal,
    WebEngineTab.openurl, WebEngineZoom.factor, WebEngineScroller.pos_px, out;
  cbv [mbind M_bind modify mret M_ret gets upd_calls upd_widget set_saved_zoom];
  cbn [fst snd]; run_projections.

Ltac frame_done :=
  repeat split; try discriminate; try tauto; try congruence;
  try (intros; cbn [fst snd Rest.tab_of Rest.effects] in *; congruence).

Section EventFrames.

Variable casing_of : N -> Py.casing.
Variable isValid : Qt.QUrl -> bool.
Variable setScheme : Py.str -> Qt.QUrl -> Qt.QUrl.
Variable toDisplayString_RemoveScheme : Qt.QUrl -> Py.str.
Variable QPoint_div : Qt.QPoint -> Py.float -> Qt.QPoint.

Local Abbreviation handle_it :=
  (handle casing_of isValid setScheme toDisplayString_RemoveScheme QPoint_div).

(** What every event leaves alone. *)
Lemma handle_frame e t :
  (exists l, calls (exec (handle_it e) t) = calls t ++ l)
  /\ (Rest.is_update_pos_cb (Rest.an_event e) = false ->
      tab_scroller (exec (handle_it e) t) = tab_scroller t)
  /\ (Rest.is_find (Rest.an_event e) = false ->
      search_displayed (tab_search (exec (handle_it e) t)) = true ->
      search_displayed (tab_search t) = true).
Proof.
  unfold exec, answer.
  destruct e as [text0 ic rev cb| |cb|cb|d count| | | |[j|]|pos cb|f|key m|u|ok];
    cbn [handle Rest.is_update_pos_cb Rest.is_find].
  - rewrite search_run. cbn [fst snd]. run_projections.
    frame_done. eexists. reflexivity.
  - rewrite clear_run. cbn [fst snd]. run_projections.
    frame_done. eexists. reflexivity.
  - rewrite prev_result_run. cbn [fst snd]. run_projections.
    frame_done. eexists. reflexivity.
  - rewrite next_result_run. cbn [fst snd]. run_projections.
    frame_done. eexists. reflexivity.
  - rewrite scroll_by_keys_run. cbn [fst snd]. unfold upd_calls. run_projections.
    frame_done. eexists. reflexivity.
  - unfold WebEngineScroller.top. rewrite key_press_run. cbn [fst snd].
    unfold upd_calls. run_projections.
    frame_done. eexists. reflexivity.
  - unfold WebEngineScroller.bottom. rewrite key_press_run. cbn [fst snd].
    unfold upd_calls. run_projections.
    frame_done. eexists. reflexivity.
  - small_run. frame_done. eexists. reflexivity.
  - destruct (update_pos_cb_cases t j) as [(px & py & _ & _ & _ & ->)|[_ ->]];
      cbn [fst snd]; run_projections;
      frame_done;
      solve [eexists; reflexivity | exists []; rewrite app_nil_r; reflexivity].
  - frame_done. exists []. rewrite app_nil_r. reflexivity.
  - rewrite find_at_pos_run.
    destruct (Qt.x pos >=? 0); [destruct (Qt.y pos >=? 0)|]; cbn [fst snd];
      unfold upd_calls; run_projections;
      frame_done;
      solve [eexists; reflexivity | exists []; rewrite app_nil_r; reflexivity].
  - small_run. frame_done. eexists. reflexivity.
  - rewrite key_press_run. cbn [fst snd]. unfold upd_calls. run_projections.
    frame_done. eexists. reflexivity.
  - small_run. rewrite <- app_assoc.
    frame_done. eexists. reflexivity.
  - rewrite loadFinished_run. cbn [fst snd]. unfold restored, upd_calls. run_projections.
    destruct (_saved_zoom t); run_projections;
      frame_done;
      rewrite <- ?app_assoc; eexists; reflexivity.
Qed.

Lemma lift_handle e w :
  exists l,
    Rest.lift (handle_it e) w =
    (match answer (handle_it e) (Rest.tab_of w) with
     | Py.Return a => Rest.Done a
     | Py.Raise x => Rest.Failed (Rest.python x)
     end,
     {| Rest.tab_of := exec (handle_it e) (Rest.tab_of w);
        Rest.effects := Rest.effects w ++ map Rest.earlier l |}).
Proof.
  destruct (handle_frame e (Rest.tab_of w)) as [[l Hl] _].
  exists l. apply lift_run; [|exact Hl].
  unfold answer, exec. destruct (handle_it e (Rest.tab_of w)). reflexivity.
Qed.


End EventFrames.

Lemma lift_quiet {A : Type} (m : M A) w a :
  m (Rest.tab_of w) = (Py.Return a, Rest.tab_of w) ->
  Rest.lift m w = (Rest.Done a, w).
Proof.
  intros H. rewrite (lift_run m w _ _ [] H) by (rewrite app_nil_r; reflexivity).
  cbn [map]. rewrite app_nil_r. destruct w; reflexivity.
Qed.

Lemma lift_clear w :
  Rest.lift WebEngineSearch.clear w =
  (Rest.Done tt,
   {| Rest.tab_of := exec WebEngineSearch.clear (Rest.tab_of w);
      Rest.effects := Rest.effects w ++ [Rest.earlier (findText [] 0 None)] |}).
Proof.
  rewrite (lift_run _ w _ _ [findText [] 0 None] (clear_run _)) by reflexivity.
  reflexivity.
Qed.

Lemma lift_key_press key modifier w :
  Rest.lift (WebEngineTab.key_press key modifier) w =
  (Rest.Done tt,
   {| Rest.tab_of := upd_calls (fun l => l ++ key_pair key modifier) (Rest.tab_of w);
      Rest.effects := Rest.effects w ++ map Rest.earlier (key_pair key modifier) |}).
Proof.
  rewrite (lift_run _ w _ _ (key_pair key modifier) (key_press_run _ _ _))
    by reflexivity.
  reflexivity.
Qed.

Lemma follow_selected_run tab0 w :
  Rest.Caret.follow_selected tab0 w =
  (Rest.Done tt,
   if search_displayed (tab_search (Rest.tab_of w))
   then
     {| Rest.tab_of :=
          upd_calls (fun l => l ++ key_pair Qt.Key_Enter (enter_modifier tab0))
            (exec WebEngineSearch.clear (Rest.tab_of w));
        Rest.effects :=
          Rest.effects w ++
          map Rest.earlier
            (findText [] 0 None :: key_pair Qt.Key_Enter (enter_modifier tab0)) |}
   else
     {| Rest.tab_of := Rest.tab_of w;
        Rest.effects := Rest.effects w ++ [find_selected_link tab0] |}).
Proof.
  unfold Rest.Caret.follow_selected. cbv [mbind Rest.W_bind].
  rewrite (lift_quiet _ w (search_displayed (tab_search (Rest.tab_of w))))
    by reflexivity.
  destruct (search_displayed (tab_search (Rest.tab_of w))); [|reflexivity].
  rewrite lift_clear.
  destruct tab0; rewrite lift_key_press; cbn [Rest.tab_of Rest.effects enter_modifier];
    rewrite <- app_assoc; reflexivity.
Qed.

(** X6.  Following the selection always returns, and afterwards no search
    is on display.  While a search is on display it clears the search (an
    empty find) and then sends one fake Enter, a press and its release, with
    the Control modifier exactly when a new tab is asked for; no script is
    run, and the search text stays stored.  While none is on display it
    runs one script, [webelem.find_selected_link], in the application world,
    and sends no key and changes nothing in the tab.  So a second call right
    after the first always takes the script path. *)
Theorem follow_selected_branches (tab0 tab1 : bool) (w : Rest.whole) :
  let w' := Rest.run (Rest.Caret.follow_selected tab0) w in
  Rest.outcome (Rest.Caret.follow_selected tab0) w = Rest.Done tt
  /\ search_displayed (tab_search (Rest.tab_of w')) = false
  /\ text (tab_search (Rest.tab_of w')) = text (tab_search (Rest.tab_of w))
  /\ (if search_displayed (tab_search (Rest.tab_of w))
      then Rest.effects_of (Rest.Caret.follow_selected tab0) w
           = map Rest.earlier
               (findText [] 0 None :: key_pair Qt.Key_Enter (enter_modifier tab0))
      else Rest.effects_of (Rest.Caret.follow_selected tab0) w
           = [find_selected_link tab0]
           /\ Rest.tab_of w' = Rest.tab_of w)
  /\ Rest.effects_of (Rest.Caret.follow_selected tab1) w' = [find_selected_link tab1].
Proof.
  intros w'.
  assert (Hoff : search_displayed (tab_search (Rest.tab_of w')) = false).
  { subst w'. unfold Rest.run. rewrite follow_selected_run. cbn [snd].
    destruct (search_displayed (tab_search (Rest.tab_of w))) eqn:Hd;
      [reflexivity | exact Hd]. }
  split; [unfold Rest.outcome; rewrite follow_selected_run; reflexivity|].
  split; [exact Hoff|].
  split.
  { subst w'. unfold Rest.run. rewrite follow_selected_run. cbn [snd].
    destruct (search_displayed (tab_search (Rest.tab_of w))); reflexivity. }
  split.
  - subst w'. unfold Rest.run.
    destruct (search_displayed (tab_search (Rest.tab_of w))) eqn:Hd.
    + eapply effects_of_run; [apply follow_selected_run|].
      rewrite Hd. reflexivity.
    + split.
      * eapply effects_of_run; [apply follow_selected_run|].
        rewrite Hd. reflexivity.
      * rewrite follow_selected_run, Hd. reflexivity.
  - eapply effects_of_run; [apply follow_selected_run|].
    rewrite Hoff. reflexivity.
Qed.


Lemma lift_set_factor factor w :
  Rest.lift (WebEngineZoom.set_factor factor) w =
  (Rest.Done tt,
   {| Rest.tab_of := exec (WebEngineZoom.set_factor factor) (Rest.tab_of w);
      Rest.effects := Rest.effects w ++ [Rest.earlier (setZoomFactor factor)] |}).
Proof.
  rewrite (lift_run _ w (Py.Return tt)
             (exec (WebEngineZoom.set_factor factor) (Rest.tab_of w))
             [setZoomFactor factor]) by reflexivity.
  reflexivity.
Qed.

Lemma shutdown_run version_check_exact w :
  Rest.Tab.shutdown version_check_exact w =
  (Rest.Done tt,
   if version_check_exact "5.8"
   then {| Rest.tab_of := exec WebEngineSearch.clear (Rest.tab_of w);
           Rest.effects :=
             Rest.effects w ++
             [Rest.shutting_down_emit; Rest.earlier (findText [] 0 None);
              Rest.widget_shutdown] |}
   else {| Rest.tab_of := Rest.tab_of w;
           Rest.effects :=
             Rest.effects w ++ [Rest.shutting_down_emit; Rest.widget_shutdown] |}).
Proof.
  unfold Rest.Tab.shutdown. cbv [mbind Rest.W_bind]. rewrite effect__run.
  destruct (version_check_exact "5.8").
  - rewrite lift_clear, effect__run. cbn [Rest.tab_of Rest.effects].
    rewrite <- !app_assoc. reflexivity.
  - cbv [mret Rest.W_ret]. rewrite effect__run. cbn [Rest.tab_of Rest.effects].
    rewrite <- !app_assoc. reflexivity.
Qed.

Lemma _on_load_started_run version_check w :
  Rest.Tab._on_load_started version_check w =
  (Rest.Done tt,
   if version_check "5.9"
   then {| Rest.tab_of := exec WebEngineSearch.clear (Rest.tab_of w);
           Rest.effects :=
             Rest.effects w ++
             [Rest.earlier (findText [] 0 None);
              Rest._on_load_started_of_AbstractTab] |}
   else {| Rest.tab_of := Rest.tab_of w;
           Rest.effects := Rest.effects w ++ [Rest._on_load_started_of_AbstractTab] |}).
Proof.
  unfold Rest.Tab._on_load_started. cbv [mbind Rest.W_bind].
  destruct (version_check "5.9").
  - rewrite lift_clear, effect__run. cbn [Rest.tab_of Rest.effects].
    rewrite <- !app_assoc. reflexivity.
  - cbv [mret Rest.W_ret]. rewrite effect__run. reflexivity.
Qed.

Lemma serialize_run version_check scheme w :
  Rest.History.serialize version_check scheme w =
  if negb (version_check "5.9")
     && bool_decide (scheme (page_url (tab_widget (Rest.tab_of w)))
                       ∈ [Py.lit "view-source"; Py.lit "chrome"])
  then (Rest.Failed (Rest.WebTabError "Can't serialize special URL!"), w)
  else (Rest.Done tt,
        {| Rest.tab_of := Rest.tab_of w;
           Rest.effects := Rest.effects w ++ [Rest.qtutils_serialize] |}).
Proof.
  unfold Rest.History.serialize. cbv [mbind Rest.W_bind].
  destruct (version_check "5.9"); cbn [negb andb]; [reflexivity|].
  rewrite (lift_quiet _ w (scheme (page_url (tab_widget (Rest.tab_of w)))))
    by reflexivity.
  destruct (bool_decide _); reflexivity.
Qed.

Lemma load_items_run tabhistory_serialize items w :
  Rest.History.load_items tabhistory_serialize items w =
  (Rest.Done tt,
   {| Rest.tab_of := zoomed tabhistory_serialize items (Rest.tab_of w);
      Rest.effects :=
        Rest.effects w ++
        Rest.qtutils_deserialize_stream (fst (tabhistory_serialize items))
        :: zoom_effects tabhistory_serialize items
        ++ scroll_effects tabhistory_serialize items (Rest.tab_of w) |}).
Proof.
  unfold Rest.History.load_items, zoomed, zoom_effects, scroll_effects,
    restored_zoom, restored_scroll.
  destruct (tabhistory_serialize items) as [stream [c|]]; cbn [fst snd].
  - cbv [mbind Rest.W_bind option_bind]. rewrite effect__run.
    destruct (Rest.zoom c) as [z|].
    + rewrite lift_set_factor. cbn [Rest.tab_of Rest.effects].
      destruct (Rest.scroll_pos c) as [p|].
      * rewrite (lift_quiet _ _
                   (_pos_px (tab_scroller
                      (exec (WebEngineZoom.set_factor z) (Rest.tab_of w)))))
          by reflexivity.
        change (_pos_px (tab_scroller
                  (exec (WebEngineZoom.set_factor z) (Rest.tab_of w))))
          with (_pos_px (tab_scroller (Rest.tab_of w))).
        destruct (Rest.QPoint_eq _ _).
        -- rewrite effect__run. cbn [Rest.tab_of Rest.effects].
           rewrite <- !app_assoc. reflexivity.
        -- cbv [mret Rest.W_ret]. rewrite <- !app_assoc. reflexivity.
      * cbv [mret Rest.W_ret]. rewrite <- !app_assoc. reflexivity.
    + cbv [mret Rest.W_ret]. cbn [Rest.tab_of Rest.effects].
      destruct (Rest.scroll_pos c) as [p|].
      * rewrite (lift_quiet _ _ (_pos_px (tab_scroller (Rest.tab_of w))))
          by reflexivity.
        destruct (Rest.QPoint_eq _ _).
        -- rewrite effect__run. cbn [Rest.tab_of Rest.effects].
           rewrite <- !app_assoc. reflexivity.
        -- rewrite app_nil_r. reflexivity.
      * rewrite app_nil_r. reflexivity.
  - cbv [mbind Rest.W_bind mret Rest.W_ret]. rewrite effect__run. reflexivity.
Qed.

Lemma _follow_selected_cb_run is_link js_elem tab0 w :
  Rest.Caret._follow_selected_cb is_link js_elem tab0 w =
  match js_elem with
  | None => (Rest.Done tt, w)
  | Some (Rest.json_other i) => (Rest.Failed (Rest.python Py.AssertionError), w)
  | Some (Rest.json_dict i) =>
      if is_link (Rest.WebEngineElement (Rest.json_dict i))
      then (Rest.Done tt,
            {| Rest.tab_of := Rest.tab_of w;
               Rest.effects :=
                 Rest.effects w ++
                 [Rest.click (Rest.WebEngineElement (Rest.json_dict i))
                    (if tab0 then Rest.target_tab else Rest.target_normal)] |})
      else (Rest.Done tt, w)
  end.
Proof.
  destruct js_elem as [[i|i]|]; try reflexivity.
  unfold Rest.Caret._follow_selected_cb. cbv [mbind Rest.W_bind mret Rest.W_ret].
  destruct (is_link _); reflexivity.
Qed.

(** The status the renderer is reported with, if any. *)
Lemma _on_render_process_terminated_run status exitcode w :
  Rest.Tab._on_render_process_terminated status exitcode w =
  match reported_status status exitcode with
  | Some s =>
      (Rest.Done tt,
       {| Rest.tab_of := Rest.tab_of w;
          Rest.effects :=
            Rest.effects w ++ [Rest.renderer_process_terminated_emit s exitcode] |})
  | None => (Rest.Failed Rest.KeyError, w)
  end.
Proof.
  unfold Rest.Tab._on_render_process_terminated, reported_status.
  destruct (Rest.Tab.getitem _ _); reflexivity.
Qed.

Section ActionFacts.

Variable casing_of : N -> Py.casing.
Variable isValid : Qt.QUrl -> bool.
Variable setScheme : Py.str -> Qt.QUrl -> Qt.QUrl.
Variable toDisplayString_RemoveScheme : Qt.QUrl -> Py.str.
Variable QPoint_div : Qt.QPoint -> Py.float -> Qt.QPoint.
Variable is_link : Rest.element -> bool.
Variable version_check : string -> bool.
Variable version_check_exact : string -> bool.
Variable scheme : Qt.QUrl -> Py.str.
Variable tabhistory_serialize : nat -> nat * option Rest.cur_data.

Local Abbreviation handle_that :=
  (handle casing_of isValid setScheme toDisplayString_RemoveScheme QPoint_div).
Local Abbreviation perform_it :=
  (Rest.perform casing_of isValid setScheme toDisplayString_RemoveScheme QPoint_div
     is_link version_check version_check_exact scheme tabhistory_serialize).
Local Abbreviation after_them :=
  (Rest.after_actions casing_of isValid setScheme toDisplayString_RemoveScheme
     QPoint_div is_link version_check version_check_exact scheme
     tabhistory_serialize).


Lemma find_at_pos_of_pos_px_run callback0 t :
  WebEngineElements.find_at_pos_of_pos_px QPoint_div callback0 t =
  let pos := _pos_px (tab_scroller t) in
  if (Qt.x pos >=? 0) && (Qt.y pos >=? 0)
  then
    (Py.Return tt,
     upd_calls (fun l => l ++
       [runJavaScript
          (assemble "webelem" "find_at_pos"
             [js_int (Qt.x (QPoint_div pos (zoomFactor (tab_widget t))));
              js_int (Qt.y (QPoint_div pos (zoomFactor (tab_widget t))))])
          Qt.ApplicationWorld (Some (js_cb_single callback0))])
       (upd_scroller (fun s =>
          {| _pos_perc := _pos_perc s;
             _pos_px := QPoint_div pos (zoomFactor (tab_widget t));
             _at_bottom := _at_bottom s |}) t))
  else (Py.Raise Py.AssertionError, t).
Proof.
  unfold WebEngineElements.find_at_pos_of_pos_px, WebEngineScroller.pos_px,
    assert, eval.
  cbv [mbind M_bind gets mret M_ret]. cbv zeta.
  destruct (Qt.x (_pos_px (tab_scroller t)) >=? 0); [|reflexivity].
  destruct (Qt.y (_pos_px (tab_scroller t)) >=? 0); reflexivity.
Qed.

(** What every action leaves alone. *)
Lemma perform_frame a w :
  (Rest.writes_pos_px a = false ->
   tab_scroller (Rest.tab_of (Rest.run (perform_it a) w))
   = tab_scroller (Rest.tab_of w))
  /\ (Rest.is_find a = false ->
      search_displayed (tab_search (Rest.tab_of (Rest.run (perform_it a) w))) = true ->
      search_displayed (tab_search (Rest.tab_of w)) = true).
Proof.
  unfold Rest.run, Rest.outcome.
  destruct a as [e|tab0|[[i|i]|] tab0|sel cb vis|id cb|cb|cb|cb [j|]|cb [l|]
                 |x y|p|x y|x y| |items|[p]| | |status exitcode];
    cbn [Rest.perform Rest.writes_pos_px Rest.is_find].
  - destruct (handle_frame casing_of isValid setScheme toDisplayString_RemoveScheme
                QPoint_div e (Rest.tab_of w)) as (_ & Hs & Hd).
    destruct (lift_handle casing_of isValid setScheme toDisplayString_RemoveScheme
                QPoint_div e w) as [l Hl].
    split.
    + intros Hu. rewrite Hl. apply Hs. destruct e; try reflexivity; discriminate Hu.
    + intros Hf. rewrite Hl. exact (Hd Hf).
  - rewrite follow_selected_run. cbn [fst snd].
    destruct (search_displayed (tab_search (Rest.tab_of w))) eqn:Hd; frame_done.
  - rewrite _follow_selected_cb_run. destruct (is_link _); frame_done.
  - rewrite _follow_selected_cb_run. frame_done.
  - frame_done.
  - frame_done.
  - frame_done.
  - frame_done.
  - split; [discriminate|]. intros _.
    unfold Rest.lift. rewrite find_at_pos_of_pos_px_run. cbv zeta.
    destruct (_ && _); cbn [snd Rest.tab_of]; intros H; exact H.
  - frame_done.
  - frame_done.
  - frame_done.
  - frame_done.
  - frame_done.
  - frame_done.
  - frame_done.
  - frame_done.
  - rewrite serialize_run. destruct (_ && _); frame_done.
  - rewrite load_items_run. cbn [fst snd Rest.tab_of]. unfold zoomed.
    destruct (restored_zoom tabhistory_serialize items); frame_done.
  - frame_done.
  - rewrite shutdown_run. cbn [fst snd].
    destruct (version_check_exact "5.8"); frame_done.
  - rewrite _on_load_started_run. cbn [fst snd].
    destruct (version_check "5.9"); frame_done.
  - rewrite _on_render_process_terminated_run.
    destruct (reported_status status exitcode); frame_done.
Qed.

Lemma after_actions_app l1 l2 w : after_them (l1 ++ l2) w = after_them l2 (after_them l1 w).
Proof. apply fold_left_app. Qed.

Lemma after_no_find_keeps_off l w :
  forallb (fun a => negb (Rest.is_find a)) l = true ->
  search_displayed (tab_search (Rest.tab_of w)) = false ->
  search_displayed (tab_search (Rest.tab_of (after_them l w))) = false.
Proof.
  revert w. induction l as [|a l IH]; intros w Hl Hw; [exact Hw|].
  cbn [forallb] in Hl. apply andb_prop in Hl as [Ha Hl].
  apply negb_true_iff in Ha.
  apply (IH _ Hl).
  destruct (perform_frame a w) as (_ & Hd).
  apply not_true_is_false. intros E.
  rewrite (Hd Ha E) in Hw. discriminate Hw.
Qed.


(** X8.  Who writes the cached scroll position.  Through any run of actions
    that holds no answer of the scroll-position callback and no
    [find_at_pos] on the point [pos_px()] handed out, the scroll commands
    that run a script ([to_perc], [to_point], [delta], [delta_page]), the
    scrolls by keys, a restored history and a shutdown included, the pixel
    position, the percentages and the at-bottom flag stay what they were.
    [find_at_pos] on the point [pos_px()] handed out does write: [pos_px()]
    returns the scroller's own [QPoint], and when both its coordinates are
    non-negative the in-place division leaves the cached pixel position
    divided by the zoom factor, the percentages and the at-bottom flag as
    they were. *)
Theorem cached_scroll_writers (l : list Rest.action) (w : Rest.whole) (callback0 : nat) :
  (forallb (fun a => negb (Rest.writes_pos_px a)) l = true ->
   tab_scroller (Rest.tab_of (after_them l w)) = tab_scroller (Rest.tab_of w))
  /\ (0 <= Qt.x (_pos_px (tab_scroller (Rest.tab_of w))) ->
      0 <= Qt.y (_pos_px (tab_scroller (Rest.tab_of w))) ->
      tab_scroller
        (Rest.tab_of (Rest.run (perform_it (Rest.do_find_at_pos_of_pos_px callback0)) w))
      = {| _pos_perc := _pos_perc (tab_scroller (Rest.tab_of w));
           _pos_px := QPoint_div (_pos_px (tab_scroller (Rest.tab_of w)))
                        (zoomFactor (tab_widget (Rest.tab_of w)));
           _at_bottom := _at_bottom (tab_scroller (Rest.tab_of w)) |}).
Proof.
  split.
  - revert w. induction l as [|a l IH]; intros w Hl; [reflexivity|].
    cbn [forallb] in Hl. apply andb_prop in Hl as [Ha Hl].
    apply negb_true_iff in Ha.
    change (after_them (a :: l) w) with (after_them l (Rest.run (perform_it a) w)).
    rewrite (IH _ Hl). exact (proj1 (perform_frame a w) Ha).
  - intros Hx Hy. cbn [Rest.perform]. unfold Rest.run, Rest.lift.
    rewrite find_at_pos_of_pos_px_run. cbv zeta.
    rewrite (proj2 (Z.geb_le _ _) Hx), (proj2 (Z.geb_le _ _) Hy).
    reflexivity.
Qed.

(** X9.  A search is on display only from a find on.  Through any run of
    actions without [search], [prev_result] or [next_result], a tab that
    shows no search goes on showing none, and following the selection then
    runs the script [webelem.find_selected_link] and sends no fake Enter.
    On Qt 5.9 and later the start of a load ends the search whatever the tab
    showed before: after it and any such run the same holds. *)
Theorem search_displayed_only_by_find
    (l : list Rest.action) (w : Rest.whole) (tab0 : bool) :
  forallb (fun a => negb (Rest.is_find a)) l = true ->
  search_displayed (tab_search (Rest.tab_of w)) = false
  \/ version_check "5.9" = true ->
  let before := if search_displayed (tab_search (Rest.tab_of w))
                then Rest.on_loadStarted :: l else l in
  search_displayed (tab_search (Rest.tab_of (after_them before w))) = false
  /\ Rest.effects_of (Rest.Caret.follow_selected tab0) (after_them before w)
     = [find_selected_link tab0].
Proof.
  intros Hl Hw before.
  assert (Hoff : search_displayed (tab_search (Rest.tab_of (after_them before w)))
                 = false).
  { subst before.
    destruct (search_displayed (tab_search (Rest.tab_of w))) eqn:Hd.
    - destruct Hw as [Hw|Hv]; [discriminate Hw|].
      change (after_them (Rest.on_loadStarted :: l) w)
        with (after_them l (Rest.run (Rest.Tab._on_load_started version_check) w)).
      apply after_no_find_keeps_off; [exact Hl|].
      unfold Rest.run. rewrite _on_load_started_run, Hv. reflexivity.
    - apply after_no_find_keeps_off; assumption. }
  split; [exact Hoff|].
  eapply effects_of_run; [apply follow_selected_run|].
  rewrite Hoff. reflexivity.
Qed.

End ActionFacts.


Lemma cached_scroll_writers_witness :
  let l := [Rest.do_to_point {| Qt.x := 0; Qt.y := 300 |};
            Rest.an_event (on_scroll go_down 2);
            Rest.an_event (on_find_at_pos {| Qt.x := 3; Qt.y := 4 |} 1%nat);
            Rest.do_load_items 5; Rest.do_shutdown] in
  forallb (fun a => negb (Rest.writes_pos_px a)) l = true
  /\ tab_scroller (Rest.tab_of (sample_after_actions l scrolled))
     = tab_scroller (Rest.tab_of scrolled)
  /\ 0 <= Qt.x (_pos_px (tab_scroller (Rest.tab_of scrolled)))
  /\ 0 <= Qt.y (_pos_px (tab_scroller (Rest.tab_of scrolled)))
  /\ _pos_px (tab_scroller
       (Rest.tab_of
          (Rest.run
             (Rest.perform ascii_casing sample_isValid sample_setScheme
                sample_toDisplayString_RemoveScheme halving Rest.sample_is_link
                Rest.sample_version_check Rest.sample_version_check_exact
                Rest.before_colon Rest.sample_tabhistory_serialize
                (Rest.do_find_at_pos_of_pos_px 1%nat))
             scrolled)))
     = {| Qt.x := 0; Qt.y := 20 |}.
Proof.
  intros l.
  assert (Hl : forallb (fun a => negb (Rest.writes_pos_px a)) l = true)
    by reflexivity.
  assert (Hx : 0 <= Qt.x (_pos_px (tab_scroller (Rest.tab_of scrolled))))
    by discriminate.
  assert (Hy : 0 <= Qt.y (_pos_px (tab_scroller (Rest.tab_of scrolled))))
    by discriminate.
  split; [exact Hl|].
  split.
  { exact (proj1 (cached_scroll_writers ascii_casing sample_isValid
                    sample_setScheme sample_toDisplayString_RemoveScheme
                    sample_QPoint_div Rest.sample_is_link Rest.sample_version_check
                    Rest.sample_version_check_exact Rest.before_colon
                    Rest.sample_tabhistory_serialize l scrolled 1%nat) Hl). }
  split; [exact Hx|]. split; [exact Hy|].
  exact (f_equal _pos_px
           (proj2 (cached_scroll_writers ascii_casing sample_isValid
                     sample_setScheme sample_toDisplayString_RemoveScheme
                     halving Rest.sample_is_link Rest.sample_version_check
                     Rest.sample_version_check_exact Rest.before_colon
                     Rest.sample_tabhistory_serialize [] scrolled 1%nat) Hx Hy)).
Defined.

Lemma search_displayed_only_by_find_witness :
  let l := [Rest.do_find_css (Py.lit "a") 1%nat true;
            Rest.an_event (on_scroll go_down 2)] in
  forallb (fun a => negb (Rest.is_find a)) l = true
  /\ (search_displayed (tab_search (Rest.tab_of searching)) = false
      \/ Rest.sample_version_check "5.9" = true)
  /\ search_displayed
       (tab_search
          (Rest.tab_of (sample_after_actions (Rest.on_loadStarted :: l) searching)))
     = false
  /\ Rest.effects_of (Rest.Caret.follow_selected true)
       (sample_after_actions (Rest.on_loadStarted :: l) searching)
     = [find_selected_link true].
Proof.
  intros l.
  assert (Hl : forallb (fun a => negb (Rest.is_find a)) l = true) by reflexivity.
  assert (Hv : search_displayed (tab_search (Rest.tab_of searching)) = false
               \/ Rest.sample_version_check "5.9" = true)
    by (right; reflexivity).
  split; [exact Hl|]. split; [exact Hv|].
  exact (search_displayed_only_by_find ascii_casing sample_isValid sample_setScheme
           sample_toDisplayString_RemoveScheme sample_QPoint_div
           Rest.sample_is_link Rest.sample_version_check
           Rest.sample_version_check_exact Rest.before_colon
           Rest.sample_tabhistory_serialize l searching true Hl Hv).
Defined.

(** ** The renderer process *)

Lemma render_effects status exitcode w :
  Rest.effects_of (Rest.Tab._on_render_process_terminated status exitcode) w =
  match reported_status status exitcode with
  | Some s => [Rest.renderer_process_terminated_emit s exitcode]
  | None => []
  end.
Proof.
  unfold Rest.effects_of, Rest.run. rewrite _on_render_process_terminated_run.
  destruct (reported_status status exitcode); cbn [snd Rest.effects].
  - apply drop_app_length.
  - apply drop_all.
Qed.

(** X10.  When the renderer process terminates the tab is left as it was,
    and for each of Qt's four statuses and for -1 exactly one
    renderer-terminated event goes out, with the exit code as it came; any
    other status raises [KeyError] and nothing goes out.  The event says
    crashed exactly when Qt said crashed, or said abnormal with exit code
    256; it never says abnormal with exit code 256. *)
Theorem render_process_terminated_status (status exitcode : Z) (w : Rest.whole) :
  let m := Rest.Tab._on_render_process_terminated status exitcode in
  Rest.tab_of (Rest.run m w) = Rest.tab_of w
  /\ match Rest.outcome m w with
     | Rest.Done _ =>
         -1 <= status <= 3
         /\ exists s,
              Rest.effects_of m w = [Rest.renderer_process_terminated_emit s exitcode]
              /\ (s = Rest.status_crashed <->
                  status = 2 \/ (status = 1 /\ exitcode = 256))
              /\ (s = Rest.status_abnormal -> exitcode <> 256)
     | Rest.Failed e =>
         e = Rest.KeyError
         /\ ~ (-1 <= status <= 3)
         /\ Rest.effects_of m w = []
     end.
Proof.
  intros m. subst m. unfold Rest.run, Rest.outcome.
  rewrite render_effects, _on_render_process_terminated_run.
  destruct (Z.eq_dec status 1) as [->|H1].
  { destruct (exitcode =? 256) eqn:Ex.
    - apply Z.eqb_eq in Ex. subst exitcode. cbn.
      split; [reflexivity|]. split; [lia|]. eexists. split; [reflexivity|].
      split; [split; [right; split; reflexivity|reflexivity]|discriminate].
    - unfold reported_status. change (1 =? Rest.Tab.AbnormalTerminationStatus) with true.
      rewrite Ex. cbn. apply Z.eqb_neq in Ex.
      split; [reflexivity|]. split; [lia|]. eexists. split; [reflexivity|].
      split; [split; [discriminate|intros [?|[_ ?]]; [discriminate|contradiction]]
             |intros _; exact Ex]. }
  assert (Hr : reported_status status exitcode
               = Rest.Tab.getitem Rest.Tab.status_map status).
  { unfold reported_status, Rest.Tab.AbnormalTerminationStatus.
    apply Z.eqb_neq in H1. rewrite H1. reflexivity. }
  rewrite Hr. clear Hr.
  destruct (Z.eq_dec status (-1)) as [->|Hm];
    [|destruct (Z.eq_dec status 0) as [->|H0];
      [|destruct (Z.eq_dec status 2) as [->|H2];
        [|destruct (Z.eq_dec status 3) as [->|H3]]]].
  1-4: cbn; split; [reflexivity|]; split; [lia|]; eexists; split; [reflexivity|];
    split; [split; [intros; try discriminate; left; reflexivity
                   |intros [?|[? _]]; try discriminate; reflexivity]
           |discriminate].
  unfold Rest.Tab.getitem, Rest.Tab.status_map, Rest.Tab.NormalTerminationStatus,
    Rest.Tab.AbnormalTerminationStatus, Rest.Tab.CrashedTerminationStatus,
    Rest.Tab.KilledTerminationStatus.
  rewrite (proj2 (Z.eqb_neq 0 status)), (proj2 (Z.eqb_neq 1 status)),
    (proj2 (Z.eqb_neq 2 status)), (proj2 (Z.eqb_neq 3 status)),
    (proj2 (Z.eqb_neq (-1) status)) by lia.
  cbn [fst snd]. split; [reflexivity|]. split; [reflexivity|]. split; [lia|reflexivity].
Qed.

(** ** Restoring a history *)

Lemma QPoint_eq_spec p q : Rest.QPoint_eq p q = true <-> p = q.
Proof.
  unfold Rest.QPoint_eq. destruct p as [px py], q as [qx qy]. cbn [Qt.x Qt.y].
  rewrite andb_true_iff, !Z.eqb_eq. split.
  - intros [-> ->]. reflexivity.
  - intros H. injection H as -> ->. split; reflexivity.
Qed.

Lemma load_items_effects tabhistory_serialize items w :
  Rest.effects_of (Rest.History.load_items tabhistory_serialize items) w =
  Rest.qtutils_deserialize_stream (fst (tabhistory_serialize items))
  :: zoom_effects tabhistory_serialize items
  ++ scroll_effects tabhistory_serialize items (Rest.tab_of w).
Proof.
  eapply effects_of_run; [apply load_items_run|]. reflexivity.
Qed.

(** X11.  Restoring a history deserializes the stream first.  A scroll is
    scheduled only with a zero delay, only to the position stored for the
    current entry, and only while the tab's cached position is the origin:
    a tab already scrolled is never moved.  A zoom factor is set only if one
    is stored, and to the one stored; the zoom saved for the next load, the
    cached scroll position and the search are left as they were.  When no
    zoom factor is stored the restore returns, the tab is as it was, and the
    scroll is scheduled whenever a position is stored and the cached
    position is the origin. *)
Theorem load_items_schedules_scroll
    (tabhistory_serialize : nat -> nat * option Rest.cur_data)
    (items : nat) (w : Rest.whole) :
  let m := Rest.History.load_items tabhistory_serialize items in
  head (Rest.effects_of m w)
  = Some (Rest.qtutils_deserialize_stream (fst (tabhistory_serialize items)))
  /\ _saved_zoom (Rest.tab_of (Rest.run m w)) = _saved_zoom (Rest.tab_of w)
  /\ tab_scroller (Rest.tab_of (Rest.run m w)) = tab_scroller (Rest.tab_of w)
  /\ tab_search (Rest.tab_of (Rest.run m w)) = tab_search (Rest.tab_of w)
  /\ (forall msec what,
        In (Rest.QTimer_singleShot msec what) (Rest.effects_of m w) ->
        msec = 0
        /\ exists c p,
             snd (tabhistory_serialize items) = Some c
             /\ Rest.scroll_pos c = Some p
             /\ what = Rest.partial_to_point p
             /\ _pos_px (tab_scroller (Rest.tab_of w)) = {| Qt.x := 0; Qt.y := 0 |})
  /\ (forall f,
        In (Rest.earlier (setZoomFactor f)) (Rest.effects_of m w) ->
        exists c, snd (tabhistory_serialize items) = Some c /\ Rest.zoom c = Some f)
  /\ (restored_zoom tabhistory_serialize items = None ->
      Rest.outcome m w = Rest.Done tt
      /\ Rest.tab_of (Rest.run m w) = Rest.tab_of w
      /\ forall c p,
           snd (tabhistory_serialize items) = Some c ->
           Rest.scroll_pos c = Some p ->
           _pos_px (tab_scroller (Rest.tab_of w)) = {| Qt.x := 0; Qt.y := 0 |} ->
           In (Rest.QTimer_singleShot 0 (Rest.partial_to_point p))
              (Rest.effects_of m w)).
Proof.
  intros m. subst m. rewrite load_items_effects.
  unfold Rest.outcome, Rest.run. rewrite load_items_run. cbn [fst snd Rest.tab_of].
  split; [reflexivity|].
  split; [unfold zoomed; destruct (restored_zoom _ _); reflexivity|].
  split; [unfold zoomed; destruct (restored_zoom _ _); reflexivity|].
  split; [unfold zoomed; destruct (restored_zoom _ _); reflexivity|].
  unfold zoomed, zoom_effects, scroll_effects, restored_zoom, restored_scroll.
  destruct (tabhistory_serialize items) as [stream cur]. cbn [fst snd].
  split; [|split].
  - intros msec what. cbn [In]. rewrite in_app_iff.
    intros [H|[H|H]]; [discriminate H| |].
    + destruct (cur ≫= _); [destruct H as [H|[]]; discriminate H|destruct H].
    + destruct cur as [c|]; [|destruct H]. cbn [mbind option_bind] in H.
      destruct (Rest.scroll_pos c) as [p|] eqn:Hp; [|destruct H].
      cbn [mbind option_bind] in H.
      destruct (Rest.QPoint_eq _ _) eqn:Hq; [|destruct H].
      destruct H as [H|[]]. injection H as <- <-.
      split; [reflexivity|]. exists c, p.
      apply QPoint_eq_spec in Hq. repeat split; assumption.
  - intros f. cbn [In]. rewrite in_app_iff.
    intros [H|[H|H]]; [discriminate H| |].
    + destruct cur as [c|]; [|destruct H]. cbn [mbind option_bind] in H.
      destruct (Rest.zoom c) as [z|] eqn:Hz; [|destruct H].
      destruct H as [H|[]]. injection H as <-. exists c. split; [reflexivity|exact Hz].
    + destruct (cur ≫= _); [destruct H as [H|[]]; discriminate H|destruct H].
  - intros Hz. rewrite Hz. split; [reflexivity|]. split; [reflexivity|].
    intros c p -> Hp Hq. cbn [In app]. right.
    cbn [mbind option_bind]. rewrite Hp. cbn [mbind option_bind].
    apply QPoint_eq_spec in Hq. rewrite Hq. left. reflexivity.
Qed.

Lemma load_items_schedules_scroll_witness :
  restored_zoom Rest.sample_tabhistory_serialize 5%nat = None
  /\ Rest.outcome (Rest.History.load_items Rest.sample_tabhistory_serialize 5%nat)
       (Rest.whole_of new_tab) = Rest.Done tt
  /\ In (Rest.QTimer_singleShot 0 (Rest.partial_to_point {| Qt.x := 0; Qt.y := 120 |}))
       (Rest.effects_of (Rest.History.load_items Rest.sample_tabhistory_serialize 5%nat)
          (Rest.whole_of new_tab)).
Proof.
  assert (Hz : restored_zoom Rest.sample_tabhistory_serialize 5%nat = None)
    by reflexivity.
  split; [exact Hz|].
  destruct (load_items_schedules_scroll Rest.sample_tabhistory_serialize 5%nat
              (Rest.whole_of new_tab)) as (_ & _ & _ & _ & _ & _ & H).
  destruct (H Hz) as (Ho & _ & Hs).
  split; [exact Ho|].
  exact (Hs _ _ eq_refl eq_refl eq_refl).
Defined.

(** ** Element lookups *)

Lemma fold_left_append {A B : Type} (f : A -> B) (l : list A) (acc : list B) :
  fold_left (fun elems x => elems ++ [f x]) l acc = acc ++ map f l.
Proof.
  revert acc. induction l as [|a l IH]; intros acc; cbn [fold_left map].
  - rewrite app_nil_r. reflexivity.
  - rewrite IH, <- app_assoc. reflexivity.
Qed.

Lemma _js_cb_multiple_run callback0 js_elems w :
  Rest.Elements._js_cb_multiple callback0 js_elems w =
  (Rest.Done tt,
   {| Rest.tab_of := Rest.tab_of w;
      Rest.effects :=
        Rest.effects w ++ [Rest.callback_called callback0 (elements_of js_elems)] |}).
Proof.
  destruct js_elems as [l|]; [|reflexivity].
  unfold Rest.Elements._js_cb_multiple, elements_of.
  rewrite fold_left_append. reflexivity.
Qed.

Lemma _js_cb_single_run callback0 js_elem w :
  Rest.Elements._js_cb_single callback0 js_elem w =
  (Rest.Done tt,
   {| Rest.tab_of := Rest.tab_of w;
      Rest.effects :=
        Rest.effects w ++ [Rest.callback_called callback0 (element_of js_elem)] |}).
Proof. destruct js_elem; reflexivity. Qed.

Lemma bind_run {A B : Type} (m : Rest.W A) (k : A -> Rest.W B) w a w' :
  m w = (Rest.Done a, w') -> (m ≫= k) w = k a w'.
Proof. intros H. cbv [mbind Rest.W_bind]. rewrite H. reflexivity. Qed.

Lemma lookup_then_answer (lookup answered : Rest.W unit) code h callback0 arg w :
  lookup w = (Rest.Done tt, looked_up code h w) ->
  (forall w', answered w'
              = (Rest.Done tt,
                 {| Rest.tab_of := Rest.tab_of w';
                    Rest.effects :=
                      Rest.effects w' ++ [Rest.callback_called callback0 arg] |})) ->
  answered_once lookup answered code h callback0 arg w.
Proof.
  intros Hl Ha.
  assert (Hb : (lookup;; answered) w
               = (Rest.Done tt,
                  {| Rest.tab_of := Rest.tab_of w;
                     Rest.effects :=
                       Rest.effects w ++
                       [Rest.runJavaScript code Qt.ApplicationWorld (Some h);
                        Rest.callback_called callback0 arg] |})).
  { rewrite (bind_run _ _ _ _ _ Hl), Ha. unfold looked_up.
    cbn [Rest.tab_of Rest.effects]. rewrite <- app_assoc. reflexivity. }
  unfold answered_once, Rest.run, Rest.outcome.
  rewrite (effects_of_run _ _ _ _ _ Hl eq_refl), (effects_of_run _ _ _ _ _ Hb eq_refl).
  rewrite Hl, Hb. unfold callbacks_to.
  cbn -[looked_up Nat.eqb]. rewrite Nat.eqb_refl.
  repeat split; reflexivity.
Qed.

(** X12.  An element lookup calls the user's callback exactly once, and not
    before JavaScript has answered.  Each of [find_css], [find_id] and
    [find_focused] runs one script in the application world, calls no user
    callback itself and leaves the tab as it was; when the callable it
    registered is then called with the answer, the user's callback is called
    once: with [None] when the answer is [None], and otherwise with the
    element, or for [find_css] with the list of elements, as many as were
    answered and in the order they were answered (an empty answer gives the
    empty list, not [None]). *)
Theorem lookups_call_back_once (callback0 : nat) (w : Rest.whole) :
  (forall selector only_visible js_elems,
     answered_once
       (Rest.Elements.find_css selector callback0 only_visible)
       (Rest.Elements._js_cb_multiple callback0 js_elems)
       (Rest.assemble "webelem" "find_css"
          [Rest.js_string selector; Rest.js_bool only_visible])
       (Rest.partial__js_cb_multiple callback0)
       callback0 (elements_of js_elems) w)
  /\ (forall elem_id js_elem,
        answered_once
          (Rest.Elements.find_id elem_id callback0)
          (Rest.Elements._js_cb_single callback0 js_elem)
          (Rest.assemble "webelem" "find_id" [Rest.js_string elem_id])
          (Rest.former (js_cb_single callback0))
          callback0 (element_of js_elem) w)
  /\ (forall js_elem,
        answered_once
          (Rest.Elements.find_focused callback0)
          (Rest.Elements._js_cb_single callback0 js_elem)
          (Rest.assemble "webelem" "find_focused" [])
          (Rest.former (js_cb_single callback0))
          callback0 (element_of js_elem) w).
Proof.
  split; [|split]; intros.
  - apply lookup_then_answer; [reflexivity|]. intros w'. apply _js_cb_multiple_run.
  - apply lookup_then_answer; [reflexivity|]. intros w'. apply _js_cb_single_run.
  - apply lookup_then_answer; [reflexivity|]. intros w'. apply _js_cb_single_run.
Qed.

(** ** Key events *)

Lemma key_events_app l1 l2 : key_events (l1 ++ l2) = key_events l1 ++ key_events l2.
Proof. unfold key_events. apply omap_app. Qed.

Lemma paired_app l1 l2 : paired l1 -> paired l2 -> paired (l1 ++ l2).
Proof.
  intros H1 H2. induction H1 as [|key modifier l H1 IH]; [exact H2|].
  cbn [app]. constructor. exact IH.
Qed.

Lemma paired_key_pair key modifier :
  paired (key_events (map Rest.earlier (key_pair key modifier))).
Proof. repeat constructor. Qed.

Lemma paired_key_pairs n key modifier :
  paired (key_events (map Rest.earlier (key_pairs n key modifier))).
Proof.
  induction n as [|n IH]; [constructor|].
  cbn [key_pairs]. rewrite map_app, key_events_app.
  apply paired_app; [apply paired_key_pair|exact IH].
Qed.

Section KeyFacts.

Variable casing_of : N -> Py.casing.
Variable isValid : Qt.QUrl -> bool.
Variable setScheme : Py.str -> Qt.QUrl -> Qt.QUrl.
Variable toDisplayString_RemoveScheme : Qt.QUrl -> Py.str.
Variable QPoint_div : Qt.QPoint -> Py.float -> Qt.QPoint.
Variable is_link : Rest.element -> bool.
Variable version_check : string -> bool.
Variable version_check_exact : string -> bool.
Variable scheme : Qt.QUrl -> Py.str.
Variable tabhistory_serialize : nat -> nat * option Rest.cur_data.

Local Abbreviation handle_this :=
  (handle casing_of isValid setScheme toDisplayString_RemoveScheme QPoint_div).
Local Abbreviation perform_this :=
  (Rest.perform casing_of isValid setScheme toDisplayString_RemoveScheme QPoint_div
     is_link version_check version_check_exact scheme tabhistory_serialize).
Local Abbreviation after_these :=
  (Rest.after_actions casing_of isValid setScheme toDisplayString_RemoveScheme
     QPoint_div is_link version_check version_check_exact scheme
     tabhistory_serialize).

Lemma handle_sends_pairs e t :
  exists l,
    calls (exec (handle_this e) t) = calls t ++ l
    /\ paired (key_events (map Rest.earlier l)).
Proof.
  unfold exec.
  destruct e as [text0 ic rev cb| |cb|cb|d count| | | |[j|]|pos cb|f|key m|u|ok];
    cbn [handle].
  - rewrite search_run. eexists. split; [reflexivity|constructor].
  - rewrite clear_run. eexists. split; [reflexivity|constructor].
  - rewrite prev_result_run. eexists. split; [reflexivity|constructor].
  - rewrite next_result_run. eexists. split; [reflexivity|constructor].
  - rewrite scroll_by_keys_run. eexists. split; [reflexivity|apply paired_key_pairs].
  - unfold WebEngineScroller.top. rewrite key_press_run.
    eexists. split; [reflexivity|apply paired_key_pair].
  - unfold WebEngineScroller.bottom. rewrite key_press_run.
    eexists. split; [reflexivity|apply paired_key_pair].
  - small_run. eexists. split; [reflexivity|constructor].
  - destruct (update_pos_cb_cases t j) as [(px & py & _ & _ & _ & ->)|[_ ->]];
      cbn [fst snd]; run_projections;
      solve [eexists; split; [reflexivity|constructor]
            |exists []; split; [rewrite app_nil_r; reflexivity|constructor]].
  - exists []. split; [rewrite app_nil_r; reflexivity|constructor].
  - rewrite find_at_pos_run.
    destruct (Qt.x pos >=? 0); [destruct (Qt.y pos >=? 0)|]; cbn [fst snd];
      unfold upd_calls; run_projections;
      solve [eexists; split; [reflexivity|constructor]
            |exists []; split; [rewrite app_nil_r; reflexivity|constructor]].
  - small_run. eexists. split; [reflexivity|constructor].
  - rewrite key_press_run. eexists. split; [reflexivity|apply paired_key_pair].
  - small_run. rewrite <- app_assoc. eexists. split; [reflexivity|constructor].
  - rewrite loadFinished_run. cbn [fst snd]. unfold restored, upd_calls, history_calls.
    run_projections.
    destruct (_saved_zoom t); run_projections; rewrite <- ?app_assoc;
      (eexists; split; [reflexivity|]);
      destruct (isValid _); constructor.
Qed.

Lemma perform_sends_pairs a w :
  exists l,
    Rest.effects (Rest.run (perform_this a) w) = Rest.effects w ++ l
    /\ paired (key_events l).
Proof.
  unfold Rest.run.
  destruct a as [e|tab0|js tab0|sel cb vis|id cb|cb|cb|cb js|cb js
                 |x y|p|x y|x y| |items|[p]| | |status exitcode];
    cbn [Rest.perform].
  - destruct (handle_sends_pairs e (Rest.tab_of w)) as (l & Hl & Hp).
    exists (map Rest.earlier l). split; [|exact Hp].
    unfold exec in Hl.
    destruct (handle_this e (Rest.tab_of w)) as [o t'] eqn:Hh. cbn [snd] in Hl.
    rewrite (lift_run _ w o t' l Hh Hl). reflexivity.
  - rewrite follow_selected_run. cbn [snd].
    destruct (search_displayed (tab_search (Rest.tab_of w)));
      (eexists; split; [reflexivity|]).
    + change (paired (key_events
                (map Rest.earlier (key_pair Qt.Key_Enter (enter_modifier tab0))))).
      apply paired_key_pair.
    + constructor.
  - rewrite _follow_selected_cb_run.
    destruct js as [[i|i]|]; [destruct (is_link _)| |]; cbn [snd Rest.effects];
      solve [eexists; split; [reflexivity|constructor]
            |exists []; split; [rewrite app_nil_r; reflexivity|constructor]].
  - eexists. split; [reflexivity|constructor].
  - eexists. split; [reflexivity|constructor].
  - eexists. split; [reflexivity|constructor].
  - unfold Rest.lift. rewrite find_at_pos_of_pos_px_run. cbv zeta.
    destruct (_ && _); cbn [snd Rest.effects]; unfold Rest.earlier_calls, upd_calls;
      run_projections; rewrite ?drop_app_length, ?drop_all;
      eexists; (split; [reflexivity|constructor]).
  - rewrite _js_cb_single_run. eexists. split; [reflexivity|constructor].
  - rewrite _js_cb_multiple_run. eexists. split; [reflexivity|constructor].
  - eexists. split; [reflexivity|constructor].
  - eexists. split; [reflexivity|constructor].
  - eexists. split; [reflexivity|constructor].
  - eexists. split; [reflexivity|constructor].
  - rewrite serialize_run. destruct (_ && _); cbn [snd Rest.effects];
      solve [eexists; split; [reflexivity|constructor]
            |exists []; split; [rewrite app_nil_r; reflexivity|constructor]].
  - rewrite load_items_run. cbn [snd Rest.effects].
    eexists. split; [reflexivity|].
    unfold zoom_effects, scroll_effects.
    destruct (restored_zoom _ _), (restored_scroll _ _ _); constructor.
  - eexists. split; [reflexivity|constructor].
  - rewrite shutdown_run. cbn [snd].
    destruct (version_check_exact "5.8"); eexists; split; try reflexivity; constructor.
  - rewrite _on_load_started_run. cbn [snd].
    destruct (version_check "5.9"); eexists; split; try reflexivity; constructor.
  - rewrite _on_render_process_terminated_run.
    destruct (reported_status status exitcode); cbn [snd Rest.effects];
      solve [eexists; split; [reflexivity|constructor]
            |exists []; split; [rewrite app_nil_r; reflexivity|constructor]].
Qed.

(** X13.  Key events leave the tab in pairs only.  Through any run of
    actions, whatever fails on the way, the key events added to the log are
    presses each followed at once by the release of the same key with the
    same modifier: no press is left without its release, no release comes
    alone, and nothing else is sent between the two. *)
Theorem key_events_come_in_pairs (l : list Rest.action) (w : Rest.whole) :
  paired (key_events
            (drop (length (Rest.effects w)) (Rest.effects (after_these l w)))).
Proof.
  assert (H : exists added,
             Rest.effects (after_these l w) = Rest.effects w ++ added
             /\ paired (key_events added)).
  { revert w. induction l as [|a l IH]; intros w.
    - exists []. split; [rewrite app_nil_r; reflexivity|constructor].
    - destruct (perform_sends_pairs a w) as (l1 & H1 & P1).
      destruct (IH (Rest.run (perform_this a) w)) as (l2 & H2 & P2).
      exists (l1 ++ l2). split.
      + change (after_these (a :: l) w)
          with (after_these l (Rest.run (perform_this a) w)).
        rewrite H2, H1, <- app_assoc. reflexivity.
      + rewrite key_events_app. apply paired_app; assumption. }
  destruct H as (added & -> & Hp). rewrite drop_app_length. exact Hp.
Qed.

End KeyFacts.

(** ** Script worlds *)


